(** * Local-Business-Lead-Finder: discovery / enrichment reconciliation

    A shallow embedding of the lead finder's glue code: the streaming
    discovery parser and the research / geocoding calls of the Gemini
    service, the Places service, and the three [App] components that keep
    the list of businesses (the candidate store), merge research results
    into it and export it as CSV.

    JavaScript strings are modelled as [string] (a sequence of 8-bit code
    units), numbers as binary64 [float], objects with a TypeScript
    interface as records, rejected promises and thrown exceptions as the
    [Throw] case of [Result]. *)

From Stdlib Require Import Ascii String List NArith Lia Bool PrimFloat.
From Stdlib Require Import DecimalString.
From stdpp Require Import base gmap sets list strings.

(* ===================================================================== *)
(** ** JavaScript string primitives used by the sources *)
(* ===================================================================== *)

Module Js.

(** The character [U+0022]. *)
Definition dquote : ascii := "034"%char.
Definition newline : ascii := "010"%char.
Definition carriage_return : ascii := "013"%char.
Definition pipe : ascii := "|"%char.

Definition chr (c : ascii) : string := String c EmptyString.

(** The replacement text of [escapeCsvCell]: two double quotes. *)
Definition two_quotes : string := String dquote (chr dquote).

(** Truthiness of a string: every string but the empty one. *)
Definition truthy (s : string) : bool :=
  match s with EmptyString => false | String _ _ => true end.

(** [!k] for a string that may be undefined. *)
Definition is_falsy (k : option string) : bool :=
  match k with
  | None => true
  | Some s => negb (truthy s)
  end.

(** [a || b] on strings. *)
Definition or_else (a b : string) : string := if truthy a then a else b.

(** [a || b] on numbers: [0], [-0] and [NaN] are falsy. *)
Definition num_or_else (a b : float) : float :=
  if (PrimFloat.eqb a PrimFloat.zero || negb (PrimFloat.eqb a a))%bool
  then b else a.

(** [s.indexOf(c)] for a one-character needle; [None] stands for [-1]. *)
Fixpoint indexOf (c : ascii) (s : string) : option nat :=
  match s with
  | EmptyString => None
  | String x r =>
      if Ascii.eqb x c then Some 0
      else match indexOf c r with Some i => Some (S i) | None => None end
  end.

(** [s.includes(c)]. *)
Definition includes (c : ascii) (s : string) : bool :=
  match indexOf c s with Some _ => true | None => false end.

Fixpoint take (n : nat) (s : string) : string :=
  match n, s with
  | S k, String x r => String x (take k r)
  | _, _ => EmptyString
  end.

Fixpoint drop (n : nat) (s : string) : string :=
  match n, s with
  | S k, String _ r => drop k r
  | _, _ => s
  end.

(** [s.substring(a, b)]: both indices are clamped to the length and
    swapped when [a > b]. *)
Definition substring (s : string) (a b : nat) : string :=
  let a' := Nat.min a (String.length s) in
  let b' := Nat.min b (String.length s) in
  take (Nat.max a' b' - Nat.min a' b') (drop (Nat.min a' b') s).

(** [s.substring(a)]. *)
Definition substring_from (s : string) (a : nat) : string :=
  substring s a (String.length s).

(** White space as [String.prototype.trim] sees it, among the code
    units below 256: TAB, LF, VT, FF, CR, SPACE and NBSP. *)
Definition is_white_space (c : ascii) : bool :=
  match c with
  | "009" | "010" | "011" | "012" | "013" | " " | "160" => true
  | _ => false
  end%char.

Fixpoint trimStart (s : string) : string :=
  match s with
  | EmptyString => EmptyString
  | String c r => if is_white_space c then trimStart r else s
  end.

Fixpoint trimEnd (s : string) : string :=
  match s with
  | EmptyString => EmptyString
  | String c r =>
      match trimEnd r with
      | EmptyString => if is_white_space c then EmptyString else chr c
      | r' => String c r'
      end
  end.

Definition trim (s : string) : string := trimEnd (trimStart s).

(** [s.split(c)] for a one-character separator: never the empty list. *)
Fixpoint split (c : ascii) (s : string) : list string :=
  match s with
  | EmptyString => [EmptyString]
  | String x r =>
      if Ascii.eqb x c then EmptyString :: split c r
      else match split c r with
           | p :: ps => String x p :: ps
           | [] => [chr x]
           end
  end.

(** [s.startsWith(p)]. *)
Definition startsWith (p s : string) : bool := String.prefix p s.

(** [s.replace(/c/g, by)] for a one-character pattern. *)
Fixpoint replaceAll (c : ascii) (by_ : string) (s : string) : string :=
  match s with
  | EmptyString => EmptyString
  | String x r =>
      if Ascii.eqb x c then by_ +:+ replaceAll c by_ r
      else String x (replaceAll c by_ r)
  end.

(** [xs.join(sep)]. *)
Fixpoint join (sep : string) (xs : list string) : string :=
  match xs with
  | [] => EmptyString
  | [x] => x
  | x :: rest => x +:+ sep +:+ join sep rest
  end.

(** Latin-1 part of [String.prototype.toLowerCase]. *)
Definition lower_char (c : ascii) : ascii :=
  let n := nat_of_ascii c in
  if ((65 <=? n) && (n <=? 90))%nat then ascii_of_nat (n + 32)
  else if ((192 <=? n) && (n <=? 222) && negb (n =? 215))%nat
       then ascii_of_nat (n + 32)
  else c.

Fixpoint toLowerCase (s : string) : string :=
  match s with
  | EmptyString => EmptyString
  | String c r => String (lower_char c) (toLowerCase r)
  end.

(** [Math.min(a, b)]: [NaN] when either argument is. *)
Definition Math_min (a b : float) : float :=
  if (negb (PrimFloat.eqb a a) || negb (PrimFloat.eqb b b))%bool then PrimFloat.nan
  else if PrimFloat.ltb b a then b else a.

(** Template-literal rendering of a non-negative integer number. *)
Definition of_N (n : N) : string := NilZero.string_of_uint (N.to_uint n).

End Js.

(* ===================================================================== *)
(** ** Exceptions *)
(* ===================================================================== *)

(** An [Error] object is represented by its message. *)
Inductive Result (A : Type) : Type :=
| Ok (a : A)
| Throw (message : string).
Arguments Ok {A} a.
Arguments Throw {A} message.

(** Code that updates a state [S] and may throw: what was written to the
    state before the exception stays written. *)
Definition M (S A : Type) : Type := S -> Result A * S.

Definition ret {S A} (a : A) : M S A := fun s => (Ok a, s).
Definition throw {S A} (message : string) : M S A := fun s => (Throw message, s).
Definition bind {S A B} (m : M S A) (k : A -> M S B) : M S B :=
  fun s => match m s with
           | (Ok a, s') => k a s'
           | (Throw e, s') => (Throw e, s')
           end.
(** [await p] of a promise that has settled as [r]. *)
Definition await {S A} (r : Result A) : M S A := fun s => (r, s).
Definition modify {S} (f : S -> S) : M S unit := fun s => (Ok tt, f s).
Definition try_catch {S A} (body : M S A) (handler : string -> M S A) : M S A :=
  fun s => match body s with
           | (Ok a, s') => (Ok a, s')
           | (Throw e, s') => handler e s'
           end.
Definition finally {S A} (body : M S A) (cleanup : M S unit) : M S A :=
  fun s => match body s with
           | (r, s') => match cleanup s' with
                        | (Ok _, s'') => (r, s'')
                        | (Throw e, s'') => (Throw e, s'')
                        end
           end.

Global Instance M_ret {S} : MRet (M S) := fun A a => ret a.
Global Instance M_bind {S} : MBind (M S) := fun A B k m => bind m k.

(* ===================================================================== *)
(** ** types.ts *)
(* ===================================================================== *)

Module LatLng.
Record t : Type := { lat : float; lng : float }.
End LatLng.

Module Types.

Inductive BusinessStatus : Type := DISCOVERED | EMAILED | REPLIED.

(** The string value of each member of the enum. *)
Definition status_value (s : BusinessStatus) : string :=
  match s with
  | DISCOVERED => "Discovered"
  | EMAILED => "Emailed"
  | REPLIED => "Replied"
  end.

(** [interface Business].  The last five fields are not part of the
    interface: the App components add them to the objects of the store
    by object spread, so they are absent ([None]) until then. *)
Record Business : Type := {
  id : string;
  discoveryName : string;
  discoveryWebsite : string;
  companyName : string;
  contactName : string;
  address : string;
  phone : string;
  email : string;
  description : string;
  status : BusinessStatus;
  dateFound : string;
  emailThreadId : string;
  isResearching : bool;
  areaSearched : string;
  businessType : string;
  lat : option float;
  lng : option float;
  websiteUri : option string;
  rating : option float;
  userRatingCount : option float
}.

Record BusinessDiscovery : Type := { name : string; website : string }.

Record ResearchedBusinessData : Type := {
  r_companyName : string;
  r_contactName : string;
  r_address : string;
  r_phone : string;
  r_email : string;
  r_description : string
}.

(** [{ ...b, ...researchedData }]: the six properties of the research
    record replace those of [b]. *)
Definition spread_research (b : Business) (r : ResearchedBusinessData) : Business :=
  {| id := id b; discoveryName := discoveryName b;
     discoveryWebsite := discoveryWebsite b;
     companyName := r_companyName r; contactName := r_contactName r;
     address := r_address r; phone := r_phone r; email := r_email r;
     description := r_description r;
     status := status b; dateFound := dateFound b;
     emailThreadId := emailThreadId b; isResearching := isResearching b;
     areaSearched := areaSearched b; businessType := businessType b;
     lat := lat b; lng := lng b; websiteUri := websiteUri b;
     rating := rating b; userRatingCount := userRatingCount b |}.

(** [{ ...b, ...coords }] where [coords] is [undefined], [null] (both
    [None]: nothing is spread) or a [{lat, lng}] object. *)
Definition spread_coords (b : Business) (coords : option LatLng.t) : Business :=
  match coords with
  | None => b
  | Some c =>
      {| id := id b; discoveryName := discoveryName b;
         discoveryWebsite := discoveryWebsite b;
         companyName := companyName b; contactName := contactName b;
         address := address b; phone := phone b; email := email b;
         description := description b;
         status := status b; dateFound := dateFound b;
         emailThreadId := emailThreadId b; isResearching := isResearching b;
         areaSearched := areaSearched b; businessType := businessType b;
         lat := Some (LatLng.lat c); lng := Some (LatLng.lng c);
         websiteUri := websiteUri b;
         rating := rating b; userRatingCount := userRatingCount b |}
  end.

(** [{ ...b, isResearching: v }] *)
Definition set_isResearching (v : bool) (b : Business) : Business :=
  {| id := id b; discoveryName := discoveryName b;
     discoveryWebsite := discoveryWebsite b;
     companyName := companyName b; contactName := contactName b;
     address := address b; phone := phone b; email := email b;
     description := description b;
     status := status b; dateFound := dateFound b;
     emailThreadId := emailThreadId b; isResearching := v;
     areaSearched := areaSearched b; businessType := businessType b;
     lat := lat b; lng := lng b; websiteUri := websiteUri b;
     rating := rating b; userRatingCount := userRatingCount b |}.

(** [{ ...b, description: v }] *)
Definition set_description (v : string) (b : Business) : Business :=
  {| id := id b; discoveryName := discoveryName b;
     discoveryWebsite := discoveryWebsite b;
     companyName := companyName b; contactName := contactName b;
     address := address b; phone := phone b; email := email b;
     description := v;
     status := status b; dateFound := dateFound b;
     emailThreadId := emailThreadId b; isResearching := isResearching b;
     areaSearched := areaSearched b; businessType := businessType b;
     lat := lat b; lng := lng b; websiteUri := websiteUri b;
     rating := rating b; userRatingCount := userRatingCount b |}.

(** [{ ...b, dateFound: v }] *)
Definition set_dateFound (v : string) (b : Business) : Business :=
  {| id := id b; discoveryName := discoveryName b;
     discoveryWebsite := discoveryWebsite b;
     companyName := companyName b; contactName := contactName b;
     address := address b; phone := phone b; email := email b;
     description := description b;
     status := status b; dateFound := v;
     emailThreadId := emailThreadId b; isResearching := isResearching b;
     areaSearched := areaSearched b; businessType := businessType b;
     lat := lat b; lng := lng b; websiteUri := websiteUri b;
     rating := rating b; userRatingCount := userRatingCount b |}.

(** [{ ...b, websiteUri: w, phone: p, address: a, rating: r,
       userRatingCount: n }] *)
Definition set_place_fields (w p a : string) (r n : float) (b : Business) : Business :=
  {| id := id b; discoveryName := discoveryName b;
     discoveryWebsite := discoveryWebsite b;
     companyName := companyName b; contactName := contactName b;
     address := a; phone := p; email := email b;
     description := description b;
     status := status b; dateFound := dateFound b;
     emailThreadId := emailThreadId b; isResearching := isResearching b;
     areaSearched := areaSearched b; businessType := businessType b;
     lat := lat b; lng := lng b; websiteUri := Some w;
     rating := Some r; userRatingCount := Some n |}.

End Types.

(* ===================================================================== *)
(** ** services/placesService.ts: interfaces and wire formats *)
(* ===================================================================== *)

Module PlacesTypes.

Record Location : Type := { latitude : float; longitude : float }.

(** [interface PlaceSearchResult]; [currentOpeningHours] is carried as
    an opaque optional value. *)
Record PlaceSearchResult : Type := {
  id : string;
  displayName : string;
  location : Location;
  primaryType : string;
  formattedAddress : option string;
  websiteUri : option string;
  nationalPhoneNumber : option string;
  rating : option float;
  userRatingCount : option float;
  currentOpeningHours : option string
}.

Inductive AreaType : Type := circle_t | rectangle_t.

Record Circle : Type := { center : Location; radius : float }.
Record Rectangle : Type := { low : Location; high : Location }.

(** [interface SearchArea] *)
Record SearchArea : Type := {
  type : AreaType;
  circle : option Circle;
  rectangle : option Rectangle
}.

(** The value [getPlaceTypes] returns.  Its annotation says [string[]];
    the property read [PLACE_TYPES[normalized]] it returns also finds what
    the object literal inherits from [Object.prototype]: a function, kept
    here by its [length], or, under [__proto__], [Object.prototype]
    itself. *)
Inductive PlaceTypes : Type :=
| TypesArray (types : list string)
| InheritedFunction (length : nat)
| InheritedPrototype.

(** The objects handed to [JSON.stringify] for the two search endpoints.
    [includedTypes] is the value of [getPlaceTypes] as it is; an optional
    property that is [None] is absent or [undefined], which
    [JSON.stringify] leaves out alike. *)
Inductive RequestBody : Type :=
| NearbyBody (includedTypes : PlaceTypes) (restriction : Circle)
    (maxResultCount : float)
| TextBody (textQuery : string) (restriction : Rectangle) (pageSize : float)
    (includedType : option string) (strictTypeFiltering : option bool).

(** One entry of [response.places] as the search endpoints send it. *)
Record RawPlace : Type := {
  raw_id : string;
  raw_displayName_text : option string;
  raw_location : Location;
  raw_primaryType : option string;
  raw_formattedAddress : option string
}.

Record SearchJson : Type := { places : option (list RawPlace) }.

(** The JSON of a place-details response. *)
Record DetailsJson : Type := {
  d_displayName_text : option string;
  d_location : Location;
  d_primaryType : option string;
  d_formattedAddress : option string;
  d_websiteUri : option string;
  d_nationalPhoneNumber : option string;
  d_rating : option float;
  d_userRatingCount : option float;
  d_currentOpeningHours : option string
}.

(** A [Response]: [ok], [status], and what [text()] and [json()] give. *)
Record HttpResponse (A : Type) : Type := {
  ok : bool;
  http_status : N;
  text : Result string;
  json : Result A
}.
Arguments ok {A} _.
Arguments http_status {A} _.
Arguments text {A} _.
Arguments json {A} _.

End PlacesTypes.

(* ===================================================================== *)
(** ** The platform *)
(* ===================================================================== *)

(** What the browser, the environment and the two remote services answer.
    Each remote call is a function from the request to the way its
    promise settles. *)

Module Platform.

Inductive StreamEnd : Type :=
| EndOfStream
| StreamError (message : string).

(** The async iterable returned by [generateContentStream]: the texts of
    the chunks it yields, then how the iteration ends. *)
Record ResponseStream : Type := {
  chunks : list string;
  ending : StreamEnd
}.

(** The body of a geocoding response: [data.status] and, for each entry of
    [data.results], its [geometry.location]. *)
Record GeocodeData : Type := {
  geo_status : string;
  geo_results : list LatLng.t
}.

Record t : Type := {
  (** [process.env.GOOGLE_MAPS_API_KEY] and [process.env.API_KEY] *)
  GOOGLE_MAPS_API_KEY : option string;
  API_KEY : option string;
  (** [new GoogleGenAI({ apiKey })]: whether the constructor of the SDK
      returns or throws, by the key it is given *)
  new_GoogleGenAI : option string -> Result unit;
  (** [ai.models.generateContentStream] by prompt *)
  generateContentStream : string -> Result ResponseStream;
  (** [ai.models.generateContent] by prompt: the response's [text] *)
  generateContent : string -> Result string;
  (** [JSON.parse(text) as ResearchedBusinessData] *)
  JSON_parse : string -> Result Types.ResearchedBusinessData;
  encodeURIComponent : string -> string;
  (** [fetch(url)] followed by [response.json()] on the geocoding API *)
  fetch_geocode : string -> Result GeocodeData;
  (** [fetch] on the Places API: URL, key, field mask and, for the search
      endpoints, the posted body *)
  fetch_places : string -> string -> string -> PlacesTypes.RequestBody ->
                 Result (PlacesTypes.HttpResponse PlacesTypes.SearchJson);
  fetch_place_details : string -> string -> string ->
                 Result (PlacesTypes.HttpResponse PlacesTypes.DetailsJson);
  (** [parseInt(s, 10)] *)
  parseInt10 : string -> float;
  (** the value of the n-th reading of the clock, in milliseconds *)
  Date_now : nat -> N;
  (** [new Date(ms).toISOString().split('T')[0]] *)
  toISODate : N -> string
}.

End Platform.

(* ===================================================================== *)
(** ** services/geminiService.ts *)
(* ===================================================================== *)

Module GeminiService.
Import Types.

Section WithPlatform.
Context (env : Platform.t).

(** [const ai = new GoogleGenAI({ apiKey: process.env.API_KEY })]: the
    statement at the top of the module, run once, when the module is
    first imported; the key is handed over as it is.  The functions below
    call the SDK through [ai]: they exist once this has returned. *)
Definition ai : Result unit :=
  Platform.new_GoogleGenAI env (Platform.API_KEY env).

(** The body shared by the loop and by the final flush: a trimmed line
    with a [|], at least two parts, a non-empty name and a non-empty
    website that starts with [http] is reported to [onDiscovery]. *)
Definition emitLine {S : Type} (onDiscovery : BusinessDiscovery -> S -> S)
    (line : string) (s : S) : S :=
  if Js.includes Js.pipe line then
    let parts := Js.split Js.pipe line in
    if (2 <=? length parts)%nat then
      let name := Js.trim (nth 0 parts EmptyString) in
      let website := Js.trim (nth 1 parts EmptyString) in
      if Js.truthy name && Js.truthy website && Js.startsWith "http" website
      then onDiscovery {| name := name; website := website |} s
      else s
    else s
  else s.

(** [while ((newlineIndex = buffer.indexOf('\n')) !== -1) { ... }].
    Every iteration removes at least one character from the buffer, so
    [fuel = length buffer] iterations are never exhausted (lemma
    [drainBuffer_exits] below): the loop leaves by its own test. *)
Fixpoint drainBuffer {S : Type} (fuel : nat)
    (onDiscovery : BusinessDiscovery -> S -> S)
    (buffer : string) (s : S) : string * S :=
  match Js.indexOf Js.newline buffer with
  | None => (buffer, s)
  | Some newlineIndex =>
      match fuel with
      | O => (buffer, s)
      | Datatypes.S fuel' =>
          let line := Js.trim (Js.substring buffer 0 newlineIndex) in
          let buffer' := Js.substring_from buffer (newlineIndex + 1) in
          drainBuffer fuel' onDiscovery buffer' (emitLine onDiscovery line s)
      end
  end.

(** The loop run on [buffer] with the fuel that is always enough. *)
Definition drain {S : Type} (onDiscovery : BusinessDiscovery -> S -> S)
    (buffer : string) (s : S) : string * S :=
  drainBuffer (String.length buffer) onDiscovery buffer s.

(** [for await (const chunk of responseStream) { buffer += chunk.text; ... }]
    over the chunks the stream yields; the result is the buffer left. *)
Fixpoint forAwaitChunks {S : Type} (onDiscovery : BusinessDiscovery -> S -> S)
    (chunks : list string) (buffer : string) (s : S) : string * S :=
  match chunks with
  | [] => (buffer, s)
  | chunk :: rest =>
      let '(buffer', s') := drain onDiscovery (buffer +:+ chunk) s in
      forAwaitChunks onDiscovery rest buffer' s'
  end.

Definition resultLimitText (numResults : string) : string :=
  if String.eqb numResults "ALL"
  then "Provide a comprehensive list of all"
  else "List the top " +:+ numResults.

Definition discoveryPrompt (location businessType numResults : string) : string :=
  resultLimitText numResults +:+ " " +:+ businessType +:+ " in " +:+ location
  +:+ ". For each business, provide only its name and official website URL. Stream each result as soon as you find it, formatted as a single line: Business Name | https://website.url. Do not add any other commentary, headers, or formatting.".

Definition findBusinessesStream {S : Type}
    (location businessType numResults : string)
    (onDiscovery : BusinessDiscovery -> S -> S) : M S unit :=
  try_catch
    (responseStream ← await (Platform.generateContentStream env
                              (discoveryPrompt location businessType numResults));
     buffer ← (fun s =>
       let '(buffer, s') :=
         forAwaitChunks onDiscovery (Platform.chunks responseStream) EmptyString s in
       match Platform.ending responseStream with
       | Platform.EndOfStream => (Ok buffer, s')
       | Platform.StreamError e => (Throw e, s')
       end);
     (* Process any remaining text in the buffer after the stream ends *)
     modify (emitLine onDiscovery (Js.trim buffer)))
    (fun _ => throw "Failed to find businesses using Gemini API stream.").

Definition researchPrompt (businessName businessWebsite : string) : string :=
  "Act as a world-class business research analyst. Conduct deep research on the company "
  +:+ Js.chr Js.dquote +:+ businessName +:+ Js.chr Js.dquote
  +:+ " with the website "
  +:+ Js.chr Js.dquote +:+ businessWebsite +:+ Js.chr Js.dquote
  +:+ ". Your primary goal is to find a specific contact email address suitable for outreach (e.g., owner, manager, marketing department), avoiding generic emails like 'info@' or 'contact@' if possible. Additionally, provide a comprehensive, professional paragraph describing the business, its core services or products, its mission, and its typical customer base. Populate all fields in the provided JSON schema with the most accurate information you can find.".

(** The promise returned by [researchBusiness]: resolved with the parsed
    record, or rejected with the error of the [catch] clause. *)
Definition researchBusiness (businessName businessWebsite : string)
    : Result ResearchedBusinessData :=
  match Platform.generateContent env (researchPrompt businessName businessWebsite) with
  | Ok jsonText =>
      match Platform.JSON_parse env jsonText with
      | Ok data => Ok data
      | Throw _ =>
          Throw ("Failed to research business " +:+ Js.chr Js.dquote
                 +:+ businessName +:+ Js.chr Js.dquote +:+ ".")
      end
  | Throw _ =>
      Throw ("Failed to research business " +:+ Js.chr Js.dquote
             +:+ businessName +:+ Js.chr Js.dquote +:+ ".")
  end.

(** The promise returned by [geocodeAddress]: it never rejects; [None] is
    [null]. *)
Definition geocodeAddress (address : string) : option LatLng.t :=
  match Platform.GOOGLE_MAPS_API_KEY env with
  | None => None
  | Some apiKey =>
      if negb (Js.truthy apiKey) then None
      else
        let url := "https://maps.googleapis.com/maps/api/geocode/json?address="
                   +:+ Platform.encodeURIComponent env address
                   +:+ "&key=" +:+ apiKey in
        match Platform.fetch_geocode env url with
        | Ok data =>
            if String.eqb (Platform.geo_status data) "OK" then
              match Platform.geo_results data with
              | location :: _ => Some location
              | [] => None
              end
            else None
        | Throw _ => None
        end
  end.

End WithPlatform.
End GeminiService.

(* ===================================================================== *)
(** ** services/placesService.ts *)
(* ===================================================================== *)

Module PlacesService.
Import PlacesTypes.

Definition BASE_URL : string := "https://places.googleapis.com/v1".

(** Place Types mapping (own properties of the object literal). *)
Definition PLACE_TYPES : list (string * list string) :=
  [ ("coffee shop", ["cafe"]); ("coffee", ["cafe"]); ("cafe", ["cafe"]);
    ("restaurant", ["restaurant"]);
    ("food", ["restaurant"; "meal_takeaway"; "meal_delivery"]);
    ("gym", ["gym"]); ("fitness", ["gym"]); ("bar", ["bar"]); ("pub", ["bar"]);
    ("hotel", ["lodging"]); ("retail", ["store"]); ("shop", ["store"]);
    ("pharmacy", ["pharmacy"]); ("bank", ["bank"]);
    ("gas station", ["gas_station"]); ("hospital", ["hospital"]);
    ("clinic", ["hospital"]); ("school", ["school"]);
    ("university", ["university"]); ("library", ["library"]);
    ("park", ["park"]); ("museum", ["museum"]);
    ("theater", ["movie_theater"]); ("cinema", ["movie_theater"]);
    ("beauty salon", ["beauty_salon"]); ("hair salon", ["beauty_salon"]);
    ("salon", ["beauty_salon"]); ("salons", ["beauty_salon"]);
    ("spa", ["spa"]); ("car repair", ["car_repair"]);
    ("auto repair", ["car_repair"]); ("dentist", ["dentist"]);
    ("doctor", ["doctor"]); ("lawyer", ["lawyer"]);
    ("accountant", ["accountant"]); ("real estate", ["real_estate_agency"]);
    ("insurance", ["insurance_agency"]); ("bakery", ["bakery"]);
    ("book store", ["book_store"]); ("clothing store", ["clothing_store"]);
    ("electronics store", ["electronics_store"]);
    ("furniture store", ["furniture_store"]);
    ("hardware store", ["hardware_store"]);
    ("jewelry store", ["jewelry_store"]); ("shoe store", ["shoe_store"]);
    ("sporting goods store", ["sporting_goods_store"]);
    ("supermarket", ["supermarket"]);
    ("department store", ["department_store"]);
    ("convenience store", ["convenience_store"]); ("florist", ["florist"]);
    ("pet store", ["pet_store"]); ("toy store", ["toy_store"]);
    ("travel agency", ["travel_agency"]);
    ("veterinary care", ["veterinary_care"]) ].

Fixpoint lookup_type (key : string) (table : list (string * list string))
    : option (list string) :=
  match table with
  | [] => None
  | (k, v) :: rest => if String.eqb k key then Some v else lookup_type key rest
  end.

(** The properties every object literal inherits from [Object.prototype]:
    the standard methods and the legacy accessors, each function with its
    [length]. *)
Definition Object_prototype : list (string * PlaceTypes) :=
  [ ("constructor", InheritedFunction 1);
    ("hasOwnProperty", InheritedFunction 1);
    ("isPrototypeOf", InheritedFunction 1);
    ("propertyIsEnumerable", InheritedFunction 1);
    ("toLocaleString", InheritedFunction 0);
    ("toString", InheritedFunction 0);
    ("valueOf", InheritedFunction 0);
    ("__defineGetter__", InheritedFunction 2);
    ("__defineSetter__", InheritedFunction 2);
    ("__lookupGetter__", InheritedFunction 1);
    ("__lookupSetter__", InheritedFunction 1);
    ("__proto__", InheritedPrototype) ].

Fixpoint lookup_inherited (key : string) (table : list (string * PlaceTypes))
    : option PlaceTypes :=
  match table with
  | [] => None
  | (k, v) :: rest => if String.eqb k key then Some v else lookup_inherited key rest
  end.

(** [PLACE_TYPES[key]]: an own property of the literal, else a property
    of [Object.prototype], else [undefined]. *)
Definition PLACE_TYPES_get (key : string) : option PlaceTypes :=
  match lookup_type key PLACE_TYPES with
  | Some types => Some (TypesArray types)
  | None => lookup_inherited key Object_prototype
  end.

(** Every value the read can find (an array, a function, an object) is
    truthy, so [if (mappedTypes)] returns whatever was found. *)
Definition getPlaceTypes (businessType : string) : PlaceTypes :=
  let normalized := Js.trim (Js.toLowerCase businessType) in
  match PLACE_TYPES_get normalized with
  | Some mappedTypes => mappedTypes
  | None => TypesArray []
  end.

(** [placeTypes.length]; [None] is [undefined]. *)
Definition length_of (placeTypes : PlaceTypes) : option nat :=
  match placeTypes with
  | TypesArray types => Some (length types)
  | InheritedFunction n => Some n
  | InheritedPrototype => None
  end.

(** [placeTypes[0]]; [None] is [undefined]. *)
Definition first_of (placeTypes : PlaceTypes) : option string :=
  match placeTypes with
  | TypesArray (t :: _) => Some t
  | _ => None
  end.

(** [o || d] for an optional string property. *)
Definition opt_or (o : option string) (d : string) : string :=
  match o with Some s => Js.or_else s d | None => d end.

(** [o || d] for an optional number property. *)
Definition opt_num_or (o : option float) (d : float) : float :=
  match o with Some x => Js.num_or_else x d | None => d end.

Section WithPlatform.
Context (env : Platform.t).

(** [const API_KEY = process.env.GOOGLE_MAPS_API_KEY] *)
Definition API_KEY : option string := Platform.GOOGLE_MAPS_API_KEY env.

Definition makePlacesRequest (endpoint : string) (body : RequestBody)
    (fieldMask : string) : Result SearchJson :=
  match API_KEY with
  | None => Throw "Google Maps API key is not configured"
  | Some key =>
      if negb (Js.truthy key) then Throw "Google Maps API key is not configured"
      else
        match Platform.fetch_places env (BASE_URL +:+ endpoint) key fieldMask body with
        | Throw e => Throw e
        | Ok response =>
            if negb (ok response) then
              match text response with
              | Throw e => Throw e
              | Ok error =>
                  Throw ("Places API error: " +:+ Js.of_N (http_status response)
                         +:+ " - " +:+ error)
              end
            else json response
        end
  end.

Definition makePlaceDetailsRequest (placeId : string) (fieldMask : string)
    : Result DetailsJson :=
  match API_KEY with
  | None => Throw "Google Maps API key is not configured"
  | Some key =>
      if negb (Js.truthy key) then Throw "Google Maps API key is not configured"
      else
        match Platform.fetch_place_details env
                (BASE_URL +:+ "/places/" +:+ placeId) key fieldMask with
        | Throw e => Throw e
        | Ok response =>
            if negb (ok response) then
              match text response with
              | Throw e => Throw e
              | Ok error =>
                  Throw ("Place Details API error: "
                         +:+ Js.of_N (http_status response) +:+ " - " +:+ error)
              end
            else json response
        end
  end.

(** The object built from each entry of [response.places]. *)
Definition place_of_raw (place : RawPlace) : PlaceSearchResult :=
  {| id := raw_id place;
     displayName := opt_or (raw_displayName_text place) EmptyString;
     location := raw_location place;
     primaryType := opt_or (raw_primaryType place) EmptyString;
     formattedAddress := Some (opt_or (raw_formattedAddress place) EmptyString);
     websiteUri := None; nationalPhoneNumber := None;
     rating := None; userRatingCount := None; currentOpeningHours := None |}.

Definition places_of_response (response : SearchJson) : list PlaceSearchResult :=
  match places response with
  | Some ps => map place_of_raw ps
  | None => []
  end.

Definition searchFieldMask : string :=
  "places.id,places.displayName,places.location,places.primaryType,places.formattedAddress".

Definition twenty : float := 20%float.

(** Step 1: Discovery *)
Definition searchPlacesInArea (businessType : string) (searchArea : SearchArea)
    (maxResults : float) : Result (list PlaceSearchResult) :=
  let placeTypes := getPlaceTypes businessType in
  match type searchArea, circle searchArea, rectangle searchArea with
  | circle_t, Some c, _ =>
      if match length_of placeTypes with Some 0 => true | _ => false end then
        Throw ("Business type " +:+ Js.chr Js.dquote +:+ businessType
               +:+ Js.chr Js.dquote
               +:+ " is not supported. Please use a supported business type like "
               +:+ Js.chr Js.dquote +:+ "coffee shop" +:+ Js.chr Js.dquote +:+ ", "
               +:+ Js.chr Js.dquote +:+ "restaurant" +:+ Js.chr Js.dquote +:+ ", "
               +:+ Js.chr Js.dquote +:+ "gym" +:+ Js.chr Js.dquote +:+ ", etc.")
      else
        let body := NearbyBody placeTypes
                      {| center := center c; radius := radius c |}
                      (Js.Math_min maxResults twenty) in
        match makePlacesRequest "/places:searchNearby" body searchFieldMask with
        | Throw e => Throw e
        | Ok response => Ok (places_of_response response)
        end
  | rectangle_t, _, Some r =>
      let body :=
        TextBody businessType {| low := low r; high := high r |}
          (Js.Math_min maxResults twenty)
          (match length_of placeTypes with
           | Some (S _) => first_of placeTypes
           | _ => None
           end)
          (match length_of placeTypes with
           | Some (S _) => Some true
           | _ => None
           end) in
      match makePlacesRequest "/places:searchText" body searchFieldMask with
      | Throw e => Throw e
      | Ok response => Ok (places_of_response response)
      end
  | _, _, _ => Ok []
  end.

Definition detailsFieldMask : string :=
  "displayName,formattedAddress,websiteUri,nationalPhoneNumber,rating,userRatingCount,currentOpeningHours,location,primaryType".

(** Step 2: Research *)
Definition getPlaceDetails (placeId : string) : Result PlaceSearchResult :=
  match makePlaceDetailsRequest placeId detailsFieldMask with
  | Throw e => Throw e
  | Ok response =>
      Ok {| id := placeId;
            displayName := opt_or (d_displayName_text response) EmptyString;
            location := d_location response;
            primaryType := opt_or (d_primaryType response) EmptyString;
            formattedAddress := Some (opt_or (d_formattedAddress response) EmptyString);
            websiteUri := Some (opt_or (d_websiteUri response) EmptyString);
            nationalPhoneNumber :=
              Some (opt_or (d_nationalPhoneNumber response) EmptyString);
            rating := Some (opt_num_or (d_rating response) PrimFloat.zero);
            userRatingCount :=
              Some (opt_num_or (d_userRatingCount response) PrimFloat.zero);
            currentOpeningHours := d_currentOpeningHours response |}
  end.

End WithPlatform.
End PlacesService.

(* ===================================================================== *)
(** ** React state shared by the three App components *)
(* ===================================================================== *)

Module React.
Import Types.

(** The [useState] cells of [App], and the number of clock readings made
    so far (which selects the next answer of [Platform.Date_now]). *)
Record AppState : Type := {
  businesses : list Business;
  isLoading : bool;
  researchMessage : string;
  error : option string;
  clock : nat
}.

Definition initialState : AppState :=
  {| businesses := []; isLoading := false; researchMessage := EmptyString;
     error := None; clock := 0 |}.

(** [prev.map(b => b.id === businessId ? f(b) : b)], the shape of every
    update of the store after its creation. *)
Definition mapById (businessId : string) (f : Business -> Business)
    (prev : list Business) : list Business :=
  map (fun b => if String.eqb (id b) businessId then f b else b) prev.

Definition over_businesses (f : list Business -> list Business) (s : AppState)
    : AppState :=
  {| businesses := f (businesses s); isLoading := isLoading s;
     researchMessage := researchMessage s; error := error s;
     clock := clock s |}.

(** [setBusinesses(prev => f(prev))] *)
Definition setBusinesses (f : list Business -> list Business) : M AppState unit :=
  modify (over_businesses f).

Definition setIsLoading (v : bool) : M AppState unit :=
  modify (fun s => {| businesses := businesses s; isLoading := v;
                      researchMessage := researchMessage s; error := error s;
                      clock := clock s |}).

Definition setResearchMessage (v : string) : M AppState unit :=
  modify (fun s => {| businesses := businesses s; isLoading := isLoading s;
                      researchMessage := v; error := error s;
                      clock := clock s |}).

Definition setError (v : option string) : M AppState unit :=
  modify (fun s => {| businesses := businesses s; isLoading := isLoading s;
                      researchMessage := researchMessage s; error := v;
                      clock := clock s |}).

Definition tick (n : nat) (s : AppState) : AppState :=
  {| businesses := businesses s; isLoading := isLoading s;
     researchMessage := researchMessage s; error := error s;
     clock := clock s + n |}.

(** [new Date().toISOString().split('T')[0]] *)
Definition today (env : Platform.t) : M AppState string :=
  fun s => (Ok (Platform.toISODate env (Platform.Date_now env (clock s))), tick 1 s).

(** Run [m], which only touches the React state, next to a local
    variable of the enclosing closure. *)
Definition lift {L A} (m : M AppState A) : M (L * AppState) A :=
  fun '(l, s) => match m s with (r, s') => (r, (l, s')) end.

(** Run [m] with a fresh local variable [l0] (a [const] of the enclosing
    function body). *)
Definition with_local {L A} (l0 : L) (m : M (L * AppState) A) : M AppState A :=
  fun s => match m (l0, s) with (r, (_, s')) => (r, s') end.

(** The React state when a search has started: the three setters that
    open [handleSearch] have run. *)
Definition searching (s : AppState) : AppState :=
  snd ((setIsLoading true;; setError None;;
        setResearchMessage "Discovering businesses...") s).

Definition CRLF : string := String Js.carriage_return (String Js.newline EmptyString).

(** [csvContent += cells.map(escapeCsvCell).join(',') + '\r\n'] *)
Definition appendCsvLine (escapeCsvCell : string -> string)
    (csvContent : string) (cells : list string) : string :=
  csvContent +:+ (Js.join "," (map escapeCsvCell cells) +:+ CRLF).

(** The [csvContent] that [exportToCsv] builds from [headers] and [rows];
    the download link's [href] is [encodeURI(csvContent)].  [None]: the
    early [return] on an empty list, nothing is exported. *)
Definition csvContentOf (escapeCsvCell : string -> string)
    (headers : list string) (row : Business -> list string)
    (businesses : list Business) : option string :=
  if (length businesses =? 0)%nat then None
  else
    let rows := map row businesses in
    let csvContent := "data:text/csv;charset=utf-8," in
    let csvContent := appendCsvLine escapeCsvCell csvContent headers in
    Some (fold_left (appendCsvLine escapeCsvCell) rows csvContent).

End React.

(* ===================================================================== *)
(** ** App.tsx with the streaming search, geocoding and the map
       (the component that imports [SearchForm] and [BusinessMap]) *)
(* ===================================================================== *)

Module AppGeo.
Import Types React.

Section WithPlatform.
Context (env : Platform.t).

(** The state updater of the [try] branch. *)
Definition mergeResearch (businessId : string) (researchedData : ResearchedBusinessData)
    (coords : option LatLng.t) (prev : list Business) : list Business :=
  mapById businessId
    (fun b => set_isResearching false
            (spread_coords (spread_research b researchedData) coords))
    prev.

(** The state updater of the [catch] branch. *)
Definition markFailed (businessId : string) (prev : list Business) : list Business :=
  mapById businessId
    (fun b => set_isResearching false (set_description "Research failed." b))
    prev.

(** [let coords; if (researchedData.address && researchedData.address !==
    'Not Found') coords = await geocodeAddress(researchedData.address)] *)
Definition geocodeIfFound (researchedData : ResearchedBusinessData)
    : option LatLng.t :=
  if Js.truthy (r_address researchedData)
     && negb (String.eqb (r_address researchedData) "Not Found")
  then GeminiService.geocodeAddress env (r_address researchedData)
  else None.

Definition processResearchAndGeocoding (business : Business) : M AppState unit :=
  try_catch
    (researchedData ← await (GeminiService.researchBusiness env
                               (discoveryName business) (discoveryWebsite business));
     let coords := geocodeIfFound researchedData in
     setBusinesses (mergeResearch (id business) researchedData coords))
    (fun _ => setBusinesses (markFailed (id business))).

(** The object literal [newBusiness] of [onDiscovery]; the clock is read
    twice, for the id and for the date. *)
Definition newBusiness (location businessType : string)
    (discovery : BusinessDiscovery) (clock : nat) : Business :=
  {| id := Js.of_N (Platform.Date_now env clock) +:+ "-" +:+ website discovery;
     discoveryName := name discovery;
     discoveryWebsite := website discovery;
     companyName := EmptyString; contactName := EmptyString;
     address := EmptyString; phone := EmptyString; email := EmptyString;
     description := EmptyString;
     status := DISCOVERED;
     dateFound := Platform.toISODate env (Platform.Date_now env (clock + 1));
     emailThreadId := "N/A";
     isResearching := true;
     areaSearched := location;
     businessType := businessType;
     lat := None; lng := None; websiteUri := None;
     rating := None; userRatingCount := None |}.

(** [onDiscovery]: the updater passed to [setBusinesses], together with
    its writes to the closure's [discoveredWebsitesThisRun].  The call
    [processResearchAndGeocoding(newBusiness)] it starts settles later, as
    a state update of its own. *)
Definition onDiscovery (location businessType : string)
    (discovery : BusinessDiscovery)
    (st : gset string * AppState) : gset string * AppState :=
  let '(discoveredWebsitesThisRun, s) := st in
  let currentBusinesses := businesses s in
  let alreadyExists :=
    existsb (fun b => String.eqb (discoveryWebsite b) (website discovery))
            currentBusinesses
    || bool_decide (website discovery ∈ discoveredWebsitesThisRun) in
  if negb (Js.truthy (website discovery)) || alreadyExists then st
  else
    ({[ website discovery ]} ∪ discoveredWebsitesThisRun,
     {| businesses := currentBusinesses
                      ++ [newBusiness location businessType discovery (clock s)];
        isLoading := isLoading s; researchMessage := researchMessage s;
        error := error s; clock := clock s + 2 |}).

Definition handleSearch (location businessType numResults : string)
    : M AppState unit :=
  setIsLoading true;;
  setError None;;
  setResearchMessage "Discovering businesses...";;
  with_local (∅ : gset string)
    (finally
       (try_catch
          (GeminiService.findBusinessesStream env location businessType numResults
             (onDiscovery location businessType);;
           lift (setResearchMessage
                   "Discovery stream complete. Research may still be in progress."))
          (fun _ =>
             lift (setError (Some "An error occurred during discovery. Please check the console and try again."));;
             lift (setResearchMessage EmptyString)))
       (lift (setIsLoading false))).

(** The updater that opens a retry. *)
Definition markResearching (businessId : string) (prev : list Business) : list Business :=
  mapById businessId (set_isResearching true) prev.

(** [businesses] is the list captured by the callback when it was created. *)
Definition handleRetryResearch (businesses : list Business) (businessId : string)
    : M AppState unit :=
  match find (fun b => String.eqb (id b) businessId) businesses with
  | None => mret tt
  | Some businessToRetry =>
      setBusinesses (markResearching businessId);;
      date ← today env;
      let updatedBusiness := set_dateFound date businessToRetry in
      processResearchAndGeocoding updatedBusiness
  end.

Definition headers : list string :=
  [ "Company Name"; "Contact Name"; "Address"; "Phone"; "Email"; "Website";
    "Description"; "Status"; "Date Found/Updated"; "Email Thread ID";
    "Area Searched"; "Business Type" ].

Definition row (b : Business) : list string :=
  [ companyName b; contactName b; address b; phone b; email b;
    discoveryWebsite b; description b; status_value (status b); dateFound b;
    emailThreadId b; areaSearched b; businessType b ].

Definition escapeCsvCell (cell : string) : string :=
  Js.chr Js.dquote
  +:+ (if Js.truthy cell
       then Js.replaceAll Js.dquote Js.two_quotes cell
       else EmptyString)
  +:+ Js.chr Js.dquote.

Definition exportToCsv (businesses : list Business) : option string :=
  csvContentOf escapeCsvCell headers row businesses.

End WithPlatform.
End AppGeo.

(* ===================================================================== *)
(** ** App.tsx with the streaming search only
       (the component that imports [SearchForm] and has no map) *)
(* ===================================================================== *)

Module AppStream.
Import Types React.

Section WithPlatform.
Context (env : Platform.t).

(** The updater of the [then] handler. *)
Definition mergeResearch (businessId : string)
    (researchedData : ResearchedBusinessData) (prev : list Business) : list Business :=
  mapById businessId
    (fun b => set_isResearching false (spread_research b researchedData))
    prev.

(** The updater of the [catch] handler. *)
Definition markFailed (businessId : string) (prev : list Business) : list Business :=
  mapById businessId
    (fun b => set_isResearching false (set_description "Research failed." b))
    prev.

(** [researchBusiness(...).then(...).catch(...)] once the promise has
    settled. *)
Definition researchSettled (newBusiness : Business) : M AppState unit :=
  match GeminiService.researchBusiness env
          (discoveryName newBusiness) (discoveryWebsite newBusiness) with
  | Ok researchedData => setBusinesses (mergeResearch (id newBusiness) researchedData)
  | Throw _ => setBusinesses (markFailed (id newBusiness))
  end.

Definition newBusiness (location businessType : string)
    (discovery : BusinessDiscovery) (clock : nat) : Business :=
  {| id := Js.of_N (Platform.Date_now env clock) +:+ "-" +:+ website discovery;
     discoveryName := name discovery;
     discoveryWebsite := website discovery;
     companyName := EmptyString; contactName := EmptyString;
     address := EmptyString; phone := EmptyString; email := EmptyString;
     description := EmptyString;
     status := DISCOVERED;
     dateFound := Platform.toISODate env (Platform.Date_now env (clock + 1));
     emailThreadId := "N/A";
     isResearching := true;
     areaSearched := location;
     businessType := businessType;
     lat := None; lng := None; websiteUri := None;
     rating := None; userRatingCount := None |}.

(** [onDiscovery]; the research it starts settles later ([researchSettled]). *)
Definition onDiscovery (location businessType : string)
    (discovery : BusinessDiscovery)
    (st : gset string * AppState) : gset string * AppState :=
  let '(discoveredWebsitesThisRun, s) := st in
  let currentBusinesses := businesses s in
  let alreadyExists :=
    existsb (fun b => String.eqb (discoveryWebsite b) (website discovery))
            currentBusinesses
    || bool_decide (website discovery ∈ discoveredWebsitesThisRun) in
  if negb (Js.truthy (website discovery)) || alreadyExists then st
  else
    ({[ website discovery ]} ∪ discoveredWebsitesThisRun,
     {| businesses := currentBusinesses
                      ++ [newBusiness location businessType discovery (clock s)];
        isLoading := isLoading s; researchMessage := researchMessage s;
        error := error s; clock := clock s + 2 |}).

Definition handleSearch (location businessType numResults : string)
    : M AppState unit :=
  setIsLoading true;;
  setError None;;
  setResearchMessage "Discovering businesses...";;
  with_local (∅ : gset string)
    (finally
       (try_catch
          (GeminiService.findBusinessesStream env location businessType numResults
             (onDiscovery location businessType);;
           lift (setResearchMessage "Discovery stream complete."))
          (fun _ =>
             lift (setError (Some "An error occurred during discovery. Please check the console and try again."));;
             lift (setResearchMessage EmptyString)))
       (lift (setIsLoading false))).

Definition markResearching (businessId : string) (prev : list Business) : list Business :=
  mapById businessId (set_isResearching true) prev.

(** The updater of the retry's [try] branch; [date] is the day read from
    the clock when the object literal is evaluated. *)
Definition mergeRetry (businessId : string)
    (researchedData : ResearchedBusinessData) (date : string)
    (prev : list Business) : list Business :=
  mapById businessId
    (fun b => set_dateFound date
            (set_isResearching false (spread_research b researchedData)))
    prev.

(** The updater of the retry's [catch] branch. *)
Definition markFailedAgain (businessId : string) (prev : list Business) : list Business :=
  mapById businessId
    (fun b => set_isResearching false (set_description "Research failed again." b))
    prev.

Definition handleRetryResearch (businesses : list Business) (businessId : string)
    : M AppState unit :=
  match find (fun b => String.eqb (id b) businessId) businesses with
  | None => mret tt
  | Some businessToRetry =>
      (* Set researching state for the specific business *)
      setBusinesses (markResearching businessId);;
      try_catch
        (researchedData ← await (GeminiService.researchBusiness env
                                   (discoveryName businessToRetry)
                                   (discoveryWebsite businessToRetry));
         date ← today env;
         setBusinesses (mergeRetry businessId researchedData date))
        (fun _ => setBusinesses (markFailedAgain businessId))
  end.

Definition headers : list string :=
  [ "Company Name"; "Contact Name"; "Address"; "Phone"; "Email"; "Description";
    "Website"; "Status"; "Date Found/Updated"; "Email Thread ID";
    "Area Searched"; "Business Type" ].

Definition row (b : Business) : list string :=
  [ companyName b; contactName b; address b; phone b; email b;
    description b; discoveryWebsite b; status_value (status b); dateFound b;
    emailThreadId b; areaSearched b; businessType b ].

Definition escapeCsvCell (cell : string) : string :=
  Js.chr Js.dquote
  +:+ Js.replaceAll Js.dquote Js.two_quotes cell
  +:+ Js.chr Js.dquote.

Definition exportToCsv (businesses : list Business) : option string :=
  csvContentOf escapeCsvCell headers row businesses.

(** The state updates of the component, one per event: the closure
    variable [discoveredWebsitesThisRun] of the search in progress is
    kept next to the React state.  A search first resets it; then the
    updaters of [onDiscovery], of the settled research promises and of
    the retries arrive in any order. *)
Inductive step : gset string * AppState -> gset string * AppState -> Prop :=
| step_search_begins run s :
    step (run, s)
         (∅, snd ((setIsLoading true;; setError None;;
                   setResearchMessage "Discovering businesses...") s))
| step_discovery location businessType discovery st :
    step st (onDiscovery location businessType discovery st)
| step_research_settled run s b :
    step (run, s) (run, snd (researchSettled b s))
| step_retry_begins run s businessId :
    step (run, s) (run, snd (setBusinesses (markResearching businessId) s))
| step_retry run s captured businessId :
    step (run, s) (run, snd (handleRetryResearch captured businessId s))
| step_search_ends run s message err :
    step (run, s)
         (run, snd ((setError err;; setResearchMessage message;;
                     setIsLoading false) s)).

(** The states the component can be in, from its first render on. *)
Inductive reachable : gset string * AppState -> Prop :=
| reachable_initial : reachable (∅, initialState)
| reachable_step st st' : reachable st -> step st st' -> reachable st'.

(** All discoveries of a list, admitted one after the other. *)
Definition admitAll (location businessType : string)
    (discoveries : list BusinessDiscovery)
    (st : gset string * AppState) : gset string * AppState :=
  fold_left (fun st d => onDiscovery location businessType d st) discoveries st.

End WithPlatform.
End AppStream.

(* ===================================================================== *)
(** ** App.tsx with the map search
       (the component that imports [MapSearchForm] and the Places service) *)
(* ===================================================================== *)

Module AppPlaces.
Import Types React.

Section WithPlatform.
Context (env : Platform.t).

(** The updater of the [try] branch: the research record is spread over
    [b], then the Places data override phone and address where they are
    non-empty (falling back to the values [b] had before). *)
Definition mergeResearch (businessId : string)
    (researchedData : ResearchedBusinessData)
    (placeDetails : PlacesTypes.PlaceSearchResult)
    (prev : list Business) : list Business :=
  mapById businessId
    (fun b => set_isResearching false
            (set_place_fields
               (PlacesService.opt_or (PlacesTypes.websiteUri placeDetails)
                  (discoveryWebsite b))
               (PlacesService.opt_or (PlacesTypes.nationalPhoneNumber placeDetails)
                  (phone b))
               (PlacesService.opt_or (PlacesTypes.formattedAddress placeDetails)
                  (address b))
               (PlacesService.opt_num_or (PlacesTypes.rating placeDetails)
                  PrimFloat.zero)
               (PlacesService.opt_num_or (PlacesTypes.userRatingCount placeDetails)
                  PrimFloat.zero)
               (spread_research b researchedData)))
    prev.

Definition markFailed (businessId : string) (prev : list Business) : list Business :=
  mapById businessId
    (fun b => set_isResearching false (set_description "Research failed." b))
    prev.

Definition processResearchAndGeocoding (business : Business) : M AppState unit :=
  try_catch
    ((* Step 2: Use Place Details API for enrichment *)
     placeDetails ← await (PlacesService.getPlaceDetails env (id business));
     (* Also run Gemini research for additional insights *)
     researchedData ← await (GeminiService.researchBusiness env
                               (discoveryName business) (discoveryWebsite business));
     setBusinesses (mergeResearch (id business) researchedData placeDetails))
    (fun _ => setBusinesses (markFailed (id business))).

(** The Business object made from a place; [date] is the day read from
    the clock for it. *)
Definition businessOfPlace (location businessType : string)
    (place : PlacesTypes.PlaceSearchResult) (date : string) : Business :=
  {| id := PlacesTypes.id place;
     discoveryName := PlacesTypes.displayName place;
     discoveryWebsite := PlacesService.opt_or (PlacesTypes.websiteUri place) EmptyString;
     companyName := PlacesTypes.displayName place;
     contactName := EmptyString;
     address := PlacesService.opt_or (PlacesTypes.formattedAddress place) EmptyString;
     phone := PlacesService.opt_or (PlacesTypes.nationalPhoneNumber place) EmptyString;
     email := EmptyString;
     description := EmptyString;
     status := DISCOVERED;
     dateFound := date;
     emailThreadId := "N/A";
     isResearching := false;
     areaSearched := location;
     businessType := businessType;
     lat := Some (PlacesTypes.latitude (PlacesTypes.location place));
     lng := Some (PlacesTypes.longitude (PlacesTypes.location place));
     websiteUri := None; rating := None; userRatingCount := None |}.

(** [places.map(place => ({ ... }))], one clock reading per place. *)
Fixpoint businessesOfPlaces (location businessType : string)
    (places : list PlacesTypes.PlaceSearchResult) : M AppState (list Business) :=
  match places with
  | [] => mret []
  | place :: rest =>
      date ← today env;
      bs ← businessesOfPlaces location businessType rest;
      mret (businessOfPlace location businessType place date :: bs)
  end.

(** The updater of [handleSearch]: Filter out duplicates based on place ID *)
Definition appendUnique (newBusinesses prev : list Business) : list Business :=
  let existingIds : gset string := list_to_set (map id prev) in
  let uniqueNewBusinesses :=
    List.filter (fun b => negb (bool_decide (id b ∈ existingIds))) newBusinesses in
  prev ++ uniqueNewBusinesses.

Definition handleSearch (location businessType numResults : string)
    (searchArea : PlacesTypes.SearchArea) : M AppState unit :=
  setIsLoading true;;
  setError None;;
  setResearchMessage "Discovering businesses...";;
  finally
    (try_catch
       ((* Step 1: Use Google Places API for discovery *)
        let maxResults :=
          if String.eqb numResults "ALL" then PlacesService.twenty
          else Platform.parseInt10 env numResults in
        places ← await (PlacesService.searchPlacesInArea env businessType
                          searchArea maxResults);
        newBusinesses ← businessesOfPlaces location businessType places;
        setBusinesses (appendUnique newBusinesses);;
        setResearchMessage
          ("Found " +:+ Js.of_N (N.of_nat (length places))
           +:+ " businesses. Select businesses to research or use "
           +:+ Js.chr Js.dquote +:+ "Research All" +:+ Js.chr Js.dquote
           +:+ " to enrich all results."))
       (fun _ =>
          setError (Some "An error occurred during discovery. Please check the console and try again.");;
          setResearchMessage EmptyString))
    (setIsLoading false).

Definition markResearching (businessId : string) (prev : list Business) : list Business :=
  mapById businessId (set_isResearching true) prev.

Definition handleRetryResearch (businesses : list Business) (businessId : string)
    : M AppState unit :=
  match find (fun b => String.eqb (id b) businessId) businesses with
  | None => mret tt
  | Some businessToRetry =>
      setBusinesses (markResearching businessId);;
      date ← today env;
      let updatedBusiness := set_dateFound date businessToRetry in
      processResearchAndGeocoding updatedBusiness
  end.

Definition status_is_discovered (b : Business) : bool :=
  match status b with DISCOVERED => true | _ => false end.

(** The [onClick] handler of the Research All button. *)
Definition researchAll (businesses : list Business) : M AppState unit :=
  let toResearch :=
    List.filter (fun b => negb (isResearching b) && status_is_discovered b) businesses in
  fold_left
    (fun acc b =>
       acc;;
       setBusinesses (markResearching (id b));;
       processResearchAndGeocoding (set_isResearching true b))
    toResearch (mret tt).

Definition headers : list string :=
  [ "Company Name"; "Contact Name"; "Address"; "Phone"; "Email"; "Website";
    "Description"; "Status"; "Date Found/Updated"; "Email Thread ID";
    "Area Searched"; "Business Type" ].

Definition row (b : Business) : list string :=
  [ companyName b; contactName b; address b; phone b; email b;
    discoveryWebsite b; description b; status_value (status b); dateFound b;
    emailThreadId b; areaSearched b; businessType b ].

Definition escapeCsvCell (cell : string) : string :=
  Js.chr Js.dquote
  +:+ (if Js.truthy cell
       then Js.replaceAll Js.dquote Js.two_quotes cell
       else EmptyString)
  +:+ Js.chr Js.dquote.

Definition exportToCsv (businesses : list Business) : option string :=
  csvContentOf escapeCsvCell headers row businesses.

End WithPlatform.
End AppPlaces.

(* ===================================================================== *)
(** ** Reference definitions taken from the specification *)
(* ===================================================================== *)

Module Spec.
Import Types.

(** Standard CSV quoting rules for one quoted cell: after the opening
    quote, two quotes in a row stand for one quote character, a single
    quote closes the cell and must be its last character, and every other
    character stands for itself. *)
Fixpoint csvUnquoteBody (s : string) : option string :=
  match s with
  | EmptyString => None
  | String c r =>
      if Ascii.eqb c Js.dquote then
        match r with
        | EmptyString => Some EmptyString
        | String c' r' =>
            if Ascii.eqb c' Js.dquote
            then option_map (String Js.dquote) (csvUnquoteBody r')
            else None
        end
      else option_map (String c) (csvUnquoteBody r)
  end.

Definition csvUnquote (cell : string) : option string :=
  match cell with
  | String c r => if Ascii.eqb c Js.dquote then csvUnquoteBody r else None
  | EmptyString => None
  end.

(** Cell escaping as the specification words it: wrap the cell in double
    quotes; double any embedded double quote. *)
Definition csvQuote (cell : string) : string :=
  Js.chr Js.dquote
  +:+ string_of_list_ascii
        (flat_map (fun c => if Ascii.eqb c Js.dquote then [Js.dquote; Js.dquote]
                            else [c])
                  (list_ascii_of_string cell))
  +:+ Js.chr Js.dquote.

(** The column order of the CSV export as the specification lists it. *)
Definition csv_columns : list string :=
  [ "Company Name"; "Contact Name"; "Address"; "Phone"; "Email"; "Website";
    "Description"; "Status"; "Date Found/Updated"; "Email Thread ID";
    "Area Searched"; "Business Type" ].

(** The field of a candidate that a column shows. *)
Definition column_value (column : string) (b : Business) : string :=
  if String.eqb column "Company Name" then companyName b
  else if String.eqb column "Contact Name" then contactName b
  else if String.eqb column "Address" then address b
  else if String.eqb column "Phone" then phone b
  else if String.eqb column "Email" then email b
  else if String.eqb column "Website" then discoveryWebsite b
  else if String.eqb column "Description" then description b
  else if String.eqb column "Status" then status_value (status b)
  else if String.eqb column "Date Found/Updated" then dateFound b
  else if String.eqb column "Email Thread ID" then emailThreadId b
  else if String.eqb column "Area Searched" then areaSearched b
  else if String.eqb column "Business Type" then businessType b
  else EmptyString.

(** A CSV document with the given columns: the [data:] prefix, the header
    line, then one line per candidate in store order, each line's cells
    escaped, joined by commas and closed by CR LF. *)
Definition csv_line (escape : string -> string) (cells : list string) : string :=
  Js.join "," (map escape cells) +:+ React.CRLF.

Definition csv_document (escape : string -> string) (columns : list string)
    (store : list Business) : string :=
  "data:text/csv;charset=utf-8,"
  +:+ csv_line escape columns
  +:+ String.concat EmptyString
        (map (fun b => csv_line escape (map (fun c => column_value c b) columns))
             store).

(** The dedupe key of a discovery in streaming mode as the specification
    words it: the name / website pair. *)
Definition dedupe_key (d : BusinessDiscovery) : string * string :=
  (name d, website d).

End Spec.

(* ===================================================================== *)
(** ** Concrete candidates, responses and platforms *)
(* ===================================================================== *)

Module Samples.
Import Types.

(** The description of the specification's CSV example and its cell. *)
Definition quoted_description : string :=
  "He said " +:+ Js.chr Js.dquote +:+ "hi" +:+ Js.chr Js.dquote +:+ ", then left".

Definition quoted_cell : string :=
  Js.chr Js.dquote +:+ "He said " +:+ Js.two_quotes +:+ "hi" +:+ Js.two_quotes
  +:+ ", then left" +:+ Js.chr Js.dquote.

(** A researched candidate of the store. *)
Definition acme : Business :=
  {| id := "1700000000000-https://acme.test";
     discoveryName := "Acme Cafe";
     discoveryWebsite := "https://acme.test";
     companyName := "Acme Cafe LLC"; contactName := "Ann Lee";
     address := "1 Main St, Austin, TX"; phone := "555-1234";
     email := "ann@acme.test";
     description := "Neighbourhood coffee roaster.";
     status := DISCOVERED; dateFound := "2025-01-15";
     emailThreadId := "N/A"; isResearching := false;
     areaSearched := "Austin, TX"; businessType := "Coffee Shops";
     lat := None; lng := None; websiteUri := None;
     rating := None; userRatingCount := None |}.

(** Another candidate, not yet researched. *)
Definition beta : Business :=
  {| id := "1700000000002-https://beta.test";
     discoveryName := "Beta Bar";
     discoveryWebsite := "https://beta.test";
     companyName := EmptyString; contactName := EmptyString;
     address := EmptyString; phone := EmptyString; email := EmptyString;
     description := EmptyString;
     status := DISCOVERED; dateFound := "2025-01-15";
     emailThreadId := "N/A"; isResearching := true;
     areaSearched := "Austin, TX"; businessType := "Coffee Shops";
     lat := None; lng := None; websiteUri := None;
     rating := None; userRatingCount := None |}.

(** A research record in which the source found no phone and no email. *)
Definition sparse_research : ResearchedBusinessData :=
  {| r_companyName := "Acme Cafe LLC"; r_contactName := "Not Found";
     r_address := "1 Main St, Austin, TX"; r_phone := "Not Found";
     r_email := EmptyString;
     r_description := "A coffee roaster in Austin." |}.

(** A store around a list of candidates. *)
Definition store_of (bs : list Business) : React.AppState :=
  {| React.businesses := bs; React.isLoading := false;
     React.researchMessage := EmptyString; React.error := None;
     React.clock := 0 |}.

Definition no_places : PlacesTypes.SearchJson := {| PlacesTypes.places := None |}.

(** A platform with no API key on which every remote call fails. *)
Definition offline : Platform.t :=
  {| Platform.GOOGLE_MAPS_API_KEY := None;
     Platform.API_KEY := None;
     Platform.new_GoogleGenAI := fun _ => Ok tt;
     Platform.generateContentStream := fun _ => Throw "fetch failed";
     Platform.generateContent := fun _ => Throw "fetch failed";
     Platform.JSON_parse := fun _ => Throw "Unexpected end of JSON input";
     Platform.encodeURIComponent := fun s => s;
     Platform.fetch_geocode := fun _ => Throw "fetch failed";
     Platform.fetch_places := fun _ _ _ _ => Throw "fetch failed";
     Platform.fetch_place_details := fun _ _ _ => Throw "fetch failed";
     Platform.parseInt10 := fun _ => 10%float;
     Platform.Date_now := fun k => (1700000000000 + N.of_nat k)%N;
     Platform.toISODate := fun _ => "2025-01-15" |}.

(** The text of the specification's streaming example. *)
Definition stream_text : string :=
  "Acme Cafe | https://acme.test" +:+ Js.chr Js.newline
  +:+ "Not A Line" +:+ Js.chr Js.newline
  +:+ "Beta Bar | https://beta.test".

Definition acme_discovery : BusinessDiscovery :=
  {| name := "Acme Cafe"; website := "https://acme.test" |}.

Definition beta_discovery : BusinessDiscovery :=
  {| name := "Beta Bar"; website := "https://beta.test" |}.

(** The same website found under another name. *)
Definition acme_again : BusinessDiscovery :=
  {| name := "Acme Roasters"; website := "https://acme.test" |}.

(** An [onDiscovery] callback that records its calls in order. *)
Definition record (d : BusinessDiscovery) (seen : list BusinessDiscovery)
    : list BusinessDiscovery :=
  seen ++ [d].

(** The same text cut in three chunks in the middle of two lines. *)
Definition stream_chunks : list string :=
  [ "Acme Cafe | https://ac";
    "me.test" +:+ Js.chr Js.newline +:+ "Not A Line" +:+ Js.chr Js.newline +:+ "Beta Bar | ht";
    "tps://beta.test" ].

(** A platform without the maps key whose research service answers: the
    discovery stream yields [stream_chunks], every research call returns
    [sparse_research]. *)
Definition no_maps_key : Platform.t :=
  {| Platform.GOOGLE_MAPS_API_KEY := None;
     Platform.API_KEY := Some "gemini-key";
     Platform.new_GoogleGenAI := fun _ => Ok tt;
     Platform.generateContentStream := fun _ =>
       Ok {| Platform.chunks := stream_chunks; Platform.ending := Platform.EndOfStream |};
     Platform.generateContent := fun _ => Ok "{...}";
     Platform.JSON_parse := fun _ => Ok sparse_research;
     Platform.encodeURIComponent := fun s => s;
     Platform.fetch_geocode := fun _ => Throw "fetch failed";
     Platform.fetch_places := fun _ _ _ _ => Throw "fetch failed";
     Platform.fetch_place_details := fun _ _ _ => Throw "fetch failed";
     Platform.parseInt10 := fun _ => 10%float;
     Platform.Date_now := fun k => (1700000000000 + N.of_nat k)%N;
     Platform.toISODate := fun _ => "2025-01-15" |}.

(** The same platform when the discovery stream breaks after its second
    chunk. *)
Definition broken_stream : Platform.t :=
  {| Platform.GOOGLE_MAPS_API_KEY := None;
     Platform.API_KEY := Some "gemini-key";
     Platform.new_GoogleGenAI := fun _ => Ok tt;
     Platform.generateContentStream := fun _ =>
       Ok {| Platform.chunks := take 2 stream_chunks;
             Platform.ending := Platform.StreamError "network error" |};
     Platform.generateContent := fun _ => Ok "{...}";
     Platform.JSON_parse := fun _ => Ok sparse_research;
     Platform.encodeURIComponent := fun s => s;
     Platform.fetch_geocode := fun _ => Throw "fetch failed";
     Platform.fetch_places := fun _ _ _ _ => Throw "fetch failed";
     Platform.fetch_place_details := fun _ _ _ => Throw "fetch failed";
     Platform.parseInt10 := fun _ => 10%float;
     Platform.Date_now := fun k => (1700000000000 + N.of_nat k)%N;
     Platform.toISODate := fun _ => "2025-01-15" |}.

End Samples.

(* ===================================================================== *)
(** ** Vocabulary of the properties *)
(* ===================================================================== *)

Module Props.
Import Types.

(** The enriched fields of a candidate, as the data model of the
    specification lists them. *)
Inductive EnrichedField : Type :=
| FCompanyName | FContactName | FAddress | FPhone | FEmail | FDescription.

Definition field_value (f : EnrichedField) (b : Business) : string :=
  match f with
  | FCompanyName => companyName b
  | FContactName => contactName b
  | FAddress => address b
  | FPhone => phone b
  | FEmail => email b
  | FDescription => description b
  end.

(** The value an enrichment response carries for a field. *)
Definition research_value (f : EnrichedField) (r : ResearchedBusinessData) : string :=
  match f with
  | FCompanyName => r_companyName r
  | FContactName => r_contactName r
  | FAddress => r_address r
  | FPhone => r_phone r
  | FEmail => r_email r
  | FDescription => r_description r
  end.


(** [b'] is [b] up to the enriched fields, the research flag and the
    properties outside the interface. *)
Definition same_identity (b b' : Business) : Prop :=
  id b' = id b /\ discoveryName b' = discoveryName b
  /\ discoveryWebsite b' = discoveryWebsite b /\ status b' = status b
  /\ dateFound b' = dateFound b /\ emailThreadId b' = emailThreadId b
  /\ areaSearched b' = areaSearched b /\ businessType b' = businessType b.

(** [next] is [prev] with only the records of id [target] changed: same
    number of records, same ids in the same order, every record with
    another id the very same record at the same position. *)
Definition only_id_changed (target : string) (prev next : list Business) : Prop :=
  length next = length prev
  /\ map id next = map id prev
  /\ forall (i : nat) (b : Business),
       prev !! i = Some b -> id b <> target -> next !! i = Some b.

(** The discovery stream the service answers with fails after it has
    yielded [chunks]: the call itself is rejected (no chunk at all), or
    the iteration breaks after them. *)
Definition fails_after (r : Result Platform.ResponseStream) (chunks : list string)
    : Prop :=
  match r with
  | Throw _ => chunks = []
  | Ok rs =>
      Platform.chunks rs = chunks
      /\ exists e, Platform.ending rs = Platform.StreamError e
  end.

(** The operation whose outcome is [run] returned normally, and the
    record it left at position [i] is [b] in the failed state: the
    research flag cleared, the description [message], every other
    enriched field and the identity of [b] as they were. *)
Definition failure_on_record (i : nat) (b : Business) (message : string)
    (run : Result unit * React.AppState) : Prop :=
  fst run = Ok tt
  /\ exists after,
       React.businesses (snd run) !! i = Some after
       /\ isResearching after = false
       /\ description after = message
       /\ (forall f, f <> FDescription -> field_value f after = field_value f b)
       /\ same_identity b after.

End Props.

(* ===================================================================== *)
(** ** Store invariants of the streaming components *)
(* ===================================================================== *)

Module Invariants.
Import Types.

(** The ids of a streaming component are a clock reading, a dash and the
    website of the discovery. *)
Definition stream_id (b : Business) : Prop :=
  exists n : N, id b = Js.of_N n +:+ "-" +:+ discoveryWebsite b.

(** No two candidates share a website, every id has the streaming shape,
    and the websites recorded for the search in progress are in the store. *)
Definition stream_ok (st : gset string * React.AppState) : Prop :=
  NoDup (map discoveryWebsite (React.businesses (snd st)))
  /\ Forall stream_id (React.businesses (snd st))
  /\ forall w, w ∈ fst st ->
               In w (map discoveryWebsite (React.businesses (snd st))).

(** The websites of the candidates of a state. *)
Definition websites (st : gset string * React.AppState) : list string :=
  map discoveryWebsite (React.businesses (snd st)).

End Invariants.

(* ===================================================================== *)
(** ** What the discovery stream reports, line by line *)
(* ===================================================================== *)

Module Reported.
Import Types.

(** The discoveries that one line of the text gives rise to (none or
    one): what [emitLine] hands to a callback that records its calls. *)
Definition ofLine (line : string) : list BusinessDiscovery :=
  GeminiService.emitLine Samples.record (Js.trim line) [].

Definition ofLines (lines : list string) : list BusinessDiscovery :=
  flat_map ofLine lines.

(** What the parser does with one line of the text: trim it, and report
    it when it is well formed. *)
Definition perLine {S : Type} (onDiscovery : BusinessDiscovery -> S -> S)
    (s : S) (line : string) : S :=
  GeminiService.emitLine onDiscovery (Js.trim line) s.

(** The lines of the text received, cut at every newline. *)
Definition linesOf (chunks : list string) : list string :=
  Js.split Js.newline (String.concat EmptyString chunks).

(** The discoveries reported for an answer of the service: none when the
    call is rejected; those of every line when the stream ends; those of
    every line but the unfinished last one when the stream breaks. *)
Definition ofAnswer (r : Result Platform.ResponseStream) : list BusinessDiscovery :=
  match r with
  | Throw _ => []
  | Ok rs =>
      match Platform.ending rs with
      | Platform.EndOfStream => ofLines (linesOf (Platform.chunks rs))
      | Platform.StreamError _ => ofLines (removelast (linesOf (Platform.chunks rs)))
      end
  end.

(** How [findBusinessesStream] settles for an answer of the service. *)
Definition outcome (r : Result Platform.ResponseStream) : Result unit :=
  match r with
  | Ok rs =>
      match Platform.ending rs with
      | Platform.EndOfStream => Ok tt
      | Platform.StreamError _ =>
          Throw "Failed to find businesses using Gemini API stream."
      end
  | Throw _ => Throw "Failed to find businesses using Gemini API stream."
  end.

(** A discovery as the parser lets it through: a name and a website that
    are not empty, trimmed, free of the separators of the format, and a
    website that starts with [http]. *)
Definition valid (d : BusinessDiscovery) : Prop :=
  Js.truthy (name d) = true
  /\ Js.truthy (website d) = true
  /\ Js.startsWith "http" (website d) = true
  /\ Js.trim (name d) = name d
  /\ Js.trim (website d) = website d
  /\ Js.includes Js.pipe (name d) = false
  /\ Js.includes Js.pipe (website d) = false
  /\ Js.includes Js.newline (name d) = false
  /\ Js.includes Js.newline (website d) = false.

End Reported.

(* ===================================================================== *)
(** ** Vocabulary of the further properties *)
(* ===================================================================== *)

Module Facts.
Import Types.

(** A candidate as a streaming search creates it: discovery fields only,
    research pending, provenance of the search. *)
Definition fresh (location type : string) (b : Business) : Prop :=
  companyName b = EmptyString /\ contactName b = EmptyString
  /\ address b = EmptyString /\ phone b = EmptyString
  /\ email b = EmptyString /\ description b = EmptyString
  /\ status b = DISCOVERED /\ isResearching b = true
  /\ emailThreadId b = "N/A"
  /\ areaSearched b = location /\ businessType b = type
  /\ lat b = None /\ lng b = None.

(** The discovery a candidate was made from. *)
Definition discoveryOf (b : Business) : BusinessDiscovery :=
  {| name := discoveryName b; website := discoveryWebsite b |}.

(** The error banner of a failed discovery. *)
Definition discoveryError : string :=
  "An error occurred during discovery. Please check the console and try again.".

End Facts.

(* ===================================================================== *)
(** ** A platform with the Places service *)
(* ===================================================================== *)

Module PlacesSamples.

Definition downtown : PlacesTypes.Location :=
  {| PlacesTypes.latitude := 30.25%float; PlacesTypes.longitude := (-97.75)%float |}.

Definition raw_cafe : PlacesTypes.RawPlace :=
  {| PlacesTypes.raw_id := "place-1";
     PlacesTypes.raw_displayName_text := Some "Acme Cafe";
     PlacesTypes.raw_location := downtown;
     PlacesTypes.raw_primaryType := Some "cafe";
     PlacesTypes.raw_formattedAddress := None |}.

Definition raw_bakery : PlacesTypes.RawPlace :=
  {| PlacesTypes.raw_id := "place-2";
     PlacesTypes.raw_displayName_text := None;
     PlacesTypes.raw_location := downtown;
     PlacesTypes.raw_primaryType := None;
     PlacesTypes.raw_formattedAddress := Some "2 Main St, Austin, TX" |}.

Definition details : PlacesTypes.DetailsJson :=
  {| PlacesTypes.d_displayName_text := Some "Acme Cafe";
     PlacesTypes.d_location := downtown;
     PlacesTypes.d_primaryType := Some "cafe";
     PlacesTypes.d_formattedAddress := Some "1 Main St, Austin, TX";
     PlacesTypes.d_websiteUri := None;
     PlacesTypes.d_nationalPhoneNumber := Some "555-9876";
     PlacesTypes.d_rating := None;
     PlacesTypes.d_userRatingCount := None;
     PlacesTypes.d_currentOpeningHours := None |}.

(** A platform with both keys: every search answers with the two places,
    every details request with [details], every research call with
    [Samples.sparse_research]. *)
Definition online : Platform.t :=
  {| Platform.GOOGLE_MAPS_API_KEY := Some "maps-key";
     Platform.API_KEY := Some "gemini-key";
     Platform.new_GoogleGenAI := fun _ => Ok tt;
     Platform.generateContentStream := fun _ =>
       Ok {| Platform.chunks := Samples.stream_chunks;
             Platform.ending := Platform.EndOfStream |};
     Platform.generateContent := fun _ => Ok "{...}";
     Platform.JSON_parse := fun _ => Ok Samples.sparse_research;
     Platform.encodeURIComponent := fun s => s;
     Platform.fetch_geocode := fun _ =>
       Ok {| Platform.geo_status := "OK";
             Platform.geo_results :=
               [ {| LatLng.lat := 30.25%float; LatLng.lng := (-97.75)%float |} ] |};
     Platform.fetch_places := fun _ _ _ _ =>
       Ok {| PlacesTypes.ok := true; PlacesTypes.http_status := 200%N;
             PlacesTypes.text := Ok EmptyString;
             PlacesTypes.json :=
               Ok {| PlacesTypes.places := Some [raw_cafe; raw_bakery] |} |};
     Platform.fetch_place_details := fun _ _ _ =>
       Ok {| PlacesTypes.ok := true; PlacesTypes.http_status := 200%N;
             PlacesTypes.text := Ok EmptyString;
             PlacesTypes.json := Ok details |};
     Platform.parseInt10 := fun _ => 10%float;
     Platform.Date_now := fun k => (1700000000000 + N.of_nat k)%N;
     Platform.toISODate := fun _ => "2025-01-15" |}.

Definition circle_area : PlacesTypes.SearchArea :=
  {| PlacesTypes.type := PlacesTypes.circle_t;
     PlacesTypes.circle :=
       Some {| PlacesTypes.center := downtown; PlacesTypes.radius := 2000%float |};
     PlacesTypes.rectangle := None |}.

End PlacesSamples.

(* ===================================================================== *)
(** ** One turn of the Research All loop *)
(* ===================================================================== *)

Module ResearchAll.
Import Types React.

(** The candidates the handler picks from the list it captured. *)
Definition toResearch (businesses : list Business) : list Business :=
  List.filter (fun b => negb (isResearching b) && AppPlaces.status_is_discovered b)
    businesses.

(** The state after the body of the loop has run for [b]: the candidate is
    marked, then its research pass has settled. *)
Definition turn (env : Platform.t) (s : AppState) (b : Business) : AppState :=
  snd (AppPlaces.processResearchAndGeocoding env (set_isResearching true b)
         (over_businesses (AppPlaces.markResearching (id b)) s)).

End ResearchAll.

(* ===================================================================== *)
(** ** Reading a CSV row back *)
(* ===================================================================== *)

Module Csv.

(** Put a character in front of the first field. *)
Definition push (c : ascii) (fields : list string) : list string :=
  match fields with
  | f :: fs => String c f :: fs
  | [] => [Js.chr c]
  end.

(** Standard CSV rules for a row of quoted cells, read from just behind
    an opening quote: two quotes in a row are one quote character of the
    cell; a quote followed by a comma and a quote closes the cell and
    opens the next one; a quote at the end of the text closes the row;
    any other character belongs to the cell, commas and line breaks
    included. *)
Fixpoint parseQuoted (s : string) : option (list string) :=
  match s with
  | EmptyString => None
  | String c r =>
      if Ascii.eqb c Js.dquote then
        match r with
        | EmptyString => Some [EmptyString]
        | String c1 r1 =>
            if Ascii.eqb c1 Js.dquote
            then option_map (push Js.dquote) (parseQuoted r1)
            else if Ascii.eqb c1 ","
            then match r1 with
                 | String c2 r2 =>
                     if Ascii.eqb c2 Js.dquote
                     then option_map (cons EmptyString) (parseQuoted r2)
                     else None
                 | EmptyString => None
                 end
            else None
        end
      else option_map (push c) (parseQuoted r)
  end.

Definition parseRow (row : string) : option (list string) :=
  match row with
  | String c r => if Ascii.eqb c Js.dquote then parseQuoted r else None
  | EmptyString => None
  end.

End Csv.

(* ===================================================================== *)
(** ** services/placesService.ts: helpers that build a search area *)
(* ===================================================================== *)

Module PlacesAreas.
Import PlacesTypes.

(** A [google.maps.LatLngBounds] as the helper reads it: the corners
    given by [getNorthEast()] and [getSouthWest()], each with [lat()] and
    [lng()]. *)
Record LatLngBounds : Type := {
  getNorthEast : LatLng.t;
  getSouthWest : LatLng.t
}.

(** Helper function to create search area from map bounds *)
Definition createSearchAreaFromBounds (bounds : LatLngBounds) : SearchArea :=
  let ne := getNorthEast bounds in
  let sw := getSouthWest bounds in
  {| type := rectangle_t;
     circle := None;
     rectangle :=
       Some {| low := {| latitude := LatLng.lat sw; longitude := LatLng.lng sw |};
               high := {| latitude := LatLng.lat ne; longitude := LatLng.lng ne |} |} |}.

(** Helper function to create search area from center point and radius *)
Definition createSearchAreaFromCenter (center : Location) (radiusMeters : float)
    : SearchArea :=
  {| type := circle_t;
     circle := Some {| center := center; radius := radiusMeters |};
     rectangle := None |}.

(** The error of a circle search for a business type without mapping. *)
Definition notSupported (businessType : string) : string :=
  "Business type " +:+ Js.chr Js.dquote +:+ businessType +:+ Js.chr Js.dquote
  +:+ " is not supported. Please use a supported business type like "
  +:+ Js.chr Js.dquote +:+ "coffee shop" +:+ Js.chr Js.dquote +:+ ", "
  +:+ Js.chr Js.dquote +:+ "restaurant" +:+ Js.chr Js.dquote +:+ ", "
  +:+ Js.chr Js.dquote +:+ "gym" +:+ Js.chr Js.dquote +:+ ", etc.".

End PlacesAreas.

(* ===================================================================== *)
(** ** components/BusinessMap.tsx and MapSearchForm.tsx: the markers *)
(* ===================================================================== *)

Module BusinessMap.
Import Types.

(** What the component fixes of a [google.maps.Marker] when it creates
    it. *)
Record Marker : Type := { position : LatLng.t; title : string }.

(** [{ lat: business.lat!, lng: business.lng! }] for a business that
    passes [b.lat != null && b.lng != null]. *)
Definition positionOf (b : Business) : option LatLng.t :=
  match lat b, lng b with
  | Some la, Some ln => Some {| LatLng.lat := la; LatLng.lng := ln |}
  | _, _ => None
  end.

Definition hasCoords (b : Business) : bool :=
  match positionOf b with Some _ => true | None => false end.

Definition newMarker (business : Business) (position : LatLng.t) : Marker :=
  {| position := position;
     title := Js.or_else (companyName business) (discoveryName business) |}.

(** The body of [businessesWithCoords.forEach]: the id is taken off the
    set of stale ids; a marker is created when the id has none. *)
Definition addOrKeep (st : gset string * gmap string Marker) (business : Business)
    : gset string * gmap string Marker :=
  let '(currentMarkerIds, markers) := st in
  match positionOf business with
  | None => st
  | Some position =>
      (currentMarkerIds ∖ {[ id business ]},
       match markers !! id business with
       | Some _ => markers
       | None => <[ id business := newMarker business position ]> markers
       end)
  end.

(** The body of [currentMarkerIds.forEach]: the stale marker is deleted. *)
Definition removeOld (ids : list string) (markers : gmap string Marker)
    : gmap string Marker :=
  fold_right (fun id markers => delete id markers) markers ids.

(** The effect "Update markers when businesses change" on
    [markersRef.current]; [mapReady] is [googleMap.current && isMapLoaded].
    The calls on the map itself (fitting its bounds, zooming) are not
    part of this state.  The effect "Sync business markers with current
    businesses list" of the map search form runs the same code on
    [businessMarkersRef.current], an absent list counting as empty. *)
Definition syncMarkers (mapReady : bool) (businesses : list Business)
    (markers : gmap string Marker) : gmap string Marker :=
  if negb mapReady then markers
  else
    let currentMarkerIds : gset string := dom markers in
    let businessesWithCoords := List.filter hasCoords businesses in
    let '(currentMarkerIds, markers) :=
      fold_left addOrKeep businessesWithCoords (currentMarkerIds, markers) in
    removeOld (elements currentMarkerIds) markers.

(** The ids of the businesses that have coordinates. *)
Definition idsWithCoords (businesses : list Business) : gset string :=
  list_to_set (map id (List.filter hasCoords businesses)).

End BusinessMap.

(* ===================================================================== *)
(** * The buttons above the results table

    The [disabled] attributes of the two buttons, as functions of the
    store that is rendered. *)

Module Buttons.
Import Types.

(** [businesses.length === 0 ||
     businesses.every(b => b.status !== BusinessStatus.DISCOVERED)]. *)
Definition researchAllDisabled (businesses : list Business) : bool :=
  Nat.eqb (length businesses) 0
  || forallb (fun b => negb (AppPlaces.status_is_discovered b)) businesses.

(** [businesses.length === 0 || businesses.some(b => b.isResearching)],
    the same in the three components. *)
Definition exportDisabled (businesses : list Business) : bool :=
  Nat.eqb (length businesses) 0 || existsb isResearching businesses.

End Buttons.

(* ===================================================================== *)
(** * Loading the application

    Each of the three versions of [App] imports [geminiService]
    (SearchForm.tsx lines 371, 615 and 815).  The imports of a module are
    evaluated before the module itself, so the statement at the top of
    the service, [GeminiService.ai], runs before the component is
    defined; no code of the repository catches what it throws.  The other
    statements at the top of the modules ([const API_KEY =
    process.env.GOOGLE_MAPS_API_KEY], the table of place types, the
    schema of the research response) only build constants. *)

Module Entry.

Definition load (env : Platform.t) : Result unit :=
  match GeminiService.ai env with
  | Throw e => Throw e
  | Ok _ => Ok tt
  end.

(** A browser in which the maps key is configured and the key of the
    generative service is not: the constructor of the SDK's client
    refuses a missing key. *)
Definition no_gemini_key : Platform.t :=
  {| Platform.GOOGLE_MAPS_API_KEY := Some "maps-key";
     Platform.API_KEY := None;
     Platform.new_GoogleGenAI := fun apiKey =>
       match apiKey with
       | None => Throw "An API Key must be set when running in a browser"
       | Some _ => Ok tt
       end;
     Platform.generateContentStream := Platform.generateContentStream Samples.offline;
     Platform.generateContent := Platform.generateContent Samples.offline;
     Platform.JSON_parse := Platform.JSON_parse Samples.offline;
     Platform.encodeURIComponent := Platform.encodeURIComponent Samples.offline;
     Platform.fetch_geocode := Platform.fetch_geocode Samples.offline;
     Platform.fetch_places := Platform.fetch_places Samples.offline;
     Platform.fetch_place_details := Platform.fetch_place_details Samples.offline;
     Platform.parseInt10 := Platform.parseInt10 Samples.offline;
     Platform.Date_now := Platform.Date_now Samples.offline;
     Platform.toISODate := Platform.toISODate Samples.offline |}.

End Entry.

(* ===================================================================== *)
(** * Properties *)
(* ===================================================================== *)

Import Types React.

(** ** Strings *)

Lemma append_cons (c : ascii) (s t : string) :
  String c s +:+ t = String c (s +:+ t).
Proof. reflexivity. Qed.

Lemma append_nil_l (t : string) : EmptyString +:+ t = t.
Proof. reflexivity. Qed.

Lemma append_nil_r (s : string) : s +:+ EmptyString = s.
Proof. induction s as [|c s IH]; [reflexivity|]. now rewrite append_cons, IH. Qed.

Lemma append_assoc (s t u : string) : (s +:+ t) +:+ u = s +:+ (t +:+ u).
Proof.
  induction s as [|c s IH]; [reflexivity|].
  now rewrite !append_cons, IH.
Qed.

(** ** CSV cells *)

Lemma csvUnquoteBody_escaped (cell : string) :
  Spec.csvUnquoteBody (Js.replaceAll Js.dquote Js.two_quotes cell +:+ Js.chr Js.dquote)
  = Some cell.
Proof.
  induction cell as [|c cell IH]; [reflexivity|].
  cbn [Js.replaceAll].
  destruct (Ascii.eqb c Js.dquote) eqn:E.
  - apply Ascii.eqb_eq in E. subst c.
    unfold Js.two_quotes at 1. unfold Js.chr at 1.
    rewrite !append_cons, append_nil_l.
    cbn [Spec.csvUnquoteBody]. rewrite Ascii.eqb_refl.
    now rewrite IH.
  - rewrite append_cons. cbn [Spec.csvUnquoteBody]. rewrite E.
    now rewrite IH.
Qed.

Lemma escapeCsvCell_guard_irrelevant (cell : string) :
  AppGeo.escapeCsvCell cell = AppStream.escapeCsvCell cell.
Proof. destruct cell; reflexivity. Qed.

Lemma escapeCsvCell_places_same (cell : string) :
  AppPlaces.escapeCsvCell cell = AppStream.escapeCsvCell cell.
Proof. destruct cell; reflexivity. Qed.

Lemma replaceAll_doubles (cell : string) :
  Js.replaceAll Js.dquote Js.two_quotes cell
  = string_of_list_ascii
      (flat_map (fun c => if Ascii.eqb c Js.dquote then [Js.dquote; Js.dquote]
                          else [c])
                (list_ascii_of_string cell)).
Proof.
  induction cell as [|c cell IH]; [reflexivity|].
  cbn [Js.replaceAll list_ascii_of_string flat_map].
  destruct (Ascii.eqb c Js.dquote); rewrite IH; reflexivity.
Qed.

(** C7. CSV cell escaping round-trip: in each of the three components
    [escapeCsvCell] wraps the cell in double quotes and doubles every
    embedded double quote; the description [He said "hi", then left]
    becomes the cell of the specification; and un-quoting an escaped cell
    by the standard CSV rules gives back the original string, for every
    string. *)
Theorem csv_cell_escaping_roundtrip :
  (forall cell : string,
      AppStream.escapeCsvCell cell = Spec.csvQuote cell
      /\ AppGeo.escapeCsvCell cell = Spec.csvQuote cell
      /\ AppPlaces.escapeCsvCell cell = Spec.csvQuote cell
      /\ Spec.csvUnquote (AppStream.escapeCsvCell cell) = Some cell)
  /\ AppStream.escapeCsvCell Samples.quoted_description = Samples.quoted_cell
  /\ Spec.csvUnquote Samples.quoted_cell = Some Samples.quoted_description.
Proof.
  split; [|split; reflexivity].
  assert (Hquote : forall cell, AppStream.escapeCsvCell cell = Spec.csvQuote cell).
  { intros cell. unfold AppStream.escapeCsvCell, Spec.csvQuote.
    now rewrite replaceAll_doubles. }
  intros cell. split; [apply Hquote|]. split; [|split].
  - rewrite escapeCsvCell_guard_irrelevant. apply Hquote.
  - rewrite escapeCsvCell_places_same. apply Hquote.
  - unfold AppStream.escapeCsvCell. unfold Js.chr at 1.
    rewrite append_cons, append_nil_l.
    cbn [Spec.csvUnquote]. rewrite Ascii.eqb_refl.
    apply csvUnquoteBody_escaped.
Qed.

(** ** CSV export *)

Lemma concat_empty_cons (x : string) (xs : list string) :
  String.concat EmptyString (x :: xs) = x +:+ String.concat EmptyString xs.
Proof.
  destruct xs as [|y ys]; cbn [String.concat].
  - now rewrite append_nil_r.
  - reflexivity.
Qed.

Lemma fold_left_appendCsvLine (escape : string -> string)
    (rows : list (list string)) (acc : string) :
  fold_left (appendCsvLine escape) rows acc
  = acc +:+ String.concat EmptyString (map (Spec.csv_line escape) rows).
Proof.
  revert acc. induction rows as [|r rows IH]; intros acc.
  - cbn [fold_left map String.concat]. now rewrite append_nil_r.
  - cbn [fold_left map]. rewrite IH, concat_empty_cons.
    unfold appendCsvLine, Spec.csv_line. now rewrite append_assoc.
Qed.

Lemma csvContentOf_document (escape : string -> string) (columns : list string)
    (row : Business -> list string) (b : Business) (bs : list Business) :
  (forall x, row x = map (fun c => Spec.column_value c x) columns) ->
  csvContentOf escape columns row (b :: bs)
  = Some (Spec.csv_document escape columns (b :: bs)).
Proof.
  intros Hrow. unfold csvContentOf, Spec.csv_document.
  cbn [length Nat.eqb]. f_equal.
  rewrite fold_left_appendCsvLine.
  unfold appendCsvLine at 1. fold (Spec.csv_line escape columns).
  rewrite append_assoc. do 3 f_equal.
  rewrite map_map. apply map_ext. intros x. now rewrite Hrow.
Qed.

(** C8 (as amended). CSV column order: the export of the map-search
    component and of the geocoding component has the columns in the fixed
    order of the specification; the export of the streaming-only
    component has Description before Website; in all three every row has
    its cells in the order of the header, the rows follow the store's
    order, and an empty store exports nothing. *)
Theorem csv_export_column_order :
  AppGeo.headers = Spec.csv_columns
  /\ AppPlaces.headers = Spec.csv_columns
  /\ AppStream.headers
     = [ "Company Name"; "Contact Name"; "Address"; "Phone"; "Email";
         "Description"; "Website"; "Status"; "Date Found/Updated";
         "Email Thread ID"; "Area Searched"; "Business Type" ]
  /\ (forall b bs,
         AppGeo.exportToCsv (b :: bs)
         = Some (Spec.csv_document AppGeo.escapeCsvCell Spec.csv_columns (b :: bs)))
  /\ (forall b bs,
         AppPlaces.exportToCsv (b :: bs)
         = Some (Spec.csv_document AppPlaces.escapeCsvCell Spec.csv_columns (b :: bs)))
  /\ (forall b bs,
         AppStream.exportToCsv (b :: bs)
         = Some (Spec.csv_document AppStream.escapeCsvCell AppStream.headers (b :: bs)))
  /\ AppGeo.exportToCsv [] = None
  /\ AppPlaces.exportToCsv [] = None
  /\ AppStream.exportToCsv [] = None.
Proof.
  repeat split; try reflexivity; intros b bs.
  - apply (csvContentOf_document _ AppGeo.headers). reflexivity.
  - apply (csvContentOf_document _ AppPlaces.headers). reflexivity.
  - apply (csvContentOf_document _ AppStream.headers). reflexivity.
Qed.

(** C8, counterexample: the streaming-only component does not export a
    one-candidate store in the column order of the specification. *)
Lemma csv_export_stream_order_differs :
  AppStream.exportToCsv [Samples.acme]
  <> Some (Spec.csv_document AppStream.escapeCsvCell Spec.csv_columns [Samples.acme]).
Proof.
  apply (proj1 (bool_decide_eq_false _)). vm_compute. reflexivity.
Qed.

(** ** Updates of the store by id *)

Ltac run_monad :=
  unfold mbind, mret, M_bind, M_ret, bind, ret, try_catch, finally, await,
    throw, modify, setBusinesses, setIsLoading, setError, setResearchMessage,
    today, lift, with_local in *; cbn [fst snd] in *.

Section UpdateById.
Context (target : string) (f : Business -> Business).
Hypothesis f_keeps_id : forall b, id (f b) = id b.

Lemma update_by_id_ids (prev : list Business) :
  map id (mapById target f prev) = map id prev.
Proof.
  unfold mapById. rewrite map_map. apply map_ext. intros b.
  destruct (String.eqb (id b) target); [apply f_keeps_id | reflexivity].
Qed.

Lemma update_by_id_other (prev : list Business) (i : nat) (b : Business) :
  prev !! i = Some b -> id b <> target -> mapById target f prev !! i = Some b.
Proof.
  intros Hi Hne. unfold mapById.
  change (map ?g prev) with (g <$> prev).
  rewrite list_lookup_fmap, Hi. cbn.
  destruct (String.eqb_spec (id b) target); [contradiction | reflexivity].
Qed.

Lemma update_by_id_hit (prev : list Business) (i : nat) (b : Business) :
  prev !! i = Some b -> id b = target -> mapById target f prev !! i = Some (f b).
Proof.
  intros Hi He. unfold mapById.
  change (map ?g prev) with (g <$> prev).
  rewrite list_lookup_fmap, Hi. cbn.
  rewrite (proj2 (String.eqb_eq _ _) He). reflexivity.
Qed.

Lemma update_by_id_frame (prev : list Business) :
  Props.only_id_changed target prev (mapById target f prev).
Proof.
  split; [apply length_map|]. split; [apply update_by_id_ids|].
  intros i b. apply update_by_id_other.
Qed.

Lemma update_by_id_target (prev : list Business) (b' : Business) :
  In b' (mapById target f prev) -> id b' = target ->
  exists b, In b prev /\ id b = target /\ b' = f b.
Proof.
  unfold mapById. intros Hin He. apply in_map_iff in Hin as (b & Hb & Hin).
  destruct (String.eqb_spec (id b) target) as [E|E].
  - exists b. auto.
  - subst b'. contradiction.
Qed.

End UpdateById.

Lemma only_id_changed_refl (target : string) (prev : list Business) :
  Props.only_id_changed target prev prev.
Proof. split; [|split]; auto. Qed.

Lemma only_id_changed_trans (target : string) (l1 l2 l3 : list Business) :
  Props.only_id_changed target l1 l2 -> Props.only_id_changed target l2 l3 ->
  Props.only_id_changed target l1 l3.
Proof.
  intros (L1 & I1 & F1) (L2 & I2 & F2). split; [congruence|].
  split; [congruence|]. intros i b Hi Hne. apply F2; auto.
Qed.

Lemma find_by_id (businesses : list Business) (businessId : string) (b : Business) :
  find (fun b => String.eqb (id b) businessId) businesses = Some b ->
  id b = businessId /\ In b businesses.
Proof.
  intros H. apply find_some in H as [Hin He].
  split; [now apply String.eqb_eq | assumption].
Qed.

(** The named updaters of the three components. *)

Lemma geo_mergeResearch_frame businessId r coords prev :
  Props.only_id_changed businessId prev (AppGeo.mergeResearch businessId r coords prev).
Proof. apply update_by_id_frame. intros b. destruct coords; reflexivity. Qed.

Lemma geo_markFailed_frame businessId prev :
  Props.only_id_changed businessId prev (AppGeo.markFailed businessId prev).
Proof. apply update_by_id_frame. reflexivity. Qed.

Lemma geo_markResearching_frame businessId prev :
  Props.only_id_changed businessId prev (AppGeo.markResearching businessId prev).
Proof. apply update_by_id_frame. reflexivity. Qed.

Lemma stream_mergeResearch_frame businessId r prev :
  Props.only_id_changed businessId prev (AppStream.mergeResearch businessId r prev).
Proof. apply update_by_id_frame. reflexivity. Qed.

Lemma stream_markFailed_frame businessId prev :
  Props.only_id_changed businessId prev (AppStream.markFailed businessId prev).
Proof. apply update_by_id_frame. reflexivity. Qed.

Lemma stream_markResearching_frame businessId prev :
  Props.only_id_changed businessId prev (AppStream.markResearching businessId prev).
Proof. apply update_by_id_frame. reflexivity. Qed.

Lemma stream_mergeRetry_frame businessId r date prev :
  Props.only_id_changed businessId prev (AppStream.mergeRetry businessId r date prev).
Proof. apply update_by_id_frame. reflexivity. Qed.

Lemma stream_markFailedAgain_frame businessId prev :
  Props.only_id_changed businessId prev (AppStream.markFailedAgain businessId prev).
Proof. apply update_by_id_frame. reflexivity. Qed.

Lemma places_mergeResearch_frame businessId r details prev :
  Props.only_id_changed businessId prev
    (AppPlaces.mergeResearch businessId r details prev).
Proof. apply update_by_id_frame. reflexivity. Qed.

Lemma places_markFailed_frame businessId prev :
  Props.only_id_changed businessId prev (AppPlaces.markFailed businessId prev).
Proof. apply update_by_id_frame. reflexivity. Qed.

Lemma places_markResearching_frame businessId prev :
  Props.only_id_changed businessId prev (AppPlaces.markResearching businessId prev).
Proof. apply update_by_id_frame. reflexivity. Qed.

(** ** What the research operations do to the state *)

Lemma geo_process_run (env : Platform.t) (business : Business) (s : AppState) :
  AppGeo.processResearchAndGeocoding env business s
  = (Ok tt,
     over_businesses
       match GeminiService.researchBusiness env
               (discoveryName business) (discoveryWebsite business) with
       | Ok r => AppGeo.mergeResearch (id business) r (AppGeo.geocodeIfFound env r)
       | Throw _ => AppGeo.markFailed (id business)
       end s).
Proof.
  unfold AppGeo.processResearchAndGeocoding. run_monad.
  destruct (GeminiService.researchBusiness env _ _); reflexivity.
Qed.

Lemma geo_retry_run (env : Platform.t) (captured : list Business)
    (businessId : string) (s : AppState) :
  AppGeo.handleRetryResearch env captured businessId s
  = match find (fun b => String.eqb (id b) businessId) captured with
    | None => (Ok tt, s)
    | Some b =>
        AppGeo.processResearchAndGeocoding env
          (set_dateFound (Platform.toISODate env (Platform.Date_now env (clock s))) b)
          (tick 1 (over_businesses (AppGeo.markResearching businessId) s))
    end.
Proof.
  unfold AppGeo.handleRetryResearch.
  destruct (find _ captured); reflexivity.
Qed.

Lemma stream_settled_run (env : Platform.t) (business : Business) (s : AppState) :
  AppStream.researchSettled env business s
  = (Ok tt,
     over_businesses
       match GeminiService.researchBusiness env
               (discoveryName business) (discoveryWebsite business) with
       | Ok r => AppStream.mergeResearch (id business) r
       | Throw _ => AppStream.markFailed (id business)
       end s).
Proof.
  unfold AppStream.researchSettled.
  destruct (GeminiService.researchBusiness env _ _); reflexivity.
Qed.

Lemma stream_retry_run (env : Platform.t) (captured : list Business)
    (businessId : string) (s : AppState) :
  AppStream.handleRetryResearch env captured businessId s
  = match find (fun b => String.eqb (id b) businessId) captured with
    | None => (Ok tt, s)
    | Some b =>
        let s1 := over_businesses (AppStream.markResearching businessId) s in
        match GeminiService.researchBusiness env
                (discoveryName b) (discoveryWebsite b) with
        | Ok r =>
            (Ok tt,
             over_businesses
               (AppStream.mergeRetry businessId r
                  (Platform.toISODate env (Platform.Date_now env (clock s1))))
               (tick 1 s1))
        | Throw _ =>
            (Ok tt, over_businesses (AppStream.markFailedAgain businessId) s1)
        end
    end.
Proof.
  unfold AppStream.handleRetryResearch.
  destruct (find _ captured) as [b|]; [|reflexivity].
  run_monad. destruct (GeminiService.researchBusiness env _ _); reflexivity.
Qed.

Lemma places_process_run (env : Platform.t) (business : Business) (s : AppState) :
  AppPlaces.processResearchAndGeocoding env business s
  = (Ok tt,
     over_businesses
       match PlacesService.getPlaceDetails env (id business),
             GeminiService.researchBusiness env
               (discoveryName business) (discoveryWebsite business) with
       | Ok details, Ok r => AppPlaces.mergeResearch (id business) r details
       | _, _ => AppPlaces.markFailed (id business)
       end s).
Proof.
  unfold AppPlaces.processResearchAndGeocoding. run_monad.
  destruct (PlacesService.getPlaceDetails env _); [|reflexivity].
  destruct (GeminiService.researchBusiness env _ _); reflexivity.
Qed.

Lemma places_retry_run (env : Platform.t) (captured : list Business)
    (businessId : string) (s : AppState) :
  AppPlaces.handleRetryResearch env captured businessId s
  = match find (fun b => String.eqb (id b) businessId) captured with
    | None => (Ok tt, s)
    | Some b =>
        AppPlaces.processResearchAndGeocoding env
          (set_dateFound (Platform.toISODate env (Platform.Date_now env (clock s))) b)
          (tick 1 (over_businesses (AppPlaces.markResearching businessId) s))
    end.
Proof.
  unfold AppPlaces.handleRetryResearch.
  destruct (find _ captured); reflexivity.
Qed.

(** C10. Merge-by-id frame property: a research completion, a research
    failure and a retry (its opening state change and the whole retry)
    keep the number of records and the order of their ids, and leave every
    record whose id is not the targeted one exactly as it was, in each of
    the three components. *)
Theorem merge_by_id_frame (env : Platform.t) :
  (forall business s,
      Props.only_id_changed (id business) (businesses s)
        (businesses (snd (AppGeo.processResearchAndGeocoding env business s))))
  /\ (forall captured businessId s,
      Props.only_id_changed businessId (businesses s)
        (businesses (snd (AppGeo.handleRetryResearch env captured businessId s))))
  /\ (forall business s,
      Props.only_id_changed (id business) (businesses s)
        (businesses (snd (AppStream.researchSettled env business s))))
  /\ (forall captured businessId s,
      Props.only_id_changed businessId (businesses s)
        (businesses (snd (AppStream.handleRetryResearch env captured businessId s))))
  /\ (forall business s,
      Props.only_id_changed (id business) (businesses s)
        (businesses (snd (AppPlaces.processResearchAndGeocoding env business s))))
  /\ (forall captured businessId s,
      Props.only_id_changed businessId (businesses s)
        (businesses (snd (AppPlaces.handleRetryResearch env captured businessId s))))
  /\ (forall businessId prev,
      Props.only_id_changed businessId prev (AppStream.markResearching businessId prev)
      /\ Props.only_id_changed businessId prev (AppGeo.markResearching businessId prev)
      /\ Props.only_id_changed businessId prev (AppPlaces.markResearching businessId prev)).
Proof.
  assert (Hgeo : forall business s,
      Props.only_id_changed (id business) (businesses s)
        (businesses (snd (AppGeo.processResearchAndGeocoding env business s)))).
  { intros business s. rewrite geo_process_run. cbn [snd over_businesses businesses].
    destruct (GeminiService.researchBusiness env _ _).
    - apply geo_mergeResearch_frame.
    - apply geo_markFailed_frame. }
  assert (Hplaces : forall business s,
      Props.only_id_changed (id business) (businesses s)
        (businesses (snd (AppPlaces.processResearchAndGeocoding env business s)))).
  { intros business s. rewrite places_process_run.
    cbn [snd over_businesses businesses].
    destruct (PlacesService.getPlaceDetails env _);
      [destruct (GeminiService.researchBusiness env _ _)|].
    - apply places_mergeResearch_frame.
    - apply places_markFailed_frame.
    - apply places_markFailed_frame. }
  split; [exact Hgeo|]. split.
  { intros captured businessId s. rewrite geo_retry_run.
    destruct (find _ captured) as [b|] eqn:Hfind; [|apply only_id_changed_refl].
    apply find_by_id in Hfind as [Hid _].
    eapply only_id_changed_trans;
      [apply (geo_markResearching_frame businessId (businesses s))|].
    specialize (Hgeo
      (set_dateFound (Platform.toISODate env (Platform.Date_now env (clock s))) b)
      (tick 1 (over_businesses (AppGeo.markResearching businessId) s))).
    cbn [set_dateFound id] in Hgeo. rewrite Hid in Hgeo. exact Hgeo. }
  split.
  { intros business s. rewrite stream_settled_run.
    cbn [snd over_businesses businesses].
    destruct (GeminiService.researchBusiness env _ _).
    - apply stream_mergeResearch_frame.
    - apply stream_markFailed_frame. }
  split.
  { intros captured businessId s. rewrite stream_retry_run.
    destruct (find _ captured) as [b|]; [|apply only_id_changed_refl].
    cbv zeta.
    destruct (GeminiService.researchBusiness env _ _);
      cbn [snd over_businesses businesses tick];
      (eapply only_id_changed_trans;
       [apply (stream_markResearching_frame businessId (businesses s))|]).
    - apply stream_mergeRetry_frame.
    - apply stream_markFailedAgain_frame. }
  split; [exact Hplaces|]. split.
  { intros captured businessId s. rewrite places_retry_run.
    destruct (find _ captured) as [b|] eqn:Hfind; [|apply only_id_changed_refl].
    apply find_by_id in Hfind as [Hid _].
    eapply only_id_changed_trans;
      [apply (places_markResearching_frame businessId (businesses s))|].
    specialize (Hplaces
      (set_dateFound (Platform.toISODate env (Platform.Date_now env (clock s))) b)
      (tick 1 (over_businesses (AppPlaces.markResearching businessId) s))).
    cbn [set_dateFound id] in Hplaces. rewrite Hid in Hplaces. exact Hplaces. }
  intros businessId prev. split; [|split].
  - apply stream_markResearching_frame.
  - apply geo_markResearching_frame.
  - apply places_markResearching_frame.
Qed.

(** ** Enrichment failures *)

Lemma researchAll_returns (env : Platform.t) (captured : list Business) (s : AppState) :
  fst (AppPlaces.researchAll env captured s) = Ok tt.
Proof.
  unfold AppPlaces.researchAll.
  generalize (List.filter
                (fun b => negb (isResearching b) && AppPlaces.status_is_discovered b)
                captured).
  intros l.
  assert (H : forall (acc : M AppState unit),
             (forall s0, fst (acc s0) = Ok tt) ->
             forall s0,
               fst (fold_left
                      (fun acc b =>
                         acc;;
                         setBusinesses (AppPlaces.markResearching (id b));;
                         AppPlaces.processResearchAndGeocoding env
                           (set_isResearching true b)) l acc s0) = Ok tt).
  { induction l as [|b l IH]; intros acc Hacc s0; [apply Hacc|].
    cbn [fold_left]. apply IH. intros s1. run_monad.
    specialize (Hacc s1). destruct (acc s1) as [[[]|e] s2];
      cbn [fst] in Hacc; [|discriminate].
    cbn -[AppPlaces.processResearchAndGeocoding].
    now rewrite places_process_run. }
  apply H. reflexivity.
Qed.

Lemma marked_failed_at (target message : string) (prev : list Business)
    (i : nat) (b : Business) (run : Result unit * AppState) :
  prev !! i = Some b ->
  id b = target ->
  fst run = Ok tt ->
  businesses (snd run)
  = mapById target (fun x => set_isResearching false (set_description message x))
      prev ->
  Props.failure_on_record i b message run.
Proof.
  intros Hi Hid Hok Hstore. split; [exact Hok|].
  exists (set_isResearching false (set_description message b)). split.
  - rewrite Hstore.
    now apply (update_by_id_hit target
                 (fun x => set_isResearching false (set_description message x))).
  - split; [reflexivity|]. split; [reflexivity|].
    split; [intros [] Hf; try reflexivity; contradiction | repeat split].
Qed.

Lemma remarked_failed_at (target message : string) (prev : list Business)
    (i : nat) (b : Business) (run : Result unit * AppState) :
  prev !! i = Some b ->
  id b = target ->
  fst run = Ok tt ->
  businesses (snd run)
  = mapById target (fun x => set_isResearching false (set_description message x))
      (mapById target (set_isResearching true) prev) ->
  Props.failure_on_record i b message run.
Proof.
  intros Hi Hid Hok Hstore. split; [exact Hok|].
  exists (set_isResearching false
            (set_description message (set_isResearching true b))). split.
  - rewrite Hstore.
    apply (update_by_id_hit target
             (fun x => set_isResearching false (set_description message x)));
      [|exact Hid].
    now apply (update_by_id_hit target (set_isResearching true)).
  - split; [reflexivity|]. split; [reflexivity|].
    split; [intros [] Hf; try reflexivity; contradiction | repeat split].
Qed.

(** C4. Enrichment failure containment: when the research call of a
    candidate rejects, the operation that issued it (the research pass of
    each component, the settled research of a fresh discovery, a retry)
    returns normally, and the failure is on the candidate's record: where
    the store held the candidate, it holds the same record with
    [isResearching = false] and the description [Research failed.] (for
    the retry of the streaming-only component, [Research failed again.]),
    its other fields as they were.  Research All, which runs the pass for
    one candidate after the other, returns normally as well. *)
Theorem enrichment_failure_contained (env : Platform.t) (business : Business)
    (s : AppState) (e : string) (i : nat) (b : Business) :
  GeminiService.researchBusiness env
    (discoveryName business) (discoveryWebsite business) = Throw e ->
  businesses s !! i = Some b ->
  id b = id business ->
  Props.failure_on_record i b "Research failed."
    (AppGeo.processResearchAndGeocoding env business s)
  /\ Props.failure_on_record i b "Research failed."
       (AppStream.researchSettled env business s)
  /\ Props.failure_on_record i b "Research failed."
       (AppPlaces.processResearchAndGeocoding env business s)
  /\ (forall captured,
         find (fun x => String.eqb (id x) (id business)) captured = Some business ->
         Props.failure_on_record i b "Research failed again."
           (AppStream.handleRetryResearch env captured (id business) s)
         /\ Props.failure_on_record i b "Research failed."
              (AppGeo.handleRetryResearch env captured (id business) s)
         /\ Props.failure_on_record i b "Research failed."
              (AppPlaces.handleRetryResearch env captured (id business) s))
  /\ (forall captured, fst (AppPlaces.researchAll env captured s) = Ok tt).
Proof.
  intros Hfail Hi Hid.
  split; [|split; [|split; [|split; [|intros; apply researchAll_returns]]]].
  - apply (marked_failed_at (id business) _ (businesses s)); auto;
      rewrite geo_process_run, Hfail; reflexivity.
  - apply (marked_failed_at (id business) _ (businesses s)); auto;
      rewrite stream_settled_run, Hfail; reflexivity.
  - apply (marked_failed_at (id business) _ (businesses s)); auto;
      rewrite places_process_run, Hfail;
      destruct (PlacesService.getPlaceDetails env (id business)); reflexivity.
  - intros captured Hfind. split; [|split].
    + apply (remarked_failed_at (id business) _ (businesses s)); auto;
        rewrite stream_retry_run, Hfind; cbv zeta; rewrite Hfail; reflexivity.
    + apply (remarked_failed_at (id business) _ (businesses s)); auto;
        rewrite geo_retry_run, Hfind, geo_process_run;
        cbn [set_dateFound discoveryName discoveryWebsite id];
        rewrite Hfail; reflexivity.
    + apply (remarked_failed_at (id business) _ (businesses s)); auto;
        rewrite places_retry_run, Hfind, places_process_run;
        cbn [set_dateFound discoveryName discoveryWebsite id];
        rewrite Hfail;
        destruct (PlacesService.getPlaceDetails env (id business)); reflexivity.
Qed.

(** C4, witness: on the offline platform the research of [acme] rejects;
    the pass over a two-candidate store returns normally and leaves
    [acme], at its place, failed. *)
Lemma enrichment_failure_contained_witness :
  GeminiService.researchBusiness Samples.offline
    (discoveryName Samples.acme) (discoveryWebsite Samples.acme)
  = Throw ("Failed to research business " +:+ Js.chr Js.dquote +:+ "Acme Cafe"
           +:+ Js.chr Js.dquote +:+ ".")
  /\ Props.failure_on_record 0 Samples.acme "Research failed."
       (AppGeo.processResearchAndGeocoding Samples.offline Samples.acme
          (Samples.store_of [Samples.acme; Samples.beta])).
Proof.
  split; [reflexivity|].
  apply (enrichment_failure_contained Samples.offline Samples.acme
           (Samples.store_of [Samples.acme; Samples.beta]) _ 0 Samples.acme
           eq_refl eq_refl eq_refl).
Defined.

(** ** Retry *)

(** C6 (as amended). A failed retry does not blank fields: for a
    candidate of the store whose retry research rejects, while the retry
    is in progress every enriched field, the description included, is
    what it was (only [isResearching] is raised); after the retry the
    record is in the failed state ([isResearching = false]), company name,
    contact name, address, phone and email are unchanged, and the
    description is replaced by the failure message ([Research failed
    again.] in the streaming-only component, [Research failed.] in the
    geocoding component). *)
Theorem retry_failure_keeps_fields (env : Platform.t) (captured : list Business)
    (businessId : string) (toRetry : Business) (e : string)
    (s : AppState) (i : nat) (b : Business) :
  find (fun x => String.eqb (id x) businessId) captured = Some toRetry ->
  GeminiService.researchBusiness env
    (discoveryName toRetry) (discoveryWebsite toRetry) = Throw e ->
  businesses s !! i = Some b ->
  id b = businessId ->
  (exists during,
      AppStream.markResearching businessId (businesses s) !! i = Some during
      /\ (forall f, Props.field_value f during = Props.field_value f b)
      /\ Props.same_identity b during
      /\ isResearching during = true)
  /\ (exists after,
      businesses (snd (AppStream.handleRetryResearch env captured businessId s)) !! i
      = Some after
      /\ (forall f, f <> Props.FDescription ->
                    Props.field_value f after = Props.field_value f b)
      /\ description after = "Research failed again."
      /\ isResearching after = false
      /\ Props.same_identity b after)
  /\ (exists after,
      businesses (snd (AppGeo.handleRetryResearch env captured businessId s)) !! i
      = Some after
      /\ (forall f, f <> Props.FDescription ->
                    Props.field_value f after = Props.field_value f b)
      /\ description after = "Research failed."
      /\ isResearching after = false
      /\ Props.same_identity b after).
Proof.
  intros Hfind Hfail Hi Hid.
  split; [|split].
  - exists (set_isResearching true b). split.
    + now apply (update_by_id_hit businessId (set_isResearching true)).
    + split; [intros []; reflexivity|]. split; [repeat split | reflexivity].
  - exists (set_isResearching false
              (set_description "Research failed again." (set_isResearching true b))).
    rewrite stream_retry_run, Hfind, Hfail.
    cbn [snd over_businesses businesses]. split.
    + apply (update_by_id_hit businessId
               (fun x => set_isResearching false
                           (set_description "Research failed again." x)));
        [|exact Hid].
      now apply (update_by_id_hit businessId (set_isResearching true)).
    + split; [intros [] Hf; try reflexivity; contradiction|].
      repeat split.
  - exists (set_isResearching false
              (set_description "Research failed." (set_isResearching true b))).
    rewrite geo_retry_run, Hfind, geo_process_run.
    cbn [set_dateFound discoveryName discoveryWebsite id].
    rewrite Hfail. apply find_by_id in Hfind as [Hid' _]. rewrite Hid'.
    cbn [snd over_businesses businesses tick]. split.
    + apply (update_by_id_hit businessId
               (fun x => set_isResearching false
                           (set_description "Research failed." x)));
        [|exact Hid].
      now apply (update_by_id_hit businessId (set_isResearching true)).
    + split; [intros [] Hf; try reflexivity; contradiction|].
      repeat split.
Qed.

(** C6, witness: the retry of [acme] on the offline platform. *)
Lemma retry_failure_keeps_fields_witness :
  exists after,
    businesses (snd (AppStream.handleRetryResearch Samples.offline
                       [Samples.acme; Samples.beta] (id Samples.acme)
                       (Samples.store_of [Samples.acme; Samples.beta]))) !! 0
    = Some after
    /\ phone after = "555-1234"
    /\ isResearching after = false.
Proof.
  destruct (retry_failure_keeps_fields Samples.offline
              [Samples.acme; Samples.beta] (id Samples.acme) Samples.acme _
              (Samples.store_of [Samples.acme; Samples.beta]) 0 Samples.acme
              eq_refl eq_refl eq_refl eq_refl)
    as (_ & (after & Hat & Hfields & _ & Hflag & _) & _).
  exists after. split; [exact Hat|]. split; [|exact Hflag].
  apply (Hfields Props.FPhone). discriminate.
Defined.

(** C6, counterexample to the claim as stated: the description is an
    enriched field with an existing value, and the failed retry changes
    it. *)
Lemma retry_failure_changes_description :
  exists after,
    businesses (snd (AppStream.handleRetryResearch Samples.offline
                       [Samples.acme] (id Samples.acme)
                       (Samples.store_of [Samples.acme]))) !! 0
    = Some after
    /\ Props.field_value Props.FDescription Samples.acme
       = "Neighbourhood coffee roaster."
    /\ Props.field_value Props.FDescription after = "Research failed again."
    /\ ~ (forall f, Props.field_value f after = Props.field_value f Samples.acme).
Proof.
  eexists. split; [reflexivity|]. split; [reflexivity|]. split; [reflexivity|].
  intros H. specialize (H Props.FDescription). discriminate H.
Qed.

(** ** Enrichment merge-back *)




(** ** The streaming discovery parser *)

Lemma drop_0 (s : string) : Js.drop 0 s = s.
Proof. destruct s; reflexivity. Qed.

Lemma take_length (s : string) : Js.take (String.length s) s = s.
Proof. induction s as [|c s IH]; [reflexivity|]. cbn. now rewrite IH. Qed.

Lemma length_drop (n : nat) (s : string) :
  String.length (Js.drop n s) = String.length s - n.
Proof.
  revert s. induction n as [|n IH]; intros s.
  - rewrite drop_0. lia.
  - destruct s as [|c s]; [reflexivity|]. cbn. apply IH.
Qed.

Lemma take_append (n : nat) (x y : string) :
  n <= String.length x -> Js.take n (x +:+ y) = Js.take n x.
Proof.
  revert x. induction n as [|n IH]; intros x Hn.
  - destruct x; destruct y; reflexivity.
  - destruct x as [|c x]; cbn in Hn; [lia|].
    rewrite append_cons. cbn. rewrite IH; [reflexivity | lia].
Qed.

Lemma drop_append (n : nat) (x y : string) :
  n <= String.length x -> Js.drop n (x +:+ y) = Js.drop n x +:+ y.
Proof.
  revert x. induction n as [|n IH]; intros x Hn.
  - now rewrite !drop_0.
  - destruct x as [|c x]; cbn in Hn; [lia|].
    rewrite append_cons. cbn. apply IH. lia.
Qed.

Lemma substring_0 (s : string) (i : nat) :
  i <= String.length s -> Js.substring s 0 i = Js.take i s.
Proof.
  intros Hi. unfold Js.substring.
  rewrite Nat.min_0_l, (Nat.min_l i) by exact Hi.
  rewrite Nat.max_0_l, Nat.min_0_l, Nat.sub_0_r. now rewrite drop_0.
Qed.

Lemma substring_from_drop (s : string) (a : nat) :
  a <= String.length s -> Js.substring_from s a = Js.drop a s.
Proof.
  intros Ha. unfold Js.substring_from, Js.substring.
  rewrite Nat.min_id, (Nat.min_l a) by exact Ha.
  rewrite Nat.max_r, (Nat.min_l a) by exact Ha.
  rewrite <- length_drop. apply take_length.
Qed.

Lemma indexOf_lt (c : ascii) (s : string) (i : nat) :
  Js.indexOf c s = Some i -> i < String.length s.
Proof.
  revert i. induction s as [|x s IH]; intros i; cbn; [discriminate|].
  destruct (Ascii.eqb x c).
  - intros [= <-]. lia.
  - destruct (Js.indexOf c s) as [j|]; [|discriminate].
    intros [= <-]. specialize (IH j eq_refl). lia.
Qed.

Lemma indexOf_append (c : ascii) (x y : string) (i : nat) :
  Js.indexOf c x = Some i -> Js.indexOf c (x +:+ y) = Some i.
Proof.
  revert i. induction x as [|a x IH]; intros i; cbn; [discriminate|].
  rewrite append_cons. cbn. destruct (Ascii.eqb a c); [auto|].
  destruct (Js.indexOf c x) as [j|]; [|discriminate].
  intros [= <-]. now rewrite (IH j eq_refl).
Qed.

Section Drain.
Context {S : Type} (onDiscovery : BusinessDiscovery -> S -> S).

Lemma drainBuffer_fuel (f1 f2 : nat) (buffer : string) (s : S) :
  String.length buffer <= f1 -> String.length buffer <= f2 ->
  GeminiService.drainBuffer f1 onDiscovery buffer s
  = GeminiService.drainBuffer f2 onDiscovery buffer s.
Proof.
  revert f2 buffer s. induction f1 as [|f1 IH]; intros f2 buffer s H1 H2.
  - destruct buffer; [|cbn in H1; lia]. destruct f2; reflexivity.
  - destruct f2 as [|f2].
    + destruct buffer; [reflexivity | cbn in H2; lia].
    + cbn [GeminiService.drainBuffer].
      destruct (Js.indexOf Js.newline buffer) as [i|] eqn:E; [|reflexivity].
      apply indexOf_lt in E.
      rewrite substring_from_drop by lia.
      apply IH; rewrite length_drop; lia.
Qed.

Lemma drain_done (buffer : string) (s : S) :
  Js.indexOf Js.newline buffer = None ->
  GeminiService.drain onDiscovery buffer s = (buffer, s).
Proof.
  intros E. unfold GeminiService.drain.
  destruct (String.length buffer); cbn [GeminiService.drainBuffer];
    now rewrite E.
Qed.

Lemma drain_step (buffer : string) (s : S) (i : nat) :
  Js.indexOf Js.newline buffer = Some i ->
  GeminiService.drain onDiscovery buffer s
  = GeminiService.drain onDiscovery (Js.drop (i + 1) buffer)
      (GeminiService.emitLine onDiscovery (Js.trim (Js.take i buffer)) s).
Proof.
  intros E. unfold GeminiService.drain. pose proof (indexOf_lt _ _ _ E) as Hlt.
  destruct (String.length buffer) as [|n] eqn:Hn; [lia|].
  cbn [GeminiService.drainBuffer]. rewrite E.
  rewrite substring_from_drop, substring_0 by lia.
  apply drainBuffer_fuel; rewrite length_drop; lia.
Qed.

(** The loop leaves by its own test: no newline is left in the buffer. *)
Lemma drainBuffer_exits (buffer : string) (s : S) :
  Js.indexOf Js.newline (fst (GeminiService.drain onDiscovery buffer s)) = None.
Proof.
  remember (String.length buffer) as n eqn:Hn.
  assert (Hle : String.length buffer <= n) by lia. clear Hn.
  revert buffer s Hle. induction n as [|n IH]; intros buffer s Hle.
  - destruct buffer; [reflexivity | cbn in Hle; lia].
  - destruct (Js.indexOf Js.newline buffer) as [i|] eqn:E.
    + rewrite (drain_step _ _ _ E). apply IH.
      apply indexOf_lt in E. rewrite length_drop. lia.
    + now rewrite (drain_done _ _ E).
Qed.

Lemma drain_append (x y : string) (s : S) :
  GeminiService.drain onDiscovery (x +:+ y) s
  = let '(b2, s') := GeminiService.drain onDiscovery x s in
    GeminiService.drain onDiscovery (b2 +:+ y) s'.
Proof.
  remember (String.length x) as n eqn:Hn.
  assert (Hle : String.length x <= n) by lia. clear Hn.
  revert x s Hle. induction n as [|n IH]; intros x s Hle.
  - destruct x; [reflexivity | cbn in Hle; lia].
  - destruct (Js.indexOf Js.newline x) as [i|] eqn:E.
    + pose proof (indexOf_lt _ _ _ E) as Hlt.
      rewrite (drain_step x _ _ E).
      rewrite (drain_step (x +:+ y) _ i (indexOf_append _ _ _ _ E)).
      rewrite take_append, drop_append by lia.
      apply IH. rewrite length_drop. lia.
    + now rewrite (drain_done _ _ E).
Qed.

(** Chunk independence: whatever the cut of the text into chunks, the
    chunk loop does what one pass of the line loop over the whole text
    does. *)
Lemma forAwaitChunks_whole (chunks : list string) (buffer : string) (s : S) :
  Js.indexOf Js.newline buffer = None ->
  GeminiService.forAwaitChunks onDiscovery chunks buffer s
  = GeminiService.drain onDiscovery
      (buffer +:+ String.concat EmptyString chunks) s.
Proof.
  revert buffer s. induction chunks as [|chunk rest IH]; intros buffer s Hb.
  - cbn [GeminiService.forAwaitChunks String.concat].
    rewrite append_nil_r. now rewrite drain_done.
  - cbn [GeminiService.forAwaitChunks].
    rewrite concat_empty_cons, <- append_assoc.
    rewrite (drain_append (buffer +:+ chunk)).
    pose proof (drainBuffer_exits (buffer +:+ chunk) s) as Hexit.
    destruct (GeminiService.drain onDiscovery (buffer +:+ chunk) s) as [b2 s'].
    now apply IH.
Qed.

End Drain.

(** C3. Streaming parse correctness: for every cut of the example text
    into chunks, the chunk loop reports [Acme Cafe] and nothing else and
    is left with the unfinished last line in its buffer; when the stream
    ends the flush reports [Beta Bar]; so [findBusinessesStream] calls
    [onDiscovery] exactly twice, with the two name / website pairs in
    order, and the malformed middle line is reported to nobody. *)
Theorem streaming_parse_any_chunking (env : Platform.t)
    (location businessType numResults : string) (chunks : list string) :
  String.concat EmptyString chunks = Samples.stream_text ->
  Platform.generateContentStream env
    (GeminiService.discoveryPrompt location businessType numResults)
  = Ok {| Platform.chunks := chunks; Platform.ending := Platform.EndOfStream |} ->
  (forall (S : Type) (onDiscovery : BusinessDiscovery -> S -> S) (s : S),
      GeminiService.forAwaitChunks onDiscovery chunks EmptyString s
      = ("Beta Bar | https://beta.test", onDiscovery Samples.acme_discovery s)
      /\ GeminiService.findBusinessesStream env location businessType numResults
           onDiscovery s
         = (Ok tt,
            onDiscovery Samples.beta_discovery
              (onDiscovery Samples.acme_discovery s)))
  /\ GeminiService.findBusinessesStream env location businessType numResults
       Samples.record []
     = (Ok tt, [Samples.acme_discovery; Samples.beta_discovery]).
Proof.
  intros Htext Hstream.
  assert (Hloop : forall (S : Type) (onDiscovery : BusinessDiscovery -> S -> S) (s : S),
             GeminiService.forAwaitChunks onDiscovery chunks EmptyString s
             = ("Beta Bar | https://beta.test",
                onDiscovery Samples.acme_discovery s)).
  { intros S onDiscovery s.
    rewrite forAwaitChunks_whole by reflexivity.
    rewrite append_nil_l, Htext. vm_compute. reflexivity. }
  assert (Hall : forall (S : Type) (onDiscovery : BusinessDiscovery -> S -> S) (s : S),
             GeminiService.findBusinessesStream env location businessType
               numResults onDiscovery s
             = (Ok tt,
                onDiscovery Samples.beta_discovery
                  (onDiscovery Samples.acme_discovery s))).
  { intros S onDiscovery s. unfold GeminiService.findBusinessesStream.
    run_monad. rewrite Hstream. cbn [Platform.chunks Platform.ending].
    rewrite Hloop. reflexivity. }
  split.
  - intros S onDiscovery s. split; [apply Hloop | apply Hall].
  - rewrite Hall. reflexivity.
Qed.

(** C3, witness: the example text in three chunks, cut inside the first
    and inside the last line. *)
Lemma streaming_parse_any_chunking_witness :
  String.concat EmptyString Samples.stream_chunks = Samples.stream_text
  /\ GeminiService.findBusinessesStream Samples.no_maps_key
       "Austin, TX" "Coffee Shops" "5" Samples.record []
     = (Ok tt, [Samples.acme_discovery; Samples.beta_discovery]).
Proof.
  split; [reflexivity|].
  apply (streaming_parse_any_chunking Samples.no_maps_key
           "Austin, TX" "Coffee Shops" "5" Samples.stream_chunks
           eq_refl eq_refl).
Defined.

(** ** Discovery failures *)

Section StreamInvariant.
Context {S : Type} (onDiscovery : BusinessDiscovery -> S -> S) (P : S -> Prop).
Hypothesis onDiscovery_keeps : forall d s, P s -> P (onDiscovery d s).

Lemma emitLine_keeps (line : string) (s : S) :
  P s -> P (GeminiService.emitLine onDiscovery line s).
Proof.
  intros Hs. unfold GeminiService.emitLine.
  repeat match goal with |- context [if ?c then _ else _] => destruct c end;
    auto.
Qed.

Lemma drainBuffer_keeps (fuel : nat) (buffer : string) (s : S) :
  P s -> P (snd (GeminiService.drainBuffer fuel onDiscovery buffer s)).
Proof.
  revert buffer s. induction fuel as [|fuel IH]; intros buffer s Hs;
    cbn [GeminiService.drainBuffer];
    destruct (Js.indexOf Js.newline buffer); auto.
  apply IH. now apply emitLine_keeps.
Qed.

Lemma forAwaitChunks_keeps (chunks : list string) (buffer : string) (s : S) :
  P s -> P (snd (GeminiService.forAwaitChunks onDiscovery chunks buffer s)).
Proof.
  revert buffer s. induction chunks as [|chunk rest IH]; intros buffer s Hs;
    cbn [GeminiService.forAwaitChunks]; [exact Hs|].
  pose proof (drainBuffer_keeps (String.length (buffer +:+ chunk))
                (buffer +:+ chunk) s Hs) as Hd.
  fold (GeminiService.drain onDiscovery (buffer +:+ chunk) s) in Hd.
  destruct (GeminiService.drain onDiscovery (buffer +:+ chunk) s) as [b2 s'].
  now apply IH.
Qed.

End StreamInvariant.

Lemma geo_onDiscovery_appends (env : Platform.t) (location businessType : string)
    (d : BusinessDiscovery) (st : gset string * AppState) :
  businesses (snd st)
  `prefix_of` businesses (snd (AppGeo.onDiscovery env location businessType d st)).
Proof.
  destruct st as [run s]. unfold AppGeo.onDiscovery.
  destruct (_ || _); cbn [snd businesses]; [reflexivity|].
  now apply prefix_app_r.
Qed.

Lemma stream_onDiscovery_appends (env : Platform.t) (location businessType : string)
    (d : BusinessDiscovery) (st : gset string * AppState) :
  businesses (snd st)
  `prefix_of` businesses (snd (AppStream.onDiscovery env location businessType d st)).
Proof.
  destruct st as [run s]. unfold AppStream.onDiscovery.
  destruct (_ || _); cbn [snd businesses]; [reflexivity|].
  now apply prefix_app_r.
Qed.

Lemma findBusinessesStream_breaks (env : Platform.t)
    (location businessType numResults : string) (chunks : list string)
    {S : Type} (onDiscovery : BusinessDiscovery -> S -> S) (s : S) :
  Props.fails_after
    (Platform.generateContentStream env
       (GeminiService.discoveryPrompt location businessType numResults)) chunks ->
  GeminiService.findBusinessesStream env location businessType numResults
    onDiscovery s
  = (Throw "Failed to find businesses using Gemini API stream.",
     snd (GeminiService.forAwaitChunks onDiscovery chunks EmptyString s)).
Proof.
  intros Hfails. unfold GeminiService.findBusinessesStream. run_monad.
  destruct (Platform.generateContentStream env _) as [rs|e0];
    cbn [Props.fails_after] in Hfails.
  - destruct Hfails as (<- & e & He). rewrite He.
    destruct (GeminiService.forAwaitChunks onDiscovery _ EmptyString s).
    reflexivity.
  - subst chunks. reflexivity.
Qed.

Lemma places_handleSearch_run (env : Platform.t)
    (location businessType numResults : string)
    (searchArea : PlacesTypes.SearchArea) (s : AppState) :
  (exists e,
      PlacesService.searchPlacesInArea env businessType searchArea
        (if String.eqb numResults "ALL" then PlacesService.twenty
         else Platform.parseInt10 env numResults) = Throw e
      /\ exists s',
          AppPlaces.handleSearch env location businessType numResults searchArea s
          = (Ok tt, s')
          /\ businesses s' = businesses s /\ isLoading s' = false
          /\ error s' = Some "An error occurred during discovery. Please check the console and try again.")
  \/ (exists places,
      PlacesService.searchPlacesInArea env businessType searchArea
        (if String.eqb numResults "ALL" then PlacesService.twenty
         else Platform.parseInt10 env numResults) = Ok places
      /\ exists s' newBusinesses,
          AppPlaces.handleSearch env location businessType numResults searchArea s
          = (Ok tt, s')
          /\ fst (AppPlaces.businessesOfPlaces env location businessType places
                    (searching s)) = Ok newBusinesses
          /\ businesses s' = AppPlaces.appendUnique newBusinesses (businesses s)
          /\ isLoading s' = false /\ error s' = None).
Proof.
  unfold AppPlaces.handleSearch.
  destruct (PlacesService.searchPlacesInArea env businessType searchArea _)
    as [places|e] eqn:Hsearch.
  - right. exists places. split; [reflexivity|].
    run_monad. cbn -[AppPlaces.businessesOfPlaces].
    change {| businesses := businesses s; isLoading := true;
              researchMessage := "Discovering businesses...";
              error := None; clock := clock s |} with (searching s).
    assert (Hmap : forall ps s0, exists bs s1,
               AppPlaces.businessesOfPlaces env location businessType ps s0
               = (Ok bs, s1)
               /\ businesses s1 = businesses s0 /\ isLoading s1 = isLoading s0
               /\ error s1 = error s0).
    { induction ps as [|p ps IH]; intros s0.
      - exists [], s0. auto.
      - cbn [AppPlaces.businessesOfPlaces]. run_monad.
        destruct (IH (tick 1 s0)) as (bs & s1 & -> & Hb & Hl & He).
        eexists _, s1. split; [reflexivity|]. auto. }
    destruct (Hmap places (searching s)) as (bs & s1 & -> & Hb & Hl & He).
    cbn. exists (snd (setIsLoading false
                   (snd (setResearchMessage
                      ("Found " +:+ Js.of_N (N.of_nat (length places))
                       +:+ " businesses. Select businesses to research or use "
                       +:+ Js.chr Js.dquote +:+ "Research All" +:+ Js.chr Js.dquote
                       +:+ " to enrich all results.")
                      (over_businesses (AppPlaces.appendUnique bs) s1))))), bs.
    split; [reflexivity|]. split; [reflexivity|].
    cbn. rewrite Hb, He. auto.
  - left. exists e. split; [reflexivity|].
    run_monad. eexists. split; [reflexivity|]. cbn. auto.
Qed.

(** C5. Discovery failure retains partial results: when the discovery
    call is rejected or its stream breaks after some chunks,
    [findBusinessesStream] fails with its single error, [handleSearch]
    catches it and returns normally with the error banner set and loading
    cleared, and the store is exactly what the admissions of the chunks
    received before the failure made of it: the store from before the
    search is a prefix of it, nothing is rolled back.  In batch mode a
    failed search sets the same banner and leaves the store as it was. *)
Theorem discovery_failure_keeps_admitted (env : Platform.t)
    (location businessType numResults : string) (chunks : list string)
    (s : AppState) :
  Props.fails_after
    (Platform.generateContentStream env
       (GeminiService.discoveryPrompt location businessType numResults)) chunks ->
  (fst (GeminiService.findBusinessesStream env location businessType numResults
          (AppGeo.onDiscovery env location businessType) (∅, searching s))
   = Throw "Failed to find businesses using Gemini API stream."
   /\ exists s',
       AppGeo.handleSearch env location businessType numResults s = (Ok tt, s')
       /\ error s' = Some "An error occurred during discovery. Please check the console and try again."
       /\ isLoading s' = false
       /\ businesses s'
          = businesses (snd (snd (GeminiService.forAwaitChunks
                                    (AppGeo.onDiscovery env location businessType)
                                    chunks EmptyString (∅, searching s))))
       /\ businesses s `prefix_of` businesses s')
  /\ (exists s',
       AppStream.handleSearch env location businessType numResults s = (Ok tt, s')
       /\ error s' = Some "An error occurred during discovery. Please check the console and try again."
       /\ isLoading s' = false
       /\ businesses s'
          = businesses (snd (snd (GeminiService.forAwaitChunks
                                    (AppStream.onDiscovery env location businessType)
                                    chunks EmptyString (∅, searching s))))
       /\ businesses s `prefix_of` businesses s')
  /\ (forall searchArea e,
         PlacesService.searchPlacesInArea env businessType searchArea
           (if String.eqb numResults "ALL" then PlacesService.twenty
            else Platform.parseInt10 env numResults) = Throw e ->
         exists s',
           AppPlaces.handleSearch env location businessType numResults searchArea s
           = (Ok tt, s')
           /\ error s' = Some "An error occurred during discovery. Please check the console and try again."
           /\ isLoading s' = false
           /\ businesses s' = businesses s).
Proof.
  intros Hstream. split; [split|split].
  - now rewrite (findBusinessesStream_breaks _ _ _ _ _ _ _ Hstream).
  - pose proof (forAwaitChunks_keeps (AppGeo.onDiscovery env location businessType)
                  (fun st => businesses s `prefix_of` businesses (snd st))) as Hk.
    specialize (Hk (fun d st H =>
                      transitivity H (geo_onDiscovery_appends env _ _ d st))
                   chunks EmptyString (∅, searching s) (reflexivity _)).
    unfold AppGeo.handleSearch. run_monad.
    cbn -[GeminiService.findBusinessesStream].
    change {| businesses := businesses s; isLoading := true;
              researchMessage := "Discovering businesses...";
              error := None; clock := clock s |} with (searching s).
    rewrite (findBusinessesStream_breaks _ _ _ _ _ _ _ Hstream).
    destruct (GeminiService.forAwaitChunks _ chunks EmptyString (∅, searching s))
      as [buffer [run s1]].
    cbn [snd] in *. eexists. split; [reflexivity|].
    cbn [error isLoading businesses]. auto.
  - pose proof (forAwaitChunks_keeps (AppStream.onDiscovery env location businessType)
                  (fun st => businesses s `prefix_of` businesses (snd st))) as Hk.
    specialize (Hk (fun d st H =>
                      transitivity H (stream_onDiscovery_appends env _ _ d st))
                   chunks EmptyString (∅, searching s) (reflexivity _)).
    unfold AppStream.handleSearch. run_monad.
    cbn -[GeminiService.findBusinessesStream].
    change {| businesses := businesses s; isLoading := true;
              researchMessage := "Discovering businesses...";
              error := None; clock := clock s |} with (searching s).
    rewrite (findBusinessesStream_breaks _ _ _ _ _ _ _ Hstream).
    destruct (GeminiService.forAwaitChunks _ chunks EmptyString (∅, searching s))
      as [buffer [run s1]].
    cbn [snd] in *. eexists. split; [reflexivity|].
    cbn [error isLoading businesses]. auto.
  - intros searchArea e Hsearch.
    destruct (places_handleSearch_run env location businessType numResults
                searchArea s)
      as [(e' & _ & s' & Hrun & Hb & Hl & He)
         |(places & Hok & _)]; [|congruence].
    exists s'. auto.
Qed.

(** C5, witness: the stream of the example breaks after its second chunk;
    [Acme Cafe], admitted from the first line, stays in the store. *)
Lemma discovery_failure_keeps_admitted_witness :
  exists s',
    AppGeo.handleSearch Samples.broken_stream "Austin, TX" "Coffee Shops" "5"
      (Samples.store_of [])
    = (Ok tt, s')
    /\ map discoveryName (businesses s') = ["Acme Cafe"]
    /\ isLoading s' = false.
Proof.
  destruct (discovery_failure_keeps_admitted Samples.broken_stream
              "Austin, TX" "Coffee Shops" "5" (take 2 Samples.stream_chunks)
              (Samples.store_of [])
              (conj eq_refl (ex_intro _ "network error" eq_refl)))
    as ((_ & s' & Hrun & _ & Hload & Hstore & _) & _).
  exists s'. split; [exact Hrun|]. split; [|exact Hload].
  rewrite Hstore. vm_compute. reflexivity.
Defined.

(** ** Missing API keys *)








(** C9. The key of the generative service has no guard of the kind the
    maps key has in [geocodeAddress] and [makePlacesRequest]: missing, it
    is handed as it is to the constructor of the SDK's client when the
    service module is first evaluated, and when the constructor refuses
    it, what it throws is thrown by the loading of the application, where
    nothing catches it: no operation of the service is ever reached. *)
Theorem missing_generative_key_unguarded (env : Platform.t) (e : string) :
  Js.is_falsy (Platform.API_KEY env) = true ->
  Platform.new_GoogleGenAI env (Platform.API_KEY env) = Throw e ->
  GeminiService.ai env = Throw e /\ Entry.load env = Throw e.
Proof.
  intros _ Hrefused. unfold Entry.load, GeminiService.ai.
  now rewrite Hrefused.
Qed.

(** C9, failing input: a browser with the maps key and without the key of
    the generative service; the application does not load. *)
Lemma missing_generative_key_unguarded_witness :
  Js.is_falsy (Platform.API_KEY Entry.no_gemini_key) = true
  /\ Js.is_falsy (Platform.GOOGLE_MAPS_API_KEY Entry.no_gemini_key) = false
  /\ Entry.load Entry.no_gemini_key
     = Throw "An API Key must be set when running in a browser".
Proof.
  split; [reflexivity|]. split; [reflexivity|].
  apply (missing_generative_key_unguarded Entry.no_gemini_key _ eq_refl eq_refl).
Defined.

(** ** Deduplication *)

Lemma string_of_uint_no_dash (d : Decimal.uint) :
  Js.indexOf "-" (NilEmpty.string_of_uint d) = None.
Proof. induction d; cbn; [reflexivity | now rewrite IHd ..]. Qed.

Lemma of_N_no_dash (n : N) : Js.indexOf "-" (Js.of_N n) = None.
Proof.
  unfold Js.of_N, NilZero.string_of_uint.
  destruct (N.to_uint n) eqn:E; try reflexivity;
    rewrite <- E at 1; cbn; now rewrite string_of_uint_no_dash.
Qed.

Lemma split_at_first (c : ascii) (a a' w w' : string) :
  Js.indexOf c a = None -> Js.indexOf c a' = None ->
  a +:+ String c w = a' +:+ String c w' -> a = a' /\ w = w'.
Proof.
  revert a'. induction a as [|x a IH]; intros [|x' a'] Ha Ha' E.
  - rewrite !append_nil_l in E. now injection E.
  - rewrite append_nil_l, append_cons in E. injection E as <- _.
    cbn in Ha'. now rewrite Ascii.eqb_refl in Ha'.
  - rewrite append_nil_l, append_cons in E. injection E as -> _.
    cbn in Ha. now rewrite Ascii.eqb_refl in Ha.
  - rewrite !append_cons in E. injection E as <- E.
    cbn in Ha, Ha'. destruct (Ascii.eqb x c); [discriminate|].
    destruct (Js.indexOf c a) eqn:Ea; [discriminate|].
    destruct (Js.indexOf c a') eqn:Ea'; [discriminate|].
    destruct (IH a' eq_refl Ea' E) as [-> ->]. auto.
Qed.

Lemma stream_id_website (b1 b2 : Business) :
  Invariants.stream_id b1 -> Invariants.stream_id b2 ->
  id b1 = id b2 -> discoveryWebsite b1 = discoveryWebsite b2.
Proof.
  intros [n1 H1] [n2 H2] E. rewrite H1, H2 in E.
  change ("-" +:+ ?w) with (String "-" w) in E.
  apply split_at_first in E as [_ E]; auto using of_N_no_dash.
Qed.

Lemma NoDup_map_finer {A B C : Type} (f : A -> B) (g : A -> C) (l : list A) :
  (forall x y, In x l -> In y l -> g x = g y -> f x = f y) ->
  NoDup (map f l) -> NoDup (map g l).
Proof.
  induction l as [|a l IH]; intros Hfg Hnd; cbn; [constructor|].
  cbn in Hnd. apply NoDup_cons in Hnd as [Hnotin Hnd].
  apply NoDup_cons. split.
  - intros Hin. apply Hnotin.
    apply list_elem_of_In, in_map_iff in Hin as (y & Hy & Hin).
    apply list_elem_of_In, in_map_iff. exists y. split; [|exact Hin].
    apply Hfg; cbn; auto.
  - apply IH; [|exact Hnd]. intros x y Hx Hy. apply Hfg; cbn; auto.
Qed.

Lemma stream_ok_ids (st : gset string * AppState) :
  Invariants.stream_ok st -> NoDup (map id (businesses (snd st))).
Proof.
  intros (Hnd & Hids & _). eapply NoDup_map_finer; [|exact Hnd].
  intros x y Hx Hy. rewrite Forall_forall in Hids.
  apply stream_id_website; apply Hids; now apply list_elem_of_In.
Qed.

Lemma existsb_website (w : string) (bs : list Business) :
  existsb (fun b => String.eqb (discoveryWebsite b) w) bs = true
  <-> In w (map discoveryWebsite bs).
Proof.
  rewrite existsb_exists, in_map_iff. split.
  - intros (b & Hin & E). apply String.eqb_eq in E. eauto.
  - intros (b & E & Hin). exists b. split; [exact Hin|]. now apply String.eqb_eq.
Qed.

(** What one admission does to the websites of the store. *)
Lemma stream_onDiscovery_websites (env : Platform.t) (location businessType : string)
    (d : BusinessDiscovery) (st : gset string * AppState) :
  (forall w, w ∈ fst st -> In w (Invariants.websites st)) ->
  (website d <> EmptyString /\ ~ In (website d) (Invariants.websites st)
   /\ exists n,
       AppStream.onDiscovery env location businessType d st
       = ({[ website d ]} ∪ fst st,
          {| businesses := businesses (snd st)
                           ++ [AppStream.newBusiness env location businessType d n];
             isLoading := isLoading (snd st);
             researchMessage := researchMessage (snd st);
             error := error (snd st); clock := clock (snd st) + 2 |}))
  \/ ((website d = EmptyString \/ In (website d) (Invariants.websites st))
      /\ AppStream.onDiscovery env location businessType d st = st).
Proof.
  destruct st as [run s]. cbn [fst snd]. intros Hrun.
  unfold AppStream.onDiscovery, Invariants.websites. cbn [snd].
  destruct (Js.truthy (website d)) eqn:Ht; cbn [negb orb].
  - destruct (existsb _ (businesses s)) eqn:Hex; cbn [orb].
    + right. split; [|reflexivity]. right. now apply existsb_website.
    + destruct (bool_decide (website d ∈ run)) eqn:Hin.
      * right. split; [|reflexivity]. right.
        apply Hrun. now apply bool_decide_eq_true in Hin.
      * left. split; [now destruct (website d)|]. split; [|eauto].
        intros Hw. apply existsb_website in Hw. congruence.
  - right. split; [|reflexivity]. left. now destruct (website d).
Qed.

Lemma stream_onDiscovery_ok (env : Platform.t) (location businessType : string)
    (d : BusinessDiscovery) (st : gset string * AppState) :
  Invariants.stream_ok st ->
  Invariants.stream_ok (AppStream.onDiscovery env location businessType d st).
Proof.
  intros (Hnd & Hids & Hrun).
  destruct (stream_onDiscovery_websites env location businessType d st Hrun)
    as [(Hne & Hfresh & n & ->) | (_ & ->)]; [|repeat split; assumption].
  unfold Invariants.stream_ok, Invariants.websites in *. cbn [fst snd businesses].
  rewrite map_app. cbn [map AppStream.newBusiness discoveryWebsite].
  split; [|split].
  - apply NoDup_app. split; [exact Hnd|]. split.
    + intros w Hw [<-|[]]%list_elem_of_In. now apply list_elem_of_In in Hw.
    + apply NoDup_singleton.
  - apply Forall_app. split; [exact Hids|]. constructor; [|constructor].
    eexists. reflexivity.
  - intros w [Hw%elem_of_singleton | Hw]%elem_of_union; apply in_or_app.
    + right. left. congruence.
    + left. now apply Hrun.
Qed.

Lemma stream_ok_update (run : gset string) (s : AppState) (target : string)
    (f : Business -> Business) :
  (forall b, id (f b) = id b /\ discoveryWebsite (f b) = discoveryWebsite b) ->
  Invariants.stream_ok (run, s) ->
  Invariants.stream_ok (run, over_businesses (mapById target f) s).
Proof.
  intros Hf (Hnd & Hids & Hrun).
  unfold Invariants.stream_ok in *. cbn [fst snd over_businesses businesses] in *.
  assert (Hw : map discoveryWebsite (mapById target f (businesses s))
               = map discoveryWebsite (businesses s)).
  { unfold mapById. rewrite map_map. apply map_ext. intros b.
    destruct (String.eqb (id b) target); [apply Hf | reflexivity]. }
  rewrite Hw. split; [exact Hnd|]. split; [|exact Hrun].
  rewrite Forall_forall in *. intros b' Hin.
  apply list_elem_of_In, in_map_iff in Hin as (b & <- & Hin).
  apply list_elem_of_In, Hids in Hin.
  destruct (String.eqb (id b) target); [|exact Hin].
  destruct Hin as [n Hn]. exists n.
  destruct (Hf b) as [-> ->]. exact Hn.
Qed.

Lemma stream_ok_same_store (run run' : gset string) (s s' : AppState) :
  businesses s' = businesses s -> run' ⊆ run ->
  Invariants.stream_ok (run, s) -> Invariants.stream_ok (run', s').
Proof.
  intros Hb Hsub (Hnd & Hids & Hrun). unfold Invariants.stream_ok in *.
  cbn [fst snd] in *. rewrite Hb. repeat split; auto.
Qed.

Lemma stream_step_ok (env : Platform.t) (st st' : gset string * AppState) :
  AppStream.step env st st' -> Invariants.stream_ok st -> Invariants.stream_ok st'.
Proof.
  intros Hstep Hok. destruct Hstep.
  - eapply stream_ok_same_store; [| |exact Hok]; [reflexivity | set_solver].
  - now apply stream_onDiscovery_ok.
  - rewrite stream_settled_run. cbn [snd].
    destruct (GeminiService.researchBusiness env _ _);
      apply stream_ok_update; auto.
  - cbn [snd]. apply stream_ok_update; auto.
  - rewrite stream_retry_run.
    destruct (find _ captured) as [b|]; [|exact Hok]. cbv zeta.
    destruct (GeminiService.researchBusiness env _ _); cbn [snd].
    + apply (stream_ok_update run
               (tick 1 (over_businesses (AppStream.markResearching businessId) s)));
        [auto|].
      eapply stream_ok_same_store;
        [| |apply (stream_ok_update run s businessId (set_isResearching true));
            [auto | exact Hok]]; [reflexivity | set_solver].
    + apply (stream_ok_update run
               (over_businesses (AppStream.markResearching businessId) s));
        [auto|].
      apply stream_ok_update; auto.
  - eapply stream_ok_same_store; [| |exact Hok]; [reflexivity | set_solver].
Qed.

Lemma stream_reachable_ok (env : Platform.t) (st : gset string * AppState) :
  AppStream.reachable env st -> Invariants.stream_ok st.
Proof.
  induction 1 as [|st st' _ IH Hstep].
  - repeat split; [constructor | constructor | set_solver].
  - eapply stream_step_ok; eassumption.
Qed.

Lemma stream_admitAll_ok (env : Platform.t) (location businessType : string)
    (ds : list BusinessDiscovery) (st : gset string * AppState) :
  Invariants.stream_ok st ->
  Invariants.stream_ok (AppStream.admitAll env location businessType ds st).
Proof.
  revert st. induction ds as [|d ds IH]; intros st Hok; [exact Hok|].
  cbn [AppStream.admitAll fold_left]. apply IH. now apply stream_onDiscovery_ok.
Qed.

(** The websites in the store after a run: those that were there, and the
    non-empty websites of the discoveries. *)
Lemma stream_admitAll_websites (env : Platform.t) (location businessType : string)
    (ds : list BusinessDiscovery) (st : gset string * AppState) :
  Invariants.stream_ok st ->
  forall w,
    In w (Invariants.websites (AppStream.admitAll env location businessType ds st))
    <-> In w (Invariants.websites st)
        \/ (w <> EmptyString /\ exists d, In d ds /\ website d = w).
Proof.
  revert st. induction ds as [|d ds IH]; intros st Hok w.
  - cbn. split; [auto|]. intros [H|(_ & d & [] & _)]. exact H.
  - cbn [AppStream.admitAll fold_left].
    fold (AppStream.admitAll env location businessType ds
            (AppStream.onDiscovery env location businessType d st)).
    rewrite (IH _ (stream_onDiscovery_ok env location businessType d st Hok)).
    destruct Hok as (_ & _ & Hrun).
    destruct (stream_onDiscovery_websites env location businessType d st Hrun)
      as [(Hne & Hfresh & n & ->) | (Hskip & ->)].
    + unfold Invariants.websites. cbn [snd businesses].
      rewrite map_app. cbn [map AppStream.newBusiness discoveryWebsite].
      rewrite in_app_iff. cbn [In]. split.
      * intros [[H|[<-|[]]]|(Hw & d' & Hd' & E)]; [auto| |].
        -- right. split; [exact Hne|]. exists d. cbn. auto.
        -- right. split; [exact Hw|]. exists d'. cbn. auto.
      * intros [H|(Hw & d' & [<-|Hd'] & E)]; [auto| |].
        -- left. right. left. exact E.
        -- right. split; [exact Hw|]. eauto.
    + split.
      * intros [H|(Hw & d' & Hd' & E)]; [auto|].
        right. split; [exact Hw|]. exists d'. cbn. auto.
      * intros [H|(Hw & d' & [<-|Hd'] & E)]; [auto| |].
        -- destruct Hskip as [Hempty|Hin]; [congruence|]. left. now rewrite <- E.
        -- right. split; [exact Hw|]. eauto.
Qed.

Lemma NoDup_map_filter {A B : Type} (f : A -> B) (p : A -> bool) (l : list A) :
  NoDup (map f l) -> NoDup (map f (List.filter p l)).
Proof.
  induction l as [|a l IH]; cbn; [auto|].
  intros [Hnotin Hnd]%NoDup_cons. destruct (p a); cbn; [|auto].
  apply NoDup_cons. split; [|auto].
  intros Hin. apply Hnotin.
  apply list_elem_of_In, in_map_iff in Hin as (x & Hx & Hin).
  apply filter_In in Hin as [Hin _].
  apply list_elem_of_In, in_map_iff. eauto.
Qed.

Lemma appendUnique_ids (newBusinesses prev : list Business) :
  (forall i, In i (map id (AppPlaces.appendUnique newBusinesses prev))
             <-> In i (map id prev) \/ In i (map id newBusinesses))
  /\ prev `prefix_of` AppPlaces.appendUnique newBusinesses prev
  /\ (NoDup (map id prev) -> NoDup (map id newBusinesses) ->
      NoDup (map id (AppPlaces.appendUnique newBusinesses prev))).
Proof.
  unfold AppPlaces.appendUnique.
  assert (Hkeep : forall b,
             negb (bool_decide (id b ∈ (list_to_set (map id prev) : gset string)))
             = true <-> ~ In (id b) (map id prev)).
  { intros b. rewrite negb_true_iff, bool_decide_eq_false, elem_of_list_to_set.
    now rewrite list_elem_of_In. }
  split; [|split].
  - intros i. rewrite map_app, in_app_iff, !in_map_iff. split.
    + intros [H|(b & E & [Hin _]%filter_In)]; [auto|]. right. eauto.
    + intros [H|(b & E & Hin)]; [auto|].
      destruct (in_dec String.string_dec i (map id prev)) as [Hi|Hi].
      * left. now apply in_map_iff in Hi.
      * right. exists b. split; [exact E|]. apply filter_In.
        split; [exact Hin|]. apply Hkeep. now rewrite E.
  - now apply prefix_app_r.
  - intros Hprev Hnew. rewrite map_app. apply NoDup_app.
    split; [exact Hprev|]. split; [|now apply NoDup_map_filter].
    intros i Hi Hi'. apply list_elem_of_In in Hi.
    apply list_elem_of_In, in_map_iff in Hi' as (b & <- & [_ Hk]%filter_In).
    now apply Hkeep in Hk.
Qed.

(** C2 (as amended). Dedupe: in the streaming components the key is the
    website alone, and with that key the store holds exactly one candidate
    per key at all times: in every state the component can reach, by
    admissions, settled researches, retries and new searches in any order,
    no two candidates share a website or an id; after a run from such a
    state a website is in the store exactly when it was there before or is
    the non-empty website of one of the run's discoveries, whatever their
    order and whatever the cut of the stream into chunks.  In batch mode
    the key is the place id: the batch's candidates whose id is not yet in
    the store are appended behind the existing ones, and the ids of the
    store stay unique when those of the batch are. *)
Theorem dedupe_one_candidate_per_key (env : Platform.t)
    (st : gset string * AppState) :
  AppStream.reachable env st ->
  (NoDup (map id (businesses (snd st)))
   /\ NoDup (map discoveryWebsite (businesses (snd st))))
  /\ (forall location businessType ds,
         let after := AppStream.admitAll env location businessType ds (∅, snd st) in
         NoDup (map id (businesses (snd after)))
         /\ NoDup (Invariants.websites after)
         /\ (forall w, In w (Invariants.websites after)
                       <-> In w (Invariants.websites st)
                           \/ (w <> EmptyString
                               /\ exists d, In d ds /\ website d = w))
         /\ (forall ds', Permutation ds ds' ->
               forall w,
                 In w (Invariants.websites after)
                 <-> In w (Invariants.websites
                             (AppStream.admitAll env location businessType ds'
                                (∅, snd st)))))
  /\ (forall location businessType d st0,
         AppGeo.onDiscovery env location businessType d st0
         = AppStream.onDiscovery env location businessType d st0)
  /\ (forall location businessType chunks chunks' st0,
         String.concat EmptyString chunks = String.concat EmptyString chunks' ->
         GeminiService.forAwaitChunks
           (AppStream.onDiscovery env location businessType) chunks EmptyString st0
         = GeminiService.forAwaitChunks
             (AppStream.onDiscovery env location businessType) chunks' EmptyString st0)
  /\ (forall newBusinesses prev,
         (forall i, In i (map id (AppPlaces.appendUnique newBusinesses prev))
                    <-> In i (map id prev) \/ In i (map id newBusinesses))
         /\ prev `prefix_of` AppPlaces.appendUnique newBusinesses prev
         /\ (NoDup (map id prev) -> NoDup (map id newBusinesses) ->
             NoDup (map id (AppPlaces.appendUnique newBusinesses prev)))).
Proof.
  intros Hreach. pose proof (stream_reachable_ok env st Hreach) as Hok.
  assert (Hfresh : Invariants.stream_ok (∅, snd st)).
  { destruct st as [run s]. eapply stream_ok_same_store; [| |exact Hok];
      [reflexivity | set_solver]. }
  split; [split; [now apply stream_ok_ids | apply Hok]|].
  split.
  { intros location businessType ds after.
    pose proof (stream_admitAll_ok env location businessType ds _ Hfresh) as Hafter.
    split; [now apply stream_ok_ids|]. split; [apply Hafter|].
    split; [apply (stream_admitAll_websites env location businessType ds _ Hfresh)|].
    intros ds' Hperm w. unfold after.
    rewrite !(stream_admitAll_websites env location businessType _ _ Hfresh).
    split; (intros [H|(Hw & d & Hd & E)]; [auto|]);
      right; (split; [exact Hw|]); exists d; (split; [|exact E]).
    - now apply (Permutation_in _ Hperm).
    - now apply (Permutation_in _ (Permutation_sym Hperm)). }
  split; [reflexivity|].
  split.
  { intros location businessType chunks chunks' st0 Hcat.
    rewrite !forAwaitChunks_whole by reflexivity. now rewrite Hcat. }
  intros newBusinesses prev. apply appendUnique_ids.
Qed.

(** C2, witness: from the first render, a run that finds [Acme Cafe], the
    same website under another name, and [Beta Bar] leaves two candidates. *)
Lemma dedupe_one_candidate_per_key_witness :
  AppStream.reachable Samples.offline (∅, initialState)
  /\ Invariants.websites
       (AppStream.admitAll Samples.offline "Austin, TX" "Coffee Shops"
          [Samples.acme_discovery; Samples.acme_again; Samples.beta_discovery]
          (∅, initialState))
     = ["https://acme.test"; "https://beta.test"]
  /\ NoDup (map id (businesses (snd
       (AppStream.admitAll Samples.offline "Austin, TX" "Coffee Shops"
          [Samples.acme_discovery; Samples.acme_again; Samples.beta_discovery]
          (∅, initialState))))).
Proof.
  split; [constructor|]. split; [vm_compute; reflexivity|].
  apply (dedupe_one_candidate_per_key Samples.offline (∅, initialState)
           (AppStream.reachable_initial Samples.offline)).
Defined.

(** C2, counterexample to the claim as stated: two discoveries with
    different name / website keys and the same website leave one
    candidate, and none for the second key. *)
Lemma dedupe_key_is_not_name_and_website :
  let store :=
    businesses (snd (AppStream.admitAll Samples.offline "Austin, TX" "Coffee Shops"
                       [Samples.acme_discovery; Samples.acme_again]
                       (∅, initialState))) in
  Spec.dedupe_key Samples.acme_discovery <> Spec.dedupe_key Samples.acme_again
  /\ length store = 1
  /\ ~ exists b, In b store
                 /\ (discoveryName b, discoveryWebsite b)
                    = Spec.dedupe_key Samples.acme_again.
Proof.
  split; [discriminate|]. split; [vm_compute; reflexivity|].
  intros (b & Hin & E). vm_compute in Hin.
  destruct Hin as [<-|[]]. discriminate E.
Qed.

(** The batch filter looks at the store only: a place listed twice in
    one batch is appended twice. *)
Example batch_internal_duplicates_both_appended :
  map id (AppPlaces.appendUnique [Samples.acme; Samples.acme] [])
  = [id Samples.acme; id Samples.acme].
Proof. reflexivity. Qed.

(* ===================================================================== *)
(** * Further properties of the code *)
(* ===================================================================== *)

(** ** The stream parser, line by line *)

Lemma split_nonempty (c : ascii) (s : string) : Js.split c s <> [].
Proof.
  destruct s as [|x r]; cbn; [discriminate|].
  destruct (Ascii.eqb x c); [discriminate|].
  destruct (Js.split c r); discriminate.
Qed.

Lemma split_indexOf_None (c : ascii) (s : string) :
  Js.indexOf c s = None -> Js.split c s = [s].
Proof.
  induction s as [|x r IH]; cbn; [reflexivity|].
  destruct (Ascii.eqb x c); [discriminate|].
  destruct (Js.indexOf c r); [discriminate|].
  intros _. now rewrite IH.
Qed.

Lemma split_indexOf_Some (c : ascii) (s : string) (i : nat) :
  Js.indexOf c s = Some i ->
  Js.split c s = Js.take i s :: Js.split c (Js.drop (i + 1) s).
Proof.
  revert i. induction s as [|x r IH]; intros i; cbn [Js.indexOf Js.split];
    [discriminate|].
  destruct (Ascii.eqb x c).
  - intros [= <-]. cbn. now rewrite ?drop_0.
  - destruct (Js.indexOf c r) as [j|]; [|discriminate].
    intros [= <-]. rewrite (IH j eq_refl). reflexivity.
Qed.

Section LineByLine.
Context {S : Type} (onDiscovery : BusinessDiscovery -> S -> S).

Lemma drain_split (text : string) (s : S) :
  GeminiService.drain onDiscovery text s
  = (List.last (Js.split Js.newline text) EmptyString,
     fold_left (Reported.perLine onDiscovery) (removelast (Js.split Js.newline text)) s).
Proof.
  remember (String.length text) as n eqn:Hn.
  assert (Hle : String.length text <= n) by lia. clear Hn.
  revert text s Hle. induction n as [|n IH]; intros text s Hle.
  - destruct text; [reflexivity | cbn in Hle; lia].
  - destruct (Js.indexOf Js.newline text) as [i|] eqn:E.
    + pose proof (indexOf_lt _ _ _ E) as Hlt.
      rewrite (drain_step _ _ _ _ E), (split_indexOf_Some _ _ _ E).
      rewrite IH by (rewrite length_drop; lia).
      pose proof (split_nonempty Js.newline (Js.drop (i + 1) text)) as Hne.
      destruct (Js.split Js.newline (Js.drop (i + 1) text)) as [|p ps];
        [contradiction|].
      reflexivity.
    + rewrite (drain_done _ _ _ E), (split_indexOf_None _ _ E). reflexivity.
Qed.

Lemma emitLine_recorded (line : string) (s : S) :
  GeminiService.emitLine onDiscovery line s
  = fold_left (fun s d => onDiscovery d s)
      (GeminiService.emitLine Samples.record line []) s.
Proof.
  unfold GeminiService.emitLine.
  repeat match goal with |- context [if ?c then _ else _] => destruct c end;
    reflexivity.
Qed.

Lemma perLine_recorded (lines : list string) (s : S) :
  fold_left (Reported.perLine onDiscovery) lines s
  = fold_left (fun s d => onDiscovery d s) (Reported.ofLines lines) s.
Proof.
  revert s. induction lines as [|l lines IH]; intros s; [reflexivity|].
  cbn [fold_left Reported.ofLines flat_map]. rewrite fold_left_app.
  fold (Reported.ofLines lines). rewrite <- IH. f_equal.
  apply emitLine_recorded.
Qed.

End LineByLine.

Lemma forAwaitChunks_split {S : Type} (onDiscovery : BusinessDiscovery -> S -> S)
    (chunks : list string) (s : S) :
  GeminiService.forAwaitChunks onDiscovery chunks EmptyString s
  = (List.last (Reported.linesOf chunks) EmptyString,
     fold_left (Reported.perLine onDiscovery)
       (removelast (Reported.linesOf chunks)) s).
Proof.
  rewrite forAwaitChunks_whole by reflexivity.
  rewrite append_nil_l. apply drain_split.
Qed.

Lemma findBusinessesStream_effect (env : Platform.t)
    (location businessType numResults : string)
    {S : Type} (onDiscovery : BusinessDiscovery -> S -> S) (s : S) :
  GeminiService.findBusinessesStream env location businessType numResults
    onDiscovery s
  = (Reported.outcome
       (Platform.generateContentStream env
          (GeminiService.discoveryPrompt location businessType numResults)),
     fold_left (fun s d => onDiscovery d s)
       (Reported.ofAnswer
          (Platform.generateContentStream env
             (GeminiService.discoveryPrompt location businessType numResults)))
       s).
Proof.
  unfold GeminiService.findBusinessesStream. run_monad.
  destruct (Platform.generateContentStream env _) as [rs|e]; [|reflexivity].
  rewrite forAwaitChunks_split.
  unfold Reported.outcome, Reported.ofAnswer.
  destruct (Platform.ending rs); [|now rewrite perLine_recorded].
  rewrite <- perLine_recorded.
  rewrite (app_removelast_last EmptyString
             (split_nonempty Js.newline
                (String.concat EmptyString (Platform.chunks rs)))) at 3.
  fold (Reported.linesOf (Platform.chunks rs)).
  rewrite fold_left_app. reflexivity.
Qed.

(** X1. The chunk loop works line by line: after any sequence of chunks
    the buffer holds exactly the text that follows the last newline
    received, and every line before it has been trimmed and handed to the
    line parser, once and in order. *)
Theorem stream_loop_line_by_line {S : Type}
    (onDiscovery : BusinessDiscovery -> S -> S) (chunks : list string) (s : S) :
  GeminiService.forAwaitChunks onDiscovery chunks EmptyString s
  = (List.last (Js.split Js.newline (String.concat EmptyString chunks)) EmptyString,
     fold_left
       (fun s line => GeminiService.emitLine onDiscovery (Js.trim line) s)
       (removelast (Js.split Js.newline (String.concat EmptyString chunks))) s).
Proof. apply forAwaitChunks_split. Qed.

(** X2. On every platform [findBusinessesStream] calls [onDiscovery]
    exactly on the discoveries of the lines received, in order (when the
    stream breaks, the unfinished last line is dropped; when the call is
    rejected, the callback is never called), and it resolves exactly when
    the stream ends normally; in every other case it rejects with its one
    error message. *)
Theorem stream_reports_lines_received (env : Platform.t)
    (location businessType numResults : string)
    {S : Type} (onDiscovery : BusinessDiscovery -> S -> S) (s : S) :
  GeminiService.findBusinessesStream env location businessType numResults
    onDiscovery s
  = (Reported.outcome
       (Platform.generateContentStream env
          (GeminiService.discoveryPrompt location businessType numResults)),
     fold_left (fun s d => onDiscovery d s)
       (Reported.ofAnswer
          (Platform.generateContentStream env
             (GeminiService.discoveryPrompt location businessType numResults)))
       s).
Proof. apply findBusinessesStream_effect. Qed.

(** ** What the parser lets through *)

Lemma trimStart_head (s : string) :
  Js.trimStart s = EmptyString
  \/ exists c r, Js.trimStart s = String c r /\ Js.is_white_space c = false.
Proof.
  induction s as [|c r IH]; [now left|]. cbn [Js.trimStart].
  destruct (Js.is_white_space c) eqn:E; [exact IH|]. right. eauto.
Qed.

Lemma trimEnd_keeps_head (c : ascii) (r : string) :
  Js.is_white_space c = false -> exists r', Js.trimEnd (String c r) = String c r'.
Proof.
  intros E. cbn [Js.trimEnd]. destruct (Js.trimEnd r); [rewrite E|]; eauto.
Qed.

Lemma trimEnd_idem (s : string) : Js.trimEnd (Js.trimEnd s) = Js.trimEnd s.
Proof.
  induction s as [|c r IH]; [reflexivity|]. cbn [Js.trimEnd].
  destruct (Js.trimEnd r) as [|c' r'] eqn:E.
  - destruct (Js.is_white_space c) eqn:Ec; [reflexivity|]. cbn. now rewrite Ec.
  - change (Js.trimEnd (String c (String c' r')))
      with (match Js.trimEnd (String c' r') with
            | EmptyString =>
                if Js.is_white_space c then EmptyString else Js.chr c
            | r0 => String c r0
            end).
    now rewrite IH.
Qed.

Lemma trim_idem (s : string) : Js.trim (Js.trim s) = Js.trim s.
Proof.
  unfold Js.trim.
  destruct (trimStart_head s) as [->|(c & r & -> & Ec)]; [reflexivity|].
  destruct (trimEnd_keeps_head c r Ec) as [r' E]. rewrite E.
  cbn [Js.trimStart]. rewrite Ec, <- E. apply trimEnd_idem.
Qed.

Lemma indexOf_trimStart_None (c : ascii) (s : string) :
  Js.indexOf c s = None -> Js.indexOf c (Js.trimStart s) = None.
Proof.
  induction s as [|x r IH]; [reflexivity|]. intros H. cbn [Js.trimStart].
  destruct (Js.is_white_space x); [|exact H].
  apply IH. cbn in H. destruct (Ascii.eqb x c); [discriminate|].
  now destruct (Js.indexOf c r).
Qed.

Lemma indexOf_trimEnd_None (c : ascii) (s : string) :
  Js.indexOf c s = None -> Js.indexOf c (Js.trimEnd s) = None.
Proof.
  induction s as [|x r IH]; [reflexivity|]. intros H. cbn in H.
  destruct (Ascii.eqb x c) eqn:Ex; [discriminate|].
  destruct (Js.indexOf c r) eqn:Er; [discriminate|].
  specialize (IH eq_refl). cbn [Js.trimEnd].
  destruct (Js.trimEnd r) as [|c' r'].
  - destruct (Js.is_white_space x); [reflexivity|]. cbn. now rewrite Ex.
  - cbn [Js.indexOf]. rewrite Ex. cbn [Js.indexOf] in IH. now rewrite IH.
Qed.

Lemma indexOf_trim_None (c : ascii) (s : string) :
  Js.indexOf c s = None -> Js.indexOf c (Js.trim s) = None.
Proof.
  intros H. unfold Js.trim.
  now apply indexOf_trimEnd_None, indexOf_trimStart_None.
Qed.

Lemma split_pieces_without (c c' : ascii) (s : string) :
  Js.indexOf c' s = None ->
  Forall (fun p => Js.indexOf c' p = None) (Js.split c s).
Proof.
  induction s as [|x r IH]; intros H; cbn [Js.split].
  - now constructor.
  - cbn in H. destruct (Ascii.eqb x c') eqn:Ex; [discriminate|].
    destruct (Js.indexOf c' r) eqn:Er; [discriminate|].
    specialize (IH eq_refl).
    destruct (Ascii.eqb x c).
    + constructor; [reflexivity | exact IH].
    + destruct (Js.split c r) as [|p ps].
      * constructor; [|constructor]. cbn. now rewrite Ex.
      * apply Forall_cons in IH as [Hp Hps]. constructor; [|exact Hps].
        cbn. now rewrite Ex, Hp.
Qed.

Lemma split_pieces_no_separator (c : ascii) (s : string) :
  Forall (fun p => Js.indexOf c p = None) (Js.split c s).
Proof.
  induction s as [|x r IH]; cbn [Js.split].
  - now constructor.
  - destruct (Ascii.eqb x c) eqn:Ex.
    + constructor; [reflexivity | exact IH].
    + destruct (Js.split c r) as [|p ps].
      * constructor; [|constructor]. cbn. now rewrite Ex.
      * apply Forall_cons in IH as [Hp Hps]. constructor; [|exact Hps].
        cbn. now rewrite Ex, Hp.
Qed.

Lemma nth_Forall_default {A : Type} (P : A -> Prop) (l : list A) (k : nat) (d : A) :
  P d -> Forall P l -> P (nth k l d).
Proof.
  intros Hd Hl. revert k. induction Hl as [|a l Ha _ IH]; intros [|k]; cbn; auto.
Qed.

Lemma emitLine_valid (line : string) :
  Js.indexOf Js.newline line = None ->
  Forall Reported.valid (GeminiService.emitLine Samples.record line []).
Proof.
  intros Hnl. unfold GeminiService.emitLine.
  destruct (Js.includes Js.pipe line); [|constructor].
  destruct (2 <=? length (Js.split Js.pipe line))%nat; [|constructor].
  destruct (Js.truthy (Js.trim (nth 0 (Js.split Js.pipe line) EmptyString))) eqn:Hn;
    [|constructor].
  destruct (Js.truthy (Js.trim (nth 1 (Js.split Js.pipe line) EmptyString))) eqn:Hw;
    [|constructor].
  destruct (Js.startsWith "http"
              (Js.trim (nth 1 (Js.split Js.pipe line) EmptyString))) eqn:Hh;
    [|constructor].
  cbn [andb]. constructor; [|constructor].
  assert (Hpipe : forall k,
             Js.indexOf Js.pipe
               (Js.trim (nth k (Js.split Js.pipe line) EmptyString)) = None).
  { intros k. apply indexOf_trim_None.
    apply (nth_Forall_default (fun p => Js.indexOf Js.pipe p = None));
      [reflexivity | apply split_pieces_no_separator]. }
  assert (Hline : forall k,
             Js.indexOf Js.newline
               (Js.trim (nth k (Js.split Js.pipe line) EmptyString)) = None).
  { intros k. apply indexOf_trim_None.
    apply (nth_Forall_default (fun p => Js.indexOf Js.newline p = None));
      [reflexivity | now apply split_pieces_without]. }
  unfold Reported.valid, Js.includes. cbn [name website].
  rewrite !trim_idem, !Hpipe, !Hline. auto 10.
Qed.

Lemma ofLines_valid (lines : list string) :
  Forall (fun l => Js.indexOf Js.newline l = None) lines ->
  Forall Reported.valid (Reported.ofLines lines).
Proof.
  induction 1 as [|l lines Hl _ IH]; [constructor|].
  cbn [Reported.ofLines flat_map]. apply Forall_app. split; [|exact IH].
  apply emitLine_valid. now apply indexOf_trim_None.
Qed.

Lemma Forall_removelast {A : Type} (P : A -> Prop) (l : list A) :
  Forall P l -> Forall P (removelast l).
Proof.
  induction 1 as [|a l Ha Hl IH]; [constructor|]. cbn.
  destruct l; [constructor|]. constructor; assumption.
Qed.

Lemma ofAnswer_valid (r : Result Platform.ResponseStream) :
  Forall Reported.valid (Reported.ofAnswer r).
Proof.
  destruct r as [rs|e]; [|constructor]. unfold Reported.ofAnswer.
  destruct (Platform.ending rs); apply ofLines_valid;
    [|apply Forall_removelast]; apply split_pieces_no_separator.
Qed.

Lemma fold_record (l acc : list BusinessDiscovery) :
  fold_left (fun s d => Samples.record d s) l acc = acc ++ l.
Proof.
  revert acc. induction l as [|d l IH]; intros acc; cbn [fold_left].
  - now rewrite app_nil_r.
  - rewrite IH. unfold Samples.record. now rewrite <- app_assoc.
Qed.

(** X3. What the parser never lets through: on every platform, every
    discovery that [findBusinessesStream] reports has a non-empty name and
    a non-empty website that starts with [http], both trimmed and free of
    [|] and of newlines. *)
Theorem stream_reports_only_valid (env : Platform.t)
    (location businessType numResults : string) :
  Forall Reported.valid
    (snd (GeminiService.findBusinessesStream env location businessType numResults
            Samples.record [])).
Proof.
  rewrite findBusinessesStream_effect. cbn [snd].
  rewrite fold_record. apply ofAnswer_valid.
Qed.

(** ** A streaming search, end to end *)

Lemma stream_handleSearch_effect (env : Platform.t)
    (location businessType numResults : string) (s : AppState) :
  exists s',
    AppStream.handleSearch env location businessType numResults s = (Ok tt, s')
    /\ businesses s'
       = businesses (snd (AppStream.admitAll env location businessType
                            (Reported.ofAnswer
                               (Platform.generateContentStream env
                                  (GeminiService.discoveryPrompt location
                                     businessType numResults)))
                            (∅, searching s)))
    /\ isLoading s' = false
    /\ error s'
       = match Reported.outcome
                 (Platform.generateContentStream env
                    (GeminiService.discoveryPrompt location businessType numResults))
         with
         | Ok _ => None
         | Throw _ => Some Facts.discoveryError
         end.
Proof.
  unfold AppStream.handleSearch. run_monad.
  cbn -[GeminiService.findBusinessesStream].
  change {| businesses := businesses s; isLoading := true;
            researchMessage := "Discovering businesses...";
            error := None; clock := clock s |} with (searching s).
  rewrite findBusinessesStream_effect.
  change (fold_left _ ?ds (∅, searching s))
    with (AppStream.admitAll env location businessType ds (∅, searching s)).
  assert (Herr : error (snd (AppStream.admitAll env location businessType
                               (Reported.ofAnswer
                                  (Platform.generateContentStream env
                                     (GeminiService.discoveryPrompt location
                                        businessType numResults)))
                               (∅, searching s))) = None).
  { generalize (Reported.ofAnswer
                  (Platform.generateContentStream env
                     (GeminiService.discoveryPrompt location businessType
                        numResults))).
    intros ds.
    assert (H : forall st, error (snd st) = None ->
                error (snd (AppStream.admitAll env location businessType ds st))
                = None).
    { induction ds as [|d ds IH]; intros st Hst; [exact Hst|].
      cbn [AppStream.admitAll fold_left]. apply IH.
      destruct st as [run s0]. unfold AppStream.onDiscovery.
      destruct (_ || _); exact Hst. }
    now apply H. }
  destruct (AppStream.admitAll env location businessType _ (∅, searching s))
    as [run s1].
  cbn [snd] in Herr.
  destruct (Reported.outcome _) as [[]|e]; eexists;
    (split; [reflexivity|]); cbn [businesses isLoading error snd]; auto.
Qed.

Lemma geo_handleSearch_effect (env : Platform.t)
    (location businessType numResults : string) (s : AppState) :
  exists s',
    AppGeo.handleSearch env location businessType numResults s = (Ok tt, s')
    /\ businesses s'
       = businesses (snd (AppStream.admitAll env location businessType
                            (Reported.ofAnswer
                               (Platform.generateContentStream env
                                  (GeminiService.discoveryPrompt location
                                     businessType numResults)))
                            (∅, searching s)))
    /\ isLoading s' = false
    /\ error s'
       = match Reported.outcome
                 (Platform.generateContentStream env
                    (GeminiService.discoveryPrompt location businessType numResults))
         with
         | Ok _ => None
         | Throw _ => Some Facts.discoveryError
         end.
Proof.
  destruct (stream_handleSearch_effect env location businessType numResults s)
    as (s' & Hrun & Hb & Hl & He).
  revert Hrun. unfold AppStream.handleSearch, AppGeo.handleSearch. run_monad.
  cbn -[GeminiService.findBusinessesStream].
  change (AppGeo.onDiscovery env location businessType)
    with (AppStream.onDiscovery env location businessType).
  destruct (GeminiService.findBusinessesStream env _ _ _ _ _)
    as [[[]|e] [run s1]]; cbn; intros [= <-]; eexists;
    (split; [reflexivity|]); cbn in *; auto.
Qed.

Lemma stream_onDiscovery_cases (env : Platform.t) (location businessType : string)
    (d : BusinessDiscovery) (st : gset string * AppState) :
  AppStream.onDiscovery env location businessType d st = st
  \/ (Js.truthy (website d) = true
      /\ exists b,
          businesses (snd (AppStream.onDiscovery env location businessType d st))
          = businesses (snd st) ++ [b]
          /\ Facts.fresh location businessType b
          /\ Facts.discoveryOf b = d).
Proof.
  destruct st as [run s]. unfold AppStream.onDiscovery.
  destruct (Js.truthy (website d)) eqn:Ht; [|now left].
  destruct (_ || _); [now left|]. right. split; [reflexivity|].
  eexists. cbn [snd businesses]. split; [reflexivity|].
  split; [repeat split | now destruct d].
Qed.

Lemma stream_admitAll_appends (env : Platform.t) (location businessType : string)
    (ds : list BusinessDiscovery) (st : gset string * AppState) :
  exists added,
    businesses (snd (AppStream.admitAll env location businessType ds st))
    = businesses (snd st) ++ added
    /\ Forall (Facts.fresh location businessType) added
    /\ Forall (fun b => In (Facts.discoveryOf b) ds) added.
Proof.
  revert st. induction ds as [|d ds IH]; intros st.
  - exists []. cbn. now rewrite app_nil_r.
  - cbn [AppStream.admitAll fold_left].
    destruct (IH (AppStream.onDiscovery env location businessType d st))
      as (added & Hb & Hfresh & Hfrom).
    fold (AppStream.admitAll env location businessType ds
            (AppStream.onDiscovery env location businessType d st)).
    assert (Hfrom' : Forall (fun b => In (Facts.discoveryOf b) (d :: ds)) added).
    { eapply Forall_impl; [exact Hfrom|]. cbn. auto. }
    destruct (stream_onDiscovery_cases env location businessType d st)
      as [E | (_ & b & Hadd & Hf & Hd)].
    + rewrite E in Hb |- *. exists added. repeat split; assumption.
    + exists (b :: added). rewrite Hb, Hadd, <- app_assoc.
      split; [reflexivity|]. split; constructor; auto.
      rewrite Hd. now left.
Qed.

Lemma stream_admitAll_known (env : Platform.t) (location businessType : string)
    (ds : list BusinessDiscovery) (st : gset string * AppState) :
  (forall d, In d ds ->
             website d = EmptyString \/ In (website d) (Invariants.websites st)) ->
  AppStream.admitAll env location businessType ds st = st.
Proof.
  induction ds as [|d ds IH]; intros Hknown; [reflexivity|].
  cbn [AppStream.admitAll fold_left].
  assert (E : AppStream.onDiscovery env location businessType d st = st).
  { destruct st as [run s]. unfold AppStream.onDiscovery.
    destruct (Hknown d (or_introl eq_refl)) as [Hw|Hw].
    - now rewrite Hw.
    - apply existsb_website in Hw. cbn [snd] in Hw. rewrite Hw.
      now rewrite orb_true_r. }
  rewrite E. apply IH. intros d' Hd'. apply Hknown. now right.
Qed.

Lemma stream_admitAll_covers (env : Platform.t) (location businessType : string)
    (ds : list BusinessDiscovery) (st : gset string * AppState) :
  (forall w, w ∈ fst st -> In w (Invariants.websites st)) ->
  (forall w, In w (Invariants.websites st) ->
             In w (Invariants.websites
                     (AppStream.admitAll env location businessType ds st)))
  /\ forall d, In d ds ->
       website d = EmptyString
       \/ In (website d)
            (Invariants.websites
               (AppStream.admitAll env location businessType ds st)).
Proof.
  revert st. induction ds as [|d ds IH]; intros st Hrun; [split; [auto|intros ? []]|].
  cbn [AppStream.admitAll fold_left].
  fold (AppStream.admitAll env location businessType ds
          (AppStream.onDiscovery env location businessType d st)).
  assert (Hstep :
    (forall w, w ∈ fst (AppStream.onDiscovery env location businessType d st) ->
               In w (Invariants.websites
                       (AppStream.onDiscovery env location businessType d st)))
    /\ (forall w, In w (Invariants.websites st) ->
                  In w (Invariants.websites
                          (AppStream.onDiscovery env location businessType d st)))
    /\ (website d = EmptyString
        \/ In (website d)
             (Invariants.websites
                (AppStream.onDiscovery env location businessType d st)))).
  { destruct (stream_onDiscovery_websites env location businessType d st Hrun)
      as [(Hne & Hnew & n & ->) | (Hskip & ->)].
    - unfold Invariants.websites in *. cbn [fst snd businesses].
      rewrite map_app. cbn [map AppStream.newBusiness discoveryWebsite].
      split; [|split].
      + intros w [Hw%elem_of_singleton | Hw]%elem_of_union; apply in_or_app.
        * right. left. congruence.
        * left. now apply Hrun.
      + intros w Hw. apply in_or_app. now left.
      + right. apply in_or_app. right. now left.
    - split; [exact Hrun|]. split; [auto|exact Hskip]. }
  destruct Hstep as (Hrun' & Hmono & Hd).
  destruct (IH _ Hrun') as [Hkeep Hcover]. split.
  - intros w Hw. apply Hkeep, Hmono, Hw.
  - intros d' [<-|Hd']; [|now apply Hcover].
    destruct Hd as [Hd|Hd]; [now left|]. right. now apply Hkeep.
Qed.

(** X4. A streaming search, end to end, on every platform and from every
    state: [handleSearch] returns normally with loading cleared; the error
    banner is set exactly when the stream did not end normally; the store
    is the previous store followed by the candidates added, each of them
    created pending (research in progress, enriched fields empty, status
    Discovered, area and type of the search) from a discovery the parser
    let through.  The same holds in both streaming components. *)
Theorem streaming_search_appends_pending (env : Platform.t)
    (location businessType numResults : string) (s : AppState) :
  exists s' added,
    AppStream.handleSearch env location businessType numResults s = (Ok tt, s')
    /\ businesses (snd (AppGeo.handleSearch env location businessType numResults s))
       = businesses s'
    /\ isLoading s' = false
    /\ (error s' = None
        <-> fst (GeminiService.findBusinessesStream env location businessType
                   numResults Samples.record []) = Ok tt)
    /\ businesses s' = businesses s ++ added
    /\ Forall (Facts.fresh location businessType) added
    /\ Forall (fun b => Reported.valid (Facts.discoveryOf b)) added.
Proof.
  destruct (stream_handleSearch_effect env location businessType numResults s)
    as (s' & Hrun & Hb & Hl & He).
  destruct (geo_handleSearch_effect env location businessType numResults s)
    as (s2 & Hrun2 & Hb2 & _).
  destruct (stream_admitAll_appends env location businessType
              (Reported.ofAnswer
                 (Platform.generateContentStream env
                    (GeminiService.discoveryPrompt location businessType
                       numResults)))
              (∅, searching s)) as (added & Hadd & Hfresh & Hfrom).
  exists s', added. split; [exact Hrun|].
  split; [rewrite Hrun2; cbn [snd]; congruence|].
  split; [exact Hl|]. split.
  - rewrite He, findBusinessesStream_effect. cbn [fst].
    destruct (Reported.outcome _) as [[]|e]; split; intros; congruence.
  - split; [rewrite Hb; exact Hadd|]. split; [exact Hfresh|].
    pose proof (ofAnswer_valid
                  (Platform.generateContentStream env
                     (GeminiService.discoveryPrompt location businessType
                        numResults))) as Hvalid.
    rewrite Forall_forall in Hvalid. rewrite Forall_forall in Hfrom.
    apply Forall_forall.
    intros b Hb'. apply Hvalid, list_elem_of_In, Hfrom, Hb'.
Qed.

(** X5. Cross-run dedupe: repeating a streaming search that gets the same
    answer adds nothing; the store after the second search is the store
    after the first one, in both streaming components. *)
Theorem streaming_search_repeat_adds_nothing (env : Platform.t)
    (location businessType numResults : string) (s : AppState) :
  businesses
    (snd (AppStream.handleSearch env location businessType numResults
            (snd (AppStream.handleSearch env location businessType numResults s))))
  = businesses (snd (AppStream.handleSearch env location businessType numResults s))
  /\ businesses
       (snd (AppGeo.handleSearch env location businessType numResults
               (snd (AppGeo.handleSearch env location businessType numResults s))))
     = businesses (snd (AppGeo.handleSearch env location businessType numResults s)).
Proof.
  assert (Hrepeat : forall s1,
    businesses s1
    = businesses (snd (AppStream.admitAll env location businessType
                         (Reported.ofAnswer
                            (Platform.generateContentStream env
                               (GeminiService.discoveryPrompt location
                                  businessType numResults)))
                         (∅, searching s))) ->
    businesses (snd (AppStream.admitAll env location businessType
                       (Reported.ofAnswer
                          (Platform.generateContentStream env
                             (GeminiService.discoveryPrompt location
                                businessType numResults)))
                       (∅, searching s1)))
    = businesses s1).
  { intros s1 Hs1.
    rewrite stream_admitAll_known; [reflexivity|].
    intros d Hd.
    destruct (stream_admitAll_covers env location businessType
                (Reported.ofAnswer
                   (Platform.generateContentStream env
                      (GeminiService.discoveryPrompt location businessType
                         numResults)))
                (∅, searching s)) as [_ Hcover]; [set_solver|].
    destruct (Hcover d Hd) as [Hempty|Hin]; [now left|]. right.
    unfold Invariants.websites in *. cbn [snd] in *.
    change (businesses (searching s1)) with (businesses s1).
    now rewrite Hs1. }
  split.
  - destruct (stream_handleSearch_effect env location businessType numResults s)
      as (s1 & Hrun1 & Hb1 & _).
    rewrite Hrun1. cbn [snd].
    destruct (stream_handleSearch_effect env location businessType numResults s1)
      as (s2 & Hrun2 & Hb2 & _).
    rewrite Hrun2. cbn [snd]. rewrite Hb2. now apply Hrepeat.
  - destruct (geo_handleSearch_effect env location businessType numResults s)
      as (s1 & Hrun1 & Hb1 & _).
    rewrite Hrun1. cbn [snd].
    destruct (geo_handleSearch_effect env location businessType numResults s1)
      as (s2 & Hrun2 & Hb2 & _).
    rewrite Hrun2. cbn [snd]. rewrite Hb2. now apply Hrepeat.
Qed.

(** ** A batch search, end to end *)

Lemma businessesOfPlaces_run (env : Platform.t) (location businessType : string)
    (places : list PlacesTypes.PlaceSearchResult) (s : AppState) :
  exists candidates s1,
    AppPlaces.businessesOfPlaces env location businessType places s
    = (Ok candidates, s1)
    /\ Forall2 (fun p c => exists date,
                   c = AppPlaces.businessOfPlace location businessType p date)
         places candidates
    /\ businesses s1 = businesses s /\ isLoading s1 = isLoading s
    /\ error s1 = error s.
Proof.
  revert s. induction places as [|p places IH]; intros s.
  - exists [], s. repeat split. constructor.
  - cbn [AppPlaces.businessesOfPlaces]. run_monad.
    destruct (IH (tick 1 s)) as (cs & s1 & -> & Hall & Hb & Hl & He).
    eexists _, s1. split; [reflexivity|].
    split; [constructor; eauto|]. auto.
Qed.

Lemma candidates_ids (location businessType : string)
    (places : list PlacesTypes.PlaceSearchResult) (candidates : list Business) :
  Forall2 (fun p c => exists date,
              c = AppPlaces.businessOfPlace location businessType p date)
    places candidates ->
  map id candidates = map PlacesTypes.id places.
Proof.
  induction 1 as [|p c ps cs [date ->] _ IH]; [reflexivity|].
  cbn. now rewrite IH.
Qed.

Lemma places_handleSearch_ok (env : Platform.t)
    (location businessType numResults : string)
    (searchArea : PlacesTypes.SearchArea) (s : AppState)
    (places : list PlacesTypes.PlaceSearchResult) :
  PlacesService.searchPlacesInArea env businessType searchArea
    (if String.eqb numResults "ALL" then PlacesService.twenty
     else Platform.parseInt10 env numResults) = Ok places ->
  exists s' candidates,
    AppPlaces.handleSearch env location businessType numResults searchArea s
    = (Ok tt, s')
    /\ Forall2 (fun p c => exists date,
                   c = AppPlaces.businessOfPlace location businessType p date)
         places candidates
    /\ businesses s' = AppPlaces.appendUnique candidates (businesses s)
    /\ isLoading s' = false /\ error s' = None
    /\ researchMessage s'
       = "Found " +:+ Js.of_N (N.of_nat (length places))
         +:+ " businesses. Select businesses to research or use "
         +:+ Js.chr Js.dquote +:+ "Research All" +:+ Js.chr Js.dquote
         +:+ " to enrich all results.".
Proof.
  intros Hsearch. unfold AppPlaces.handleSearch. run_monad. rewrite Hsearch.
  cbn -[AppPlaces.businessesOfPlaces].
  change {| businesses := businesses s; isLoading := true;
            researchMessage := "Discovering businesses...";
            error := None; clock := clock s |} with (searching s).
  destruct (businessesOfPlaces_run env location businessType places (searching s))
    as (cs & s1 & -> & Hall & Hb & Hl & He).
  cbn. eexists _, cs. split; [reflexivity|]. cbn.
  rewrite Hb, He. auto 10.
Qed.

Lemma appendUnique_known (newBusinesses prev : list Business) :
  (forall c, In c newBusinesses -> In (id c) (map id prev)) ->
  AppPlaces.appendUnique newBusinesses prev = prev.
Proof.
  intros Hknown. unfold AppPlaces.appendUnique.
  assert (E : List.filter
                (fun b => negb (bool_decide
                                  (id b ∈ (list_to_set (map id prev) : gset string))))
                newBusinesses = []).
  { induction newBusinesses as [|c cs IH]; [reflexivity|]. cbn [List.filter].
    assert (Hc : bool_decide (id c ∈ (list_to_set (map id prev) : gset string))
                 = true).
    { apply bool_decide_eq_true, elem_of_list_to_set, list_elem_of_In.
      apply Hknown. now left. }
    rewrite Hc. cbn [negb]. apply IH. intros c' Hc'. apply Hknown. now right. }
  rewrite E. apply app_nil_r.
Qed.

(** X6. A batch search that succeeds, end to end: [handleSearch] returns
    normally with loading and the error banner cleared; every place of the
    response is turned into a candidate with the place's id, name and
    coordinates, not researching; the candidates whose id the store does
    not have yet are appended behind the existing ones; and the message
    counts the places of the response, not the candidates added. *)
Theorem batch_search_appends_places (env : Platform.t)
    (location businessType numResults : string)
    (searchArea : PlacesTypes.SearchArea) (s : AppState)
    (places : list PlacesTypes.PlaceSearchResult) :
  PlacesService.searchPlacesInArea env businessType searchArea
    (if String.eqb numResults "ALL" then PlacesService.twenty
     else Platform.parseInt10 env numResults) = Ok places ->
  exists s' candidates,
    AppPlaces.handleSearch env location businessType numResults searchArea s
    = (Ok tt, s')
    /\ isLoading s' = false /\ error s' = None
    /\ businesses s' = AppPlaces.appendUnique candidates (businesses s)
    /\ Forall2 (fun p c =>
                  id c = PlacesTypes.id p
                  /\ discoveryName c = PlacesTypes.displayName p
                  /\ lat c = Some (PlacesTypes.latitude (PlacesTypes.location p))
                  /\ lng c = Some (PlacesTypes.longitude (PlacesTypes.location p))
                  /\ isResearching c = false /\ status c = DISCOVERED
                  /\ areaSearched c = location)
         places candidates
    /\ researchMessage s'
       = "Found " +:+ Js.of_N (N.of_nat (length places))
         +:+ " businesses. Select businesses to research or use "
         +:+ Js.chr Js.dquote +:+ "Research All" +:+ Js.chr Js.dquote
         +:+ " to enrich all results.".
Proof.
  intros Hsearch.
  destruct (places_handleSearch_ok env location businessType numResults
              searchArea s places Hsearch)
    as (s' & cs & Hrun & Hall & Hb & Hl & He & Hm).
  exists s', cs. repeat (split; [assumption|]). split; [|exact Hm].
  eapply Forall2_impl; [exact Hall|]. intros p c [date ->]. repeat split.
Qed.

(** X6, witness: a search around [downtown] on the online platform. *)
Lemma batch_search_appends_places_witness :
  exists s',
    AppPlaces.handleSearch PlacesSamples.online "Austin, TX" "Coffee Shop" "10"
      PlacesSamples.circle_area (Samples.store_of [])
    = (Ok tt, s')
    /\ error s' = None.
Proof.
  destruct (batch_search_appends_places PlacesSamples.online "Austin, TX"
              "Coffee Shop" "10" PlacesSamples.circle_area (Samples.store_of [])
              _ eq_refl)
    as (s' & cs & Hrun & _ & He & _).
  exists s'. split; assumption.
Defined.

(** X7. Idempotent re-discovery: repeating a batch search that gets the
    same answer leaves the store as the first search left it, whether the
    search succeeds or fails. *)
Theorem batch_search_repeat_adds_nothing (env : Platform.t)
    (location businessType numResults : string)
    (searchArea : PlacesTypes.SearchArea) (s : AppState) :
  businesses
    (snd (AppPlaces.handleSearch env location businessType numResults searchArea
            (snd (AppPlaces.handleSearch env location businessType numResults
                    searchArea s))))
  = businesses
      (snd (AppPlaces.handleSearch env location businessType numResults
              searchArea s)).
Proof.
  destruct (PlacesService.searchPlacesInArea env businessType searchArea
              (if String.eqb numResults "ALL" then PlacesService.twenty
               else Platform.parseInt10 env numResults)) as [places|e] eqn:Hsearch.
  - destruct (places_handleSearch_ok env location businessType numResults
                searchArea s places Hsearch)
      as (s1 & cs1 & Hrun1 & Hall1 & Hb1 & _).
    rewrite Hrun1. cbn [snd].
    destruct (places_handleSearch_ok env location businessType numResults
                searchArea s1 places Hsearch)
      as (s2 & cs2 & Hrun2 & Hall2 & Hb2 & _).
    rewrite Hrun2. cbn [snd]. rewrite Hb2.
    apply appendUnique_known. intros c Hc.
    rewrite Hb1. apply (proj1 (appendUnique_ids cs1 (businesses s))). right.
    rewrite (candidates_ids _ _ _ _ Hall1), <- (candidates_ids _ _ _ _ Hall2).
    now apply in_map.
  - destruct (places_handleSearch_run env location businessType numResults
                searchArea s)
      as [(e1 & _ & s1 & Hrun1 & Hb1 & _)|(ps & Hok & _)]; [|congruence].
    rewrite Hrun1. cbn [snd].
    destruct (places_handleSearch_run env location businessType numResults
                searchArea s1)
      as [(e2 & _ & s2 & Hrun2 & Hb2 & _)|(ps & Hok & _)]; [|congruence].
    rewrite Hrun2. cbn [snd]. exact Hb2.
Qed.

(** ** Research All *)

Lemma researchAll_run (env : Platform.t) (captured : list Business) (s : AppState) :
  AppPlaces.researchAll env captured s
  = (Ok tt, fold_left (ResearchAll.turn env) (ResearchAll.toResearch captured) s).
Proof.
  unfold AppPlaces.researchAll. fold (ResearchAll.toResearch captured).
  generalize (ResearchAll.toResearch captured). intros l.
  assert (H : forall (acc : M AppState unit) (f0 : AppState -> AppState),
             (forall s0, acc s0 = (Ok tt, f0 s0)) ->
             forall s0,
               fold_left
                 (fun acc b =>
                    acc;;
                    setBusinesses (AppPlaces.markResearching (id b));;
                    AppPlaces.processResearchAndGeocoding env
                      (set_isResearching true b)) l acc s0
               = (Ok tt, fold_left (ResearchAll.turn env) l (f0 s0))).
  { induction l as [|b l IH]; intros acc f0 Hacc s0; [apply Hacc|].
    cbn [fold_left].
    apply (IH _ (fun s1 => ResearchAll.turn env (f0 s1) b)).
    intros s1. run_monad. rewrite Hacc.
    cbn -[AppPlaces.processResearchAndGeocoding].
    unfold ResearchAll.turn. now rewrite places_process_run. }
  apply (H _ (fun s0 => s0)). reflexivity.
Qed.

Lemma researchAll_turn_store (env : Platform.t) (s : AppState) (b : Business) :
  exists f,
    businesses (ResearchAll.turn env s b)
    = mapById (id b) (fun x => set_isResearching false (f x))
        (AppPlaces.markResearching (id b) (businesses s))
    /\ forall x, id (f x) = id x.
Proof.
  unfold ResearchAll.turn. rewrite places_process_run.
  cbn [snd over_businesses businesses set_isResearching id discoveryName
         discoveryWebsite].
  destruct (PlacesService.getPlaceDetails env (id b)) as [details|e];
    [destruct (GeminiService.researchBusiness env _ _) as [r|e]|];
    eexists; (split; [reflexivity|]); reflexivity.
Qed.

Lemma researchAll_turn_frame (env : Platform.t) (s : AppState) (b : Business) :
  Props.only_id_changed (id b) (businesses s)
    (businesses (ResearchAll.turn env s b)).
Proof.
  destruct (researchAll_turn_store env s b) as (f & -> & Hf).
  eapply only_id_changed_trans;
    [apply places_markResearching_frame | apply update_by_id_frame].
  intros x. apply Hf.
Qed.

Lemma researchAll_turn_settles (env : Platform.t) (s : AppState) (b x : Business) :
  In x (businesses (ResearchAll.turn env s b)) -> id x = id b ->
  isResearching x = false.
Proof.
  destruct (researchAll_turn_store env s b) as (f & -> & Hf). intros Hin Hid.
  destruct (update_by_id_target (id b)
              (fun z => set_isResearching false (f z)) _ x Hin Hid)
    as (y & _ & _ & ->).
  reflexivity.
Qed.

Lemma researchAll_turns_frame (env : Platform.t) (l : list Business) (s : AppState) :
  map id (businesses (fold_left (ResearchAll.turn env) l s))
  = map id (businesses s)
  /\ forall i x, businesses s !! i = Some x -> ~ In (id x) (map id l) ->
                 businesses (fold_left (ResearchAll.turn env) l s) !! i = Some x.
Proof.
  revert s. induction l as [|b l IH]; intros s; [split; auto|].
  cbn [fold_left]. destruct (IH (ResearchAll.turn env s b)) as [Hids Hkeep].
  destruct (researchAll_turn_frame env s b) as (_ & Hids1 & Hkeep1).
  split; [congruence|]. intros i x Hi Hnot. apply Hkeep.
  - apply Hkeep1; [exact Hi|]. intros E. apply Hnot. left. now rewrite E.
  - intros Hin. apply Hnot. now right.
Qed.

Lemma lookup_same_ids (l1 l2 : list Business) (i : nat) (x : Business) :
  map id l1 = map id l2 -> l1 !! i = Some x ->
  exists y, l2 !! i = Some y /\ id y = id x.
Proof.
  intros Hids Hi.
  assert (H : map id l1 !! i = Some (id x)).
  { change (map id l1) with (id <$> l1). now rewrite list_lookup_fmap, Hi. }
  rewrite Hids in H. change (map id l2) with (id <$> l2) in H.
  rewrite list_lookup_fmap in H.
  destruct (l2 !! i) as [y|]; [|discriminate]. injection H as H. eauto.
Qed.

Lemma researchAll_turns_settle (env : Platform.t) (l : list Business)
    (s : AppState) (x : Business) :
  In x (businesses (fold_left (ResearchAll.turn env) l s)) ->
  In (id x) (map id l) -> isResearching x = false.
Proof.
  revert s. induction l as [|b l IH]; intros s Hin Hid; [destruct Hid|].
  cbn [fold_left] in Hin.
  destruct (in_dec String.string_dec (id x) (map id l)) as [Hl|Hl];
    [now apply (IH (ResearchAll.turn env s b))|].
  destruct Hid as [Hid|Hid]; [|contradiction].
  destruct (researchAll_turns_frame env l (ResearchAll.turn env s b))
    as [Hids Hkeep].
  apply list_elem_of_In, list_elem_of_lookup in Hin as [i Hi].
  destruct (lookup_same_ids _ _ i x Hids Hi) as (y & Hy & Hyx).
  assert (E : businesses (fold_left (ResearchAll.turn env) l
                            (ResearchAll.turn env s b)) !! i = Some y).
  { apply Hkeep; [exact Hy | now rewrite Hyx]. }
  rewrite Hi in E. injection E as <-.
  apply (researchAll_turn_settles env s b x).
  - apply list_elem_of_In, list_elem_of_lookup. eauto.
  - now symmetry.
Qed.

(** X8. Research All, on every platform: the handler returns normally;
    it keeps the number and the order of the candidates; a candidate
    whose id is not that of a picked candidate (one that was not
    researching and had status Discovered in the captured list) is left
    exactly as it was; and no picked candidate is left researching,
    whether its research succeeded or failed. *)
Theorem research_all_settles_picked (env : Platform.t) (captured : list Business)
    (s : AppState) :
  let picked :=
    List.filter (fun b => negb (isResearching b) && AppPlaces.status_is_discovered b)
      captured in
  let after := businesses (snd (AppPlaces.researchAll env captured s)) in
  fst (AppPlaces.researchAll env captured s) = Ok tt
  /\ map id after = map id (businesses s)
  /\ (forall i x, businesses s !! i = Some x -> ~ In (id x) (map id picked) ->
                  after !! i = Some x)
  /\ (forall x, In x after -> In (id x) (map id picked) ->
                isResearching x = false).
Proof.
  cbv zeta. rewrite researchAll_run. cbn [fst snd].
  fold (ResearchAll.toResearch captured).
  destruct (researchAll_turns_frame env (ResearchAll.toResearch captured) s)
    as [Hids Hkeep].
  split; [reflexivity|]. split; [exact Hids|]. split; [exact Hkeep|].
  intros x. apply researchAll_turns_settle.
Qed.

(** ** Retry and the date of a candidate *)

Lemma mapById_keeps {A : Type} (g : Business -> A) (target : string)
    (f : Business -> Business) (prev : list Business) :
  (forall b, g (f b) = g b) -> map g (mapById target f prev) = map g prev.
Proof.
  intros Hg. unfold mapById. rewrite map_map. apply map_ext. intros b.
  destruct (String.eqb (id b) target); [apply Hg | reflexivity].
Qed.

Lemma geo_process_keeps {A : Type} (g : Business -> A) (env : Platform.t)
    (business : Business) (s : AppState) :
  (forall b r, g (spread_research b r) = g b) ->
  (forall b c, g (spread_coords b c) = g b) ->
  (forall b v, g (set_isResearching v b) = g b) ->
  (forall b v, g (set_description v b) = g b) ->
  map g (businesses (snd (AppGeo.processResearchAndGeocoding env business s)))
  = map g (businesses s).
Proof.
  intros Hr Hc Hi Hd. rewrite geo_process_run. cbn [snd over_businesses businesses].
  destruct (GeminiService.researchBusiness env _ _); apply mapById_keeps; intros b.
  - now rewrite Hi, Hc, Hr.
  - now rewrite Hi, Hd.
Qed.

Lemma places_process_keeps {A : Type} (g : Business -> A) (env : Platform.t)
    (business : Business) (s : AppState) :
  (forall b r, g (spread_research b r) = g b) ->
  (forall b w p a r n, g (set_place_fields w p a r n b) = g b) ->
  (forall b v, g (set_isResearching v b) = g b) ->
  (forall b v, g (set_description v b) = g b) ->
  map g (businesses (snd (AppPlaces.processResearchAndGeocoding env business s)))
  = map g (businesses s).
Proof.
  intros Hr Hp Hi Hd. rewrite places_process_run.
  cbn [snd over_businesses businesses].
  destruct (PlacesService.getPlaceDetails env _);
    [destruct (GeminiService.researchBusiness env _ _)|];
    apply mapById_keeps; intros b; rewrite Hi, ?Hp, ?Hr, ?Hd; reflexivity.
Qed.

(** X9. In the geocoding component and in the map-search component a
    retry never changes the date of any candidate, whether the research
    succeeds or fails: the day read for the retry is put on a temporary
    object that is not written back to the store. *)
Theorem retry_keeps_dates (env : Platform.t) (captured : list Business)
    (businessId : string) (s : AppState) :
  map dateFound
    (businesses (snd (AppGeo.handleRetryResearch env captured businessId s)))
  = map dateFound (businesses s)
  /\ map dateFound
       (businesses (snd (AppPlaces.handleRetryResearch env captured businessId s)))
     = map dateFound (businesses s).
Proof.
  split.
  - rewrite geo_retry_run. destruct (find _ captured) as [b|]; [|reflexivity].
    rewrite (geo_process_keeps dateFound); try reflexivity.
    + cbn [tick over_businesses businesses].
      now apply mapById_keeps.
    + intros x []; reflexivity.
  - rewrite places_retry_run. destruct (find _ captured) as [b|]; [|reflexivity].
    rewrite (places_process_keeps dateFound); try reflexivity.
    cbn [tick over_businesses businesses].
    now apply mapById_keeps.
Qed.

(** X10. In the streaming-only component a retry whose research succeeds
    stamps every candidate with the retried id with the day read from the
    clock, gives it the six fields of the new research record, clears
    [isResearching] and keeps its discovery name and website; candidates
    with another id are left as they were. *)
Theorem stream_retry_success_stamps (env : Platform.t) (captured : list Business)
    (businessId : string) (toRetry : Business) (r : ResearchedBusinessData)
    (s : AppState) (i : nat) (x : Business) :
  find (fun b => String.eqb (id b) businessId) captured = Some toRetry ->
  GeminiService.researchBusiness env
    (discoveryName toRetry) (discoveryWebsite toRetry) = Ok r ->
  businesses s !! i = Some x ->
  exists x',
    businesses (snd (AppStream.handleRetryResearch env captured businessId s)) !! i
    = Some x'
    /\ (id x <> businessId -> x' = x)
    /\ (id x = businessId ->
        dateFound x' = Platform.toISODate env (Platform.Date_now env (clock s))
        /\ (forall f, Props.field_value f x' = Props.research_value f r)
        /\ isResearching x' = false
        /\ id x' = id x /\ discoveryName x' = discoveryName x
        /\ discoveryWebsite x' = discoveryWebsite x /\ status x' = status x).
Proof.
  intros Hfind Hok Hi. rewrite stream_retry_run, Hfind, Hok. cbv zeta.
  cbn [snd over_businesses businesses tick clock].
  destruct (String.eqb_spec (id x) businessId) as [E|E].
  - exists (set_dateFound
              (Platform.toISODate env (Platform.Date_now env (clock s)))
              (set_isResearching false
                 (spread_research (set_isResearching true x) r))).
    split.
    + apply (update_by_id_hit businessId
               (fun b => set_dateFound
                           (Platform.toISODate env (Platform.Date_now env (clock s)))
                           (set_isResearching false (spread_research b r))));
        [|exact E].
      apply (update_by_id_hit businessId (set_isResearching true)); assumption.
    + split; [contradiction|]. intros _.
      split; [reflexivity|]. split; [intros []; reflexivity|]. repeat split.
  - exists x. split.
    + apply (update_by_id_other businessId
               (fun b => set_dateFound
                           (Platform.toISODate env (Platform.Date_now env (clock s)))
                           (set_isResearching false (spread_research b r))));
        [|exact E].
      apply (update_by_id_other businessId (set_isResearching true)); assumption.
    + split; [reflexivity | contradiction].
Qed.

(** X10, witness: the retry of [acme] on a platform whose research
    service answers. *)
Lemma stream_retry_success_stamps_witness :
  exists x',
    businesses (snd (AppStream.handleRetryResearch Samples.no_maps_key
                       [Samples.acme; Samples.beta] (id Samples.acme)
                       (Samples.store_of [Samples.acme; Samples.beta]))) !! 0
    = Some x'
    /\ dateFound x' = "2025-01-15"
    /\ description x' = "A coffee roaster in Austin.".
Proof.
  destruct (stream_retry_success_stamps Samples.no_maps_key
              [Samples.acme; Samples.beta] (id Samples.acme) Samples.acme
              Samples.sparse_research
              (Samples.store_of [Samples.acme; Samples.beta]) 0 Samples.acme
              eq_refl eq_refl eq_refl)
    as (x' & Hat & _ & Hhit).
  destruct (Hhit eq_refl) as (Hdate & Hfields & _).
  exists x'. split; [exact Hat|]. split; [exact Hdate|].
  apply (Hfields Props.FDescription).
Defined.

(** ** Coordinates *)


(** ** CSV rows *)

Lemma parseQuoted_escaped_quote (r : string) :
  Csv.parseQuoted (String Js.dquote (String Js.dquote r))
  = option_map (Csv.push Js.dquote) (Csv.parseQuoted r).
Proof. reflexivity. Qed.

Lemma parseQuoted_next_cell (r : string) :
  Csv.parseQuoted (String Js.dquote (String "," (String Js.dquote r)))
  = option_map (cons EmptyString) (Csv.parseQuoted r).
Proof. reflexivity. Qed.

Lemma parseQuoted_plain (c : ascii) (r : string) :
  Ascii.eqb c Js.dquote = false ->
  Csv.parseQuoted (String c r) = option_map (Csv.push c) (Csv.parseQuoted r).
Proof. intros E. cbn [Csv.parseQuoted]. now rewrite E. Qed.

Lemma parseQuoted_cell (cell : string) :
  Csv.parseQuoted (Js.replaceAll Js.dquote Js.two_quotes cell +:+ Js.chr Js.dquote)
  = Some [cell]
  /\ forall rest fields,
       Csv.parseQuoted rest = Some fields ->
       Csv.parseQuoted
         (Js.replaceAll Js.dquote Js.two_quotes cell
          +:+ String Js.dquote (String "," (String Js.dquote rest)))
       = Some (cell :: fields).
Proof.
  induction cell as [|c cell [IH1 IH2]].
  - split; [reflexivity|]. intros rest fields H.
    cbn [Js.replaceAll]. rewrite append_nil_l, parseQuoted_next_cell.
    now rewrite H.
  - cbn [Js.replaceAll]. destruct (Ascii.eqb c Js.dquote) eqn:E.
    + apply Ascii.eqb_eq in E. subst c.
      change (Js.two_quotes +:+ ?x) with (String Js.dquote (String Js.dquote x)).
      split.
      * rewrite !append_cons, parseQuoted_escaped_quote. now rewrite IH1.
      * intros rest fields H.
        rewrite !append_cons, parseQuoted_escaped_quote.
        now rewrite (IH2 rest fields H).
    + split.
      * rewrite append_cons, (parseQuoted_plain c _ E). now rewrite IH1.
      * intros rest fields H.
        rewrite append_cons, (parseQuoted_plain c _ E).
        now rewrite (IH2 rest fields H).
Qed.

Lemma parseRow_joined (cell : string) (cells : list string) :
  exists body,
    Js.join "," (map AppStream.escapeCsvCell (cell :: cells)) = String Js.dquote body
    /\ Csv.parseQuoted body = Some (cell :: cells).
Proof.
  revert cell. induction cells as [|c2 cells IH]; intros cell.
  - exists (Js.replaceAll Js.dquote Js.two_quotes cell +:+ Js.chr Js.dquote).
    split; [reflexivity|]. apply parseQuoted_cell.
  - destruct (IH c2) as (body & Hjoin & Hparse).
    exists (Js.replaceAll Js.dquote Js.two_quotes cell
            +:+ String Js.dquote (String "," (String Js.dquote body))).
    split; [|now apply parseQuoted_cell].
    change (Js.join "," (map AppStream.escapeCsvCell (cell :: c2 :: cells)))
      with (AppStream.escapeCsvCell cell
            +:+ "," +:+ Js.join "," (map AppStream.escapeCsvCell (c2 :: cells))).
    rewrite Hjoin. unfold AppStream.escapeCsvCell, Js.chr.
    now rewrite !append_assoc, !append_cons, !append_nil_l.
Qed.

(** X12. A row of the CSV export reads back: for every non-empty list of
    cells, escaping each cell and joining them with commas gives a text
    that the standard CSV rules split into exactly those cells, even when
    they contain commas, quotes or line breaks; so the row of every
    candidate reads back as its twelve fields. *)
Theorem csv_row_reads_back :
  (forall cell cells,
      Csv.parseRow (Js.join "," (map AppStream.escapeCsvCell (cell :: cells)))
      = Some (cell :: cells))
  /\ (forall b,
         Csv.parseRow (Js.join "," (map AppGeo.escapeCsvCell (AppGeo.row b)))
         = Some (AppGeo.row b)
         /\ Csv.parseRow (Js.join "," (map AppPlaces.escapeCsvCell (AppPlaces.row b)))
            = Some (AppPlaces.row b)
         /\ Csv.parseRow (Js.join "," (map AppStream.escapeCsvCell (AppStream.row b)))
            = Some (AppStream.row b)).
Proof.
  assert (H : forall cell cells,
             Csv.parseRow
               (Js.join "," (map AppStream.escapeCsvCell (cell :: cells)))
             = Some (cell :: cells)).
  { intros cell cells. destruct (parseRow_joined cell cells) as (body & -> & H).
    cbn [Csv.parseRow]. now rewrite Ascii.eqb_refl. }
  split; [exact H|]. intros b. split; [|split].
  - rewrite (map_ext _ _ escapeCsvCell_guard_irrelevant). apply H.
  - rewrite (map_ext _ _ escapeCsvCell_places_same). apply H.
  - apply H.
Qed.

(** ** Business types of the Places search *)

Lemma lower_char_idem (c : ascii) : Js.lower_char (Js.lower_char c) = Js.lower_char c.
Proof. destruct c as [[] [] [] [] [] [] [] []]; reflexivity. Qed.

Lemma lower_char_white_space (c : ascii) :
  Js.is_white_space (Js.lower_char c) = Js.is_white_space c.
Proof. destruct c as [[] [] [] [] [] [] [] []]; reflexivity. Qed.

Lemma toLowerCase_idem (s : string) :
  Js.toLowerCase (Js.toLowerCase s) = Js.toLowerCase s.
Proof.
  induction s as [|c s IH]; [reflexivity|]. cbn [Js.toLowerCase].
  now rewrite lower_char_idem, IH.
Qed.

Lemma toLowerCase_trimStart (s : string) :
  Js.toLowerCase (Js.trimStart s) = Js.trimStart (Js.toLowerCase s).
Proof.
  induction s as [|c s IH]; [reflexivity|].
  cbn [Js.toLowerCase Js.trimStart]. rewrite lower_char_white_space.
  destruct (Js.is_white_space c); [exact IH | reflexivity].
Qed.

Lemma toLowerCase_trimEnd (s : string) :
  Js.toLowerCase (Js.trimEnd s) = Js.trimEnd (Js.toLowerCase s).
Proof.
  induction s as [|c s IH]; [reflexivity|].
  cbn [Js.toLowerCase Js.trimEnd]. rewrite <- IH, lower_char_white_space.
  destruct (Js.trimEnd s) as [|c' r']; cbn [Js.toLowerCase].
  - now destruct (Js.is_white_space c).
  - reflexivity.
Qed.

Lemma toLowerCase_trim (s : string) :
  Js.toLowerCase (Js.trim s) = Js.trim (Js.toLowerCase s).
Proof. unfold Js.trim. now rewrite toLowerCase_trimEnd, toLowerCase_trimStart. Qed.

Lemma lookup_type_In (key : string) (table : list (string * list string))
    (v : list string) :
  PlacesService.lookup_type key table = Some v -> In (key, v) table.
Proof.
  induction table as [|[k w] table IH]; cbn; [discriminate|].
  destruct (String.eqb_spec k key) as [->|_].
  - intros [= ->]. now left.
  - intros H. right. now apply IH.
Qed.

Lemma lookup_inherited_In (key : string)
    (table : list (string * PlacesTypes.PlaceTypes)) (v : PlacesTypes.PlaceTypes) :
  PlacesService.lookup_inherited key table = Some v -> In (key, v) table.
Proof.
  induction table as [|[k w] table IH]; cbn; [discriminate|].
  destruct (String.eqb_spec k key) as [->|_].
  - intros [= ->]. now left.
  - intros H. right. now apply IH.
Qed.

(** The normalized type is in lower case: a key with a capital letter is
    never read. *)
Lemma normalized_lower (businessType : string) :
  Js.toLowerCase (Js.trim (Js.toLowerCase businessType))
  = Js.trim (Js.toLowerCase businessType).
Proof. now rewrite toLowerCase_trim, toLowerCase_idem. Qed.

(** X13. The business type of a Places search is looked up ignoring
    letter case and surrounding white space: lower-casing or trimming the
    type changes nothing.  The result is the empty array (nothing found),
    or the entry of the table for the normalized type, or, when the
    normalized type is [constructor] or [__proto__], what the table
    inherits under that name, which is not an array; no other inherited
    name can be read, since each has a capital letter. *)
Theorem place_types_ignore_case_and_space (businessType : string) :
  PlacesService.getPlaceTypes (Js.toLowerCase businessType)
  = PlacesService.getPlaceTypes businessType
  /\ PlacesService.getPlaceTypes (Js.trim businessType)
     = PlacesService.getPlaceTypes businessType
  /\ (PlacesService.getPlaceTypes businessType = PlacesTypes.TypesArray []
      \/ (exists types,
             PlacesService.getPlaceTypes businessType = PlacesTypes.TypesArray types
             /\ In (Js.trim (Js.toLowerCase businessType), types)
                  PlacesService.PLACE_TYPES)
      \/ (Js.trim (Js.toLowerCase businessType) = "constructor"
          /\ PlacesService.getPlaceTypes businessType
             = PlacesTypes.InheritedFunction 1)
      \/ (Js.trim (Js.toLowerCase businessType) = "__proto__"
          /\ PlacesService.getPlaceTypes businessType
             = PlacesTypes.InheritedPrototype)).
Proof.
  unfold PlacesService.getPlaceTypes. split; [|split].
  - now rewrite toLowerCase_idem.
  - now rewrite toLowerCase_trim, trim_idem.
  - pose proof (normalized_lower businessType) as Hlower.
    unfold PlacesService.PLACE_TYPES_get.
    destruct (PlacesService.lookup_type _ PlacesService.PLACE_TYPES) as [v|] eqn:E.
    { right. left. exists v. split; [reflexivity|]. now apply lookup_type_In. }
    destruct (PlacesService.lookup_inherited _ PlacesService.Object_prototype)
      as [v|] eqn:E'; [|now left].
    apply lookup_inherited_In in E'. cbn [PlacesService.Object_prototype In] in E'.
    repeat (destruct E' as [E'|E']);
      try contradiction;
      injection E' as Hkey Hv; subst v;
      try (rewrite <- Hkey in Hlower; vm_compute in Hlower; discriminate Hlower).
    + right. right. left. now split.
    + right. right. right. now split.
Qed.

(** ** Areas and unsupported business types *)

(** X14. A business type for which the lookup finds nothing: in a circle
    area, as [createSearchAreaFromCenter] builds it, the search is
    refused with the not-supported error on every platform, before the
    key is looked at and without any request, and [handleSearch] shows
    the error banner and leaves the store as it was; in a rectangle area,
    as [createSearchAreaFromBounds] builds it, the text search is sent
    with the typed text and without any type filter. *)
Theorem unmapped_type_circle_refused (env : Platform.t)
    (location businessType numResults : string)
    (center : PlacesTypes.Location) (radiusMeters maxResults : float)
    (bounds : PlacesAreas.LatLngBounds) (s : AppState) :
  PlacesService.getPlaceTypes businessType = PlacesTypes.TypesArray [] ->
  PlacesService.searchPlacesInArea env businessType
    (PlacesAreas.createSearchAreaFromCenter center radiusMeters) maxResults
  = Throw (PlacesAreas.notSupported businessType)
  /\ (exists s',
         AppPlaces.handleSearch env location businessType numResults
           (PlacesAreas.createSearchAreaFromCenter center radiusMeters) s
         = (Ok tt, s')
         /\ businesses s' = businesses s
         /\ error s' = Some Facts.discoveryError
         /\ isLoading s' = false)
  /\ PlacesService.searchPlacesInArea env businessType
       (PlacesAreas.createSearchAreaFromBounds bounds) maxResults
     = match PlacesService.makePlacesRequest env "/places:searchText"
               (PlacesTypes.TextBody businessType
                  {| PlacesTypes.low :=
                       {| PlacesTypes.latitude :=
                            LatLng.lat (PlacesAreas.getSouthWest bounds);
                          PlacesTypes.longitude :=
                            LatLng.lng (PlacesAreas.getSouthWest bounds) |};
                     PlacesTypes.high :=
                       {| PlacesTypes.latitude :=
                            LatLng.lat (PlacesAreas.getNorthEast bounds);
                          PlacesTypes.longitude :=
                            LatLng.lng (PlacesAreas.getNorthEast bounds) |} |}
                  (Js.Math_min maxResults PlacesService.twenty) None None)
               PlacesService.searchFieldMask with
       | Ok response => Ok (PlacesService.places_of_response response)
       | Throw e => Throw e
       end.
Proof.
  intros Hnone.
  assert (Hcircle : forall m,
    PlacesService.searchPlacesInArea env businessType
      (PlacesAreas.createSearchAreaFromCenter center radiusMeters) m
    = Throw (PlacesAreas.notSupported businessType)).
  { intros m. unfold PlacesService.searchPlacesInArea.
    cbn [PlacesAreas.createSearchAreaFromCenter PlacesTypes.type
           PlacesTypes.circle PlacesTypes.rectangle].
    now rewrite Hnone. }
  split; [apply Hcircle|]. split.
  - destruct (places_handleSearch_run env location businessType numResults
                (PlacesAreas.createSearchAreaFromCenter center radiusMeters) s)
      as [(e & _ & s' & Hrun & Hb & Hl & He)|(places & Hok & _)].
    + exists s'. auto.
    + rewrite Hcircle in Hok. discriminate.
  - unfold PlacesService.searchPlacesInArea.
    cbn [PlacesAreas.createSearchAreaFromBounds PlacesTypes.type
           PlacesTypes.circle PlacesTypes.rectangle PlacesTypes.low
           PlacesTypes.high].
    now rewrite Hnone.
Qed.

(** X14, witness: bookbinders have no mapping. *)
Lemma unmapped_type_circle_refused_witness :
  PlacesService.getPlaceTypes "Bookbinders" = PlacesTypes.TypesArray []
  /\ PlacesService.searchPlacesInArea PlacesSamples.online "Bookbinders"
       (PlacesAreas.createSearchAreaFromCenter PlacesSamples.downtown 2000%float)
       10%float
     = Throw (PlacesAreas.notSupported "Bookbinders").
Proof.
  split; [reflexivity|].
  apply (unmapped_type_circle_refused PlacesSamples.online "Austin, TX"
           "Bookbinders" "10" PlacesSamples.downtown 2000%float 10%float
           {| PlacesAreas.getNorthEast :=
                {| LatLng.lat := 31%float; LatLng.lng := (-97)%float |};
              PlacesAreas.getSouthWest :=
                {| LatLng.lat := 30%float; LatLng.lng := (-98)%float |} |}
           (Samples.store_of []) eq_refl).
Defined.

(** X20. An inherited name is not refused: for a business type that
    normalizes to [constructor] or [__proto__] the lookup returns a value
    that is not an array, whose [length] is not [0], so a circle search is
    not refused: the nearby request is made, with that value as its
    included types, and its outcome is the outcome of the search; in a
    rectangle area [constructor], whose [length] is [1], switches the
    strict type filter on without a type. *)
Theorem inherited_type_not_refused (env : Platform.t) (businessType : string)
    (center : PlacesTypes.Location) (radiusMeters maxResults : float)
    (bounds : PlacesAreas.LatLngBounds) :
  In (Js.trim (Js.toLowerCase businessType)) ["constructor"; "__proto__"] ->
  (forall types,
      PlacesService.getPlaceTypes businessType <> PlacesTypes.TypesArray types)
  /\ PlacesService.searchPlacesInArea env businessType
       (PlacesAreas.createSearchAreaFromCenter center radiusMeters) maxResults
     = match PlacesService.makePlacesRequest env "/places:searchNearby"
               (PlacesTypes.NearbyBody (PlacesService.getPlaceTypes businessType)
                  {| PlacesTypes.center := center;
                     PlacesTypes.radius := radiusMeters |}
                  (Js.Math_min maxResults PlacesService.twenty))
               PlacesService.searchFieldMask with
       | Ok response => Ok (PlacesService.places_of_response response)
       | Throw e => Throw e
       end
  /\ exists filter,
       PlacesService.searchPlacesInArea env businessType
         (PlacesAreas.createSearchAreaFromBounds bounds) maxResults
       = match PlacesService.makePlacesRequest env "/places:searchText"
                 (PlacesTypes.TextBody businessType
                    {| PlacesTypes.low :=
                         {| PlacesTypes.latitude :=
                              LatLng.lat (PlacesAreas.getSouthWest bounds);
                            PlacesTypes.longitude :=
                              LatLng.lng (PlacesAreas.getSouthWest bounds) |};
                       PlacesTypes.high :=
                         {| PlacesTypes.latitude :=
                              LatLng.lat (PlacesAreas.getNorthEast bounds);
                            PlacesTypes.longitude :=
                              LatLng.lng (PlacesAreas.getNorthEast bounds) |} |}
                    (Js.Math_min maxResults PlacesService.twenty) None filter)
                 PlacesService.searchFieldMask with
         | Ok response => Ok (PlacesService.places_of_response response)
         | Throw e => Throw e
         end
       /\ (filter = Some true
           <-> Js.trim (Js.toLowerCase businessType) = "constructor").
Proof.
  intros Hname.
  assert (Hfound :
    (Js.trim (Js.toLowerCase businessType) = "constructor"
     /\ PlacesService.getPlaceTypes businessType = PlacesTypes.InheritedFunction 1)
    \/ (Js.trim (Js.toLowerCase businessType) = "__proto__"
        /\ PlacesService.getPlaceTypes businessType
           = PlacesTypes.InheritedPrototype)).
  { unfold PlacesService.getPlaceTypes.
    destruct Hname as [E|[E|[]]]; rewrite <- E; [left | right]; now split. }
  unfold PlacesService.searchPlacesInArea.
  cbn [PlacesAreas.createSearchAreaFromCenter PlacesAreas.createSearchAreaFromBounds
         PlacesTypes.type PlacesTypes.circle PlacesTypes.rectangle
         PlacesTypes.low PlacesTypes.high PlacesTypes.center PlacesTypes.radius].
  destruct Hfound as [[Hkey ->]|[Hkey ->]];
    cbn [PlacesService.length_of PlacesService.first_of].
  - split; [discriminate|]. split; [reflexivity|].
    exists (Some true). split; [reflexivity|]. now split.
  - split; [discriminate|]. split; [reflexivity|].
    exists None. split; [reflexivity|]. rewrite Hkey.
    split; discriminate.
Qed.

(** X20, witness: the type typed as [Constructor], with a space behind. *)
Lemma inherited_type_not_refused_witness :
  In (Js.trim (Js.toLowerCase "Constructor ")) ["constructor"; "__proto__"]
  /\ PlacesService.searchPlacesInArea PlacesSamples.online "Constructor "
       (PlacesAreas.createSearchAreaFromCenter PlacesSamples.downtown 2000%float)
       10%float
     <> Throw (PlacesAreas.notSupported "Constructor ").
Proof.
  assert (Hname : In (Js.trim (Js.toLowerCase "Constructor "))
                    ["constructor"; "__proto__"]) by (left; reflexivity).
  split; [exact Hname|].
  destruct (inherited_type_not_refused PlacesSamples.online "Constructor "
              PlacesSamples.downtown 2000%float 10%float
              {| PlacesAreas.getNorthEast :=
                   {| LatLng.lat := 31%float; LatLng.lng := (-97)%float |};
                 PlacesAreas.getSouthWest :=
                   {| LatLng.lat := 30%float; LatLng.lng := (-98)%float |} |}
              Hname) as (_ & -> & _).
  vm_compute. discriminate.
Defined.

(** ** Markers of the map *)

Lemma removeOld_lookup (ids : list string) (markers : gmap string BusinessMap.Marker)
    (k : string) :
  BusinessMap.removeOld ids markers !! k
  = if decide (k ∈ ids) then None else markers !! k.
Proof.
  induction ids as [|i ids IH]; cbn [BusinessMap.removeOld fold_right].
  - destruct (decide (k ∈ [])) as [H|_]; [|reflexivity]. now apply elem_of_nil in H.
  - fold (BusinessMap.removeOld ids markers).
    destruct (decide (i = k)) as [->|Hne].
    + rewrite lookup_delete_eq.
      destruct (decide (k ∈ k :: ids)) as [_|H]; [reflexivity|].
      exfalso. apply H. now left.
    + rewrite lookup_delete_ne by exact Hne. rewrite IH.
      destruct (decide (k ∈ ids)) as [H|H], (decide (k ∈ i :: ids)) as [H'|H'];
        try reflexivity.
      * exfalso. apply H'. now right.
      * apply elem_of_cons in H' as [->|H']; [contradiction|contradiction].
Qed.

Lemma addOrKeep_step (b : Business) (pos : LatLng.t)
    (ids : gset string) (markers : gmap string BusinessMap.Marker) :
  BusinessMap.positionOf b = Some pos ->
  BusinessMap.addOrKeep (ids, markers) b
  = (ids ∖ {[ id b ]},
     match markers !! id b with
     | Some _ => markers
     | None => <[ id b := BusinessMap.newMarker b pos ]> markers
     end).
Proof. intros H. unfold BusinessMap.addOrKeep. now rewrite H. Qed.

Lemma addOrKeep_all (bs : list Business)
    (ids : gset string) (markers : gmap string BusinessMap.Marker) :
  (forall b, In b bs -> BusinessMap.hasCoords b = true) ->
  let st := fold_left BusinessMap.addOrKeep bs (ids, markers) in
  fst st = ids ∖ list_to_set (map id bs)
  /\ (forall k m, markers !! k = Some m -> snd st !! k = Some m)
  /\ (forall k, markers !! k = None ->
        match snd st !! k with
        | Some m =>
            exists b, In b bs /\ id b = k
                      /\ BusinessMap.positionOf b = Some (BusinessMap.position m)
                      /\ BusinessMap.title m
                         = Js.or_else (companyName b) (discoveryName b)
        | None => k ∉ (list_to_set (map id bs) : gset string)
        end).
Proof.
  revert ids markers. induction bs as [|b bs IH]; intros ids markers Hall; cbv zeta.
  - cbn. split; [set_solver|]. split; [auto|]. intros k ->. set_solver.
  - cbn [fold_left].
    assert (Hb : BusinessMap.hasCoords b = true) by (apply Hall; now left).
    unfold BusinessMap.hasCoords in Hb.
    destruct (BusinessMap.positionOf b) as [pos|] eqn:Hpos; [|discriminate].
    rewrite (addOrKeep_step b pos ids markers Hpos).
    specialize (IH (ids ∖ {[id b]})
                  (match markers !! id b with
                   | Some _ => markers
                   | None => <[id b := BusinessMap.newMarker b pos]> markers
                   end)
                  (fun x Hx => Hall x (or_intror Hx))).
    cbv zeta in IH. destruct IH as (Hids & Hkeep & Hnew).
    split; [rewrite Hids; cbn [map]; clear; set_solver|]. split.
    + intros k m Hk. apply Hkeep.
      destruct (markers !! id b) eqn:Hbk; [exact Hk|].
      rewrite lookup_insert_ne; [exact Hk|]. intros E. rewrite E in Hbk.
      congruence.
    + intros k Hk.
      destruct (markers !! id b) as [m0|] eqn:Hbk.
      * specialize (Hnew k Hk).
        destruct (snd (fold_left BusinessMap.addOrKeep bs _) !! k) as [m|].
        -- destruct Hnew as (x & Hx & Hrest). exists x. split; [now right|exact Hrest].
        -- cbn [map]. assert (k <> id b) by congruence. set_solver.
      * destruct (decide (id b = k)) as [E|E].
        -- subst k.
           rewrite (Hkeep (id b) (BusinessMap.newMarker b pos))
             by apply lookup_insert_eq.
           exists b. split; [now left|]. auto.
        -- specialize (Hnew k). rewrite lookup_insert_ne in Hnew by exact E.
           specialize (Hnew Hk).
           destruct (snd (fold_left BusinessMap.addOrKeep bs _) !! k) as [m|].
           ++ destruct Hnew as (x & Hx & Hrest). exists x.
              split; [now right|exact Hrest].
           ++ cbn [map]. set_solver.
Qed.

Lemma syncMarkers_lookup (businesses : list Business)
    (markers : gmap string BusinessMap.Marker) (k : string) :
  (k ∈ BusinessMap.idsWithCoords businesses ->
   match markers !! k with
   | Some m => BusinessMap.syncMarkers true businesses markers !! k = Some m
   | None =>
       exists m b,
         BusinessMap.syncMarkers true businesses markers !! k = Some m
         /\ In b businesses /\ id b = k
         /\ BusinessMap.positionOf b = Some (BusinessMap.position m)
         /\ BusinessMap.title m = Js.or_else (companyName b) (discoveryName b)
   end)
  /\ (k ∉ BusinessMap.idsWithCoords businesses ->
      BusinessMap.syncMarkers true businesses markers !! k = None).
Proof.
  unfold BusinessMap.syncMarkers, BusinessMap.idsWithCoords. cbn [negb].
  pose proof (addOrKeep_all (List.filter BusinessMap.hasCoords businesses)
                (dom markers) markers) as H.
  cbv zeta in H.
  destruct H as (Hids & Hkeep & Hnew);
    [intros b Hb; now apply filter_In in Hb|].
  destruct (fold_left BusinessMap.addOrKeep
              (List.filter BusinessMap.hasCoords businesses) (dom markers, markers))
    as [ids' ms'].
  cbn [fst snd] in *. rewrite removeOld_lookup. split.
  - intros Hk.
    destruct (decide (k ∈ elements ids')) as [Hin|_].
    { apply elem_of_elements in Hin. rewrite Hids in Hin.
      apply elem_of_difference in Hin as [_ Hin]. contradiction. }
    destruct (markers !! k) as [m|] eqn:Hm; [now apply Hkeep|].
    specialize (Hnew k Hm). destruct (ms' !! k) as [m|]; [|contradiction].
    destruct Hnew as (b & Hb & Hrest). exists m, b.
    split; [reflexivity|]. split; [|exact Hrest]. now apply filter_In in Hb.
  - intros Hk. destruct (decide (k ∈ elements ids')) as [_|Hout]; [reflexivity|].
    destruct (markers !! k) as [m|] eqn:Hm.
    + exfalso. apply Hout, elem_of_elements. rewrite Hids.
      apply elem_of_difference. split; [|exact Hk].
      apply elem_of_dom. now exists m.
    + specialize (Hnew k Hm). destruct (ms' !! k) as [m|]; [|reflexivity].
      destruct Hnew as (b & Hb & <- & _). exfalso. apply Hk.
      apply elem_of_list_to_set, list_elem_of_In, in_map, Hb.
Qed.

(** X15. The markers follow the candidates: once the map is ready, after
    the effect has run there is a marker exactly for each id of a
    candidate with coordinates; a marker that existed for such an id is
    kept as it is (it is never moved or retitled); a marker created by the
    effect has the position and the title of a candidate with that id;
    running the effect again changes nothing; and while the map is not
    ready the markers are left alone. *)
Theorem markers_follow_candidates (businesses : list Business)
    (markers : gmap string BusinessMap.Marker) :
  let after := BusinessMap.syncMarkers true businesses markers in
  dom after = BusinessMap.idsWithCoords businesses
  /\ (forall k m, markers !! k = Some m ->
        k ∈ BusinessMap.idsWithCoords businesses -> after !! k = Some m)
  /\ (forall k m, markers !! k = None -> after !! k = Some m ->
        exists b, In b businesses /\ id b = k
                  /\ BusinessMap.positionOf b = Some (BusinessMap.position m)
                  /\ BusinessMap.title m
                     = Js.or_else (companyName b) (discoveryName b))
  /\ BusinessMap.syncMarkers true businesses after = after
  /\ BusinessMap.syncMarkers false businesses markers = markers.
Proof.
  cbv zeta.
  assert (Hdom : forall ms,
    dom (BusinessMap.syncMarkers true businesses ms)
    = BusinessMap.idsWithCoords businesses).
  { intros ms. apply set_eq. intros k. rewrite elem_of_dom.
    destruct (syncMarkers_lookup businesses ms k) as [Hin Hout].
    destruct (decide (k ∈ BusinessMap.idsWithCoords businesses)) as [Hk|Hk].
    - split; [auto|]. intros _. specialize (Hin Hk).
      destruct (ms !! k) as [m|]; [now exists m|].
      destruct Hin as (m & _ & -> & _). now exists m.
    - rewrite (Hout Hk). split; [intros [m Hm]; discriminate | contradiction]. }
  split; [apply Hdom|]. split; [|split; [|split; [|reflexivity]]].
  - intros k m Hm Hk.
    destruct (syncMarkers_lookup businesses markers k) as [Hin _].
    specialize (Hin Hk). now rewrite Hm in Hin.
  - intros k m Hm Hafter.
    destruct (syncMarkers_lookup businesses markers k) as [Hin Hout].
    destruct (decide (k ∈ BusinessMap.idsWithCoords businesses)) as [Hk|Hk].
    + specialize (Hin Hk). rewrite Hm in Hin.
      destruct Hin as (m' & b & Hm' & Hrest). rewrite Hafter in Hm'.
      injection Hm' as <-. eauto.
    + rewrite (Hout Hk) in Hafter. discriminate.
  - apply map_eq. intros k.
    destruct (syncMarkers_lookup businesses
                (BusinessMap.syncMarkers true businesses markers) k)
      as [Hin Hout].
    destruct (decide (k ∈ BusinessMap.idsWithCoords businesses)) as [Hk|Hk].
    + specialize (Hin Hk).
      destruct (BusinessMap.syncMarkers true businesses markers !! k) as [m|] eqn:E;
        [exact Hin|].
      exfalso. apply (not_elem_of_dom_2 _ _ E). now rewrite Hdom.
    + rewrite (Hout Hk).
      destruct (syncMarkers_lookup businesses markers k) as [_ Hout'].
      now rewrite (Hout' Hk).
Qed.

(** ** The status of a candidate and the buttons *)

Lemma mapById_Forall (P : Business -> Prop) (target : string)
    (f : Business -> Business) (prev : list Business) :
  (forall b, P b -> P (f b)) -> Forall P prev -> Forall P (mapById target f prev).
Proof.
  intros Hf. unfold mapById. induction 1 as [|b l Hb _ IH]; cbn [map]; constructor.
  - destruct (String.eqb (id b) target); auto.
  - exact IH.
Qed.

Lemma stream_step_untouched (env : Platform.t) (P : Business -> Prop)
    (st st' : gset string * AppState) :
  (forall location businessType discovery clock,
      P (AppStream.newBusiness env location businessType discovery clock)) ->
  (forall b r, P b -> P (spread_research b r)) ->
  (forall b v, P b -> P (set_isResearching v b)) ->
  (forall b v, P b -> P (set_description v b)) ->
  (forall b v, P b -> P (set_dateFound v b)) ->
  AppStream.step env st st' ->
  Forall P (businesses (snd st)) -> Forall P (businesses (snd st')).
Proof.
  intros Hnew Hr Hi Hd Hdate Hstep Hall.
  destruct Hstep as [run s|location businessType discovery [run s]|run s b
                    |run s businessId|run s captured businessId|run s message err];
    cbn [snd] in *.
  - exact Hall.
  - unfold AppStream.onDiscovery.
    destruct (negb _ || _); [exact Hall|]. cbn [snd businesses].
    apply Forall_app. split; [exact Hall|]. constructor; [apply Hnew | constructor].
  - rewrite stream_settled_run. cbn [snd over_businesses businesses].
    destruct (GeminiService.researchBusiness env _ _);
      (apply mapById_Forall; [|exact Hall]); intros x Hx; auto.
  - cbn. apply mapById_Forall; [|exact Hall]. intros x Hx. auto.
  - rewrite stream_retry_run. destruct (find _ captured) as [b|]; [|exact Hall].
    cbv zeta. destruct (GeminiService.researchBusiness env _ _);
      cbn [snd tick over_businesses businesses];
      (apply mapById_Forall; [intros x Hx; auto|]);
      (apply mapById_Forall; [intros x Hx; auto | exact Hall]).
  - exact Hall.
Qed.

(** X16. What the streaming component never does: in every state it can
    reach, by searches, admissions, settled researches and retries in any
    order, every candidate still has the status [Discovered] and the email
    thread id [N/A] it was created with, so the Status cell of every
    exported row reads [Discovered]; the other members of the status enum
    are never assigned. *)
Theorem stream_status_stays_discovered (env : Platform.t)
    (st : gset string * AppState) :
  AppStream.reachable env st ->
  Forall (fun b => status b = DISCOVERED
                   /\ emailThreadId b = "N/A"
                   /\ nth 7 (AppStream.row b) EmptyString = "Discovered")
    (businesses (snd st)).
Proof.
  intros Hreach.
  assert (H : Forall (fun b => status b = DISCOVERED /\ emailThreadId b = "N/A")
                (businesses (snd st))).
  { induction Hreach as [|st st' _ IH Hstep]; [constructor|].
    eapply stream_step_untouched; [..|exact Hstep|exact IH]; cbn; auto. }
  eapply Forall_impl; [exact H|]. intros b [Hs Ht].
  split; [exact Hs|]. split; [exact Ht|].
  cbn [AppStream.row nth]. now rewrite Hs.
Qed.

(** X16, witness: the state after the first admission of the session. *)
Lemma stream_status_stays_discovered_witness :
  AppStream.reachable Samples.offline
    (AppStream.onDiscovery Samples.offline "Austin, TX" "Coffee Shops"
       Samples.acme_discovery (∅, initialState))
  /\ Forall (fun b => status b = DISCOVERED
                      /\ emailThreadId b = "N/A"
                      /\ nth 7 (AppStream.row b) EmptyString = "Discovered")
       (businesses (snd
          (AppStream.onDiscovery Samples.offline "Austin, TX" "Coffee Shops"
             Samples.acme_discovery (∅, initialState)))).
Proof.
  assert (H : AppStream.reachable Samples.offline
                (AppStream.onDiscovery Samples.offline "Austin, TX" "Coffee Shops"
                   Samples.acme_discovery (∅, initialState))).
  { eapply AppStream.reachable_step;
      [apply AppStream.reachable_initial | apply AppStream.step_discovery]. }
  split; [exact H|].
  exact (stream_status_stays_discovered Samples.offline _ H).
Defined.

Lemma researchAll_turn_keeps {A : Type} (g : Business -> A) (env : Platform.t)
    (l : list Business) (s : AppState) :
  (forall b r, g (spread_research b r) = g b) ->
  (forall b w p a r n, g (set_place_fields w p a r n b) = g b) ->
  (forall b v, g (set_isResearching v b) = g b) ->
  (forall b v, g (set_description v b) = g b) ->
  map g (businesses (fold_left (ResearchAll.turn env) l s)) = map g (businesses s).
Proof.
  intros Hr Hp Hi Hd. revert s. induction l as [|b l IH]; intros s; [reflexivity|].
  cbn [fold_left]. rewrite IH. unfold ResearchAll.turn.
  rewrite (places_process_keeps g) by assumption.
  cbn [over_businesses businesses]. now apply mapById_keeps.
Qed.

Lemma researchAllDisabled_status (l1 l2 : list Business) :
  map status l1 = map status l2 ->
  Buttons.researchAllDisabled l1 = Buttons.researchAllDisabled l2.
Proof.
  intros H. unfold Buttons.researchAllDisabled.
  assert (Hlen : length l1 = length l2)
    by (rewrite <- (length_map status l1), H; apply length_map).
  rewrite Hlen. f_equal. clear Hlen. revert l2 H.
  induction l1 as [|a l1 IH]; intros [|b l2] H; try discriminate; [reflexivity|].
  cbn [map] in H. injection H as Hab Hl. cbn [forallb].
  rewrite (IH l2 Hl). unfold AppPlaces.status_is_discovered. now rewrite Hab.
Qed.

(** X17. Research never advances the status: a research pass, a retry
    and Research All leave the status of every candidate as it was,
    whether the research succeeds or fails, in the geocoding component
    and in the map-search component; so Research All, which picks the
    candidates with status [Discovered], is enabled after it has run
    exactly when it was before. *)
Theorem research_keeps_status (env : Platform.t) (captured : list Business)
    (business : Business) (businessId : string) (s : AppState) :
  map status (businesses (snd (AppGeo.processResearchAndGeocoding env business s)))
  = map status (businesses s)
  /\ map status (businesses (snd (AppGeo.handleRetryResearch env captured businessId s)))
     = map status (businesses s)
  /\ map status
       (businesses (snd (AppPlaces.processResearchAndGeocoding env business s)))
     = map status (businesses s)
  /\ map status
       (businesses (snd (AppPlaces.handleRetryResearch env captured businessId s)))
     = map status (businesses s)
  /\ map status (businesses (snd (AppPlaces.researchAll env captured s)))
     = map status (businesses s)
  /\ Buttons.researchAllDisabled
       (businesses (snd (AppPlaces.researchAll env captured s)))
     = Buttons.researchAllDisabled (businesses s).
Proof.
  assert (Hall : map status (businesses (snd (AppPlaces.researchAll env captured s)))
                 = map status (businesses s)).
  { rewrite researchAll_run. cbn [snd].
    apply researchAll_turn_keeps; try reflexivity. }
  repeat split.
  - apply geo_process_keeps; try reflexivity. intros x []; reflexivity.
  - rewrite geo_retry_run. destruct (find _ captured) as [b|]; [|reflexivity].
    rewrite (geo_process_keeps status); try reflexivity.
    + cbn [tick over_businesses businesses]. now apply mapById_keeps.
    + intros x []; reflexivity.
  - apply places_process_keeps; reflexivity.
  - rewrite places_retry_run. destruct (find _ captured) as [b|]; [|reflexivity].
    rewrite (places_process_keeps status); try reflexivity.
    cbn [tick over_businesses businesses]. now apply mapById_keeps.
  - exact Hall.
  - now apply researchAllDisabled_status.
Qed.

(** X18. Research All hands the export back: when the export button is
    enabled (the store is not empty and no candidate is being researched)
    and Research All runs to its end, the export button is enabled again,
    whatever list the handler captured and whichever researches failed. *)
Theorem research_all_leaves_exportable (env : Platform.t)
    (captured : list Business) (s : AppState) :
  Buttons.exportDisabled (businesses s) = false ->
  Buttons.exportDisabled (businesses (snd (AppPlaces.researchAll env captured s)))
  = false.
Proof.
  unfold Buttons.exportDisabled. intros H.
  apply orb_false_iff in H as [Hlen Hnone].
  rewrite researchAll_run. cbn [snd].
  destruct (researchAll_turns_frame env (ResearchAll.toResearch captured) s)
    as [Hids Hkeep].
  apply orb_false_iff. split.
  - rewrite <- (length_map id), Hids, length_map. exact Hlen.
  - apply not_true_is_false. intros Hsome.
    apply existsb_exists in Hsome as (x & Hin & Hx).
    destruct (in_dec String.string_dec (id x)
                (map id (ResearchAll.toResearch captured))) as [Hp|Hp].
    + rewrite (researchAll_turns_settle env _ s x Hin Hp) in Hx. discriminate.
    + pose proof Hin as Hin'.
      apply list_elem_of_In, list_elem_of_lookup in Hin' as [i Hi].
      destruct (lookup_same_ids _ _ i x Hids Hi) as (y & Hy & Hyx).
      assert (E : businesses (fold_left (ResearchAll.turn env)
                                (ResearchAll.toResearch captured) s) !! i = Some y).
      { apply Hkeep; [exact Hy | now rewrite Hyx]. }
      rewrite Hi in E. injection E as ->.
      assert (Hfalse : existsb isResearching (businesses s) = true).
      { apply existsb_exists. exists y. split; [|exact Hx].
        apply list_elem_of_In, list_elem_of_lookup. eauto. }
      congruence.
Qed.

(** X18, witness: Research All on a store of one candidate, offline,
    where every research fails. *)
Lemma research_all_leaves_exportable_witness :
  Buttons.exportDisabled
    (businesses (Samples.store_of [Samples.acme])) = false
  /\ Buttons.exportDisabled
       (businesses (snd (AppPlaces.researchAll Samples.offline
                           [Samples.acme; Samples.beta]
                           (Samples.store_of [Samples.acme]))))
     = false.
Proof.
  split; [reflexivity|].
  apply (research_all_leaves_exportable Samples.offline
           [Samples.acme; Samples.beta]
           (Samples.store_of [Samples.acme])).
  reflexivity.
Defined.
